(** * Biotite: MDL connection tables and chain utilities

    A shallow embedding of

    - [biotite/structure/io/ctab.py]  ([read_structure_from_ctab],
      [write_structure_to_ctab], [_get_counts] and the four mapping tables),
    - [biotite/structure/chains.py]   ([get_chain_starts], [get_chains],
      [get_chain_count], [chain_iter]),

    together with the properties the design document states about them.

    Conventions of the embedding.

    - A Python [str] is a [list ascii]; the file format is ASCII, and
      characters above code point 127 are outside the model (they are kept
      as they are and are neither blank nor letters).
    - A Python [int] is a [Z].  Values stored in a [numpy.uint32] array are
      reduced modulo [2^32] at the store.
    - Exceptions are values of [exn]; a function that can raise returns a
      [result].  [warnings.warn] appends to a list that is returned next to
      the result, in the order of the calls.
    - [float(...)] and the [.5f] format are operations of a [Float]
      interface: the codec never computes with a coordinate, it only reads
      and prints it.  *)

From Stdlib Require Import ZArith List Ascii String Lia Bool.
From Stdlib Require Import DecimalString.
From stdpp Require Import gmap list strings.

Local Open Scope Z_scope.

(** ** Python built-ins used by the sources *)

Definition pystr := list ascii.

(** String literals of the sources. *)
Definition lit (s : string) : pystr := list_ascii_of_string s.

(** [str.isspace] on one ASCII character: TAB, LF, VT, FF, CR, the four
    separators FS, GS, RS, US, and the space. *)
Definition is_space (c : ascii) : bool :=
  let n := N_of_ascii c in
  ((9 <=? n)%N && (n <=? 13)%N) || ((28 <=? n)%N && (n <=? 32)%N).

Fixpoint lstrip (s : pystr) : pystr :=
  match s with
  | c :: r => if is_space c then lstrip r else s
  | [] => []
  end.

Definition rstrip (s : pystr) : pystr := rev (lstrip (rev s)).

(** [s.strip()] *)
Definition strip (s : pystr) : pystr := rstrip (lstrip s).

(** [s.upper()] on ASCII text. *)
Definition upper_char (c : ascii) : ascii :=
  let n := N_of_ascii c in
  if (97 <=? n)%N && (n <=? 122)%N then ascii_of_N (n - 32) else c.

Definition upper (s : pystr) : pystr := map upper_char s.

(** [s.split()]: the maximal runs of non-blank characters, in order.
    [cur] holds the characters of the current run, last one first. *)
Fixpoint split_from (cur : pystr) (s : pystr) : list pystr :=
  match s with
  | [] => match cur with [] => [] | _ => [rev cur] end
  | c :: r =>
      if is_space c
      then match cur with
           | [] => split_from [] r
           | _ => rev cur :: split_from [] r
           end
      else split_from (c :: cur) r
  end.

Definition split (s : pystr) : list pystr := split_from [] s.

Definition digit_val (c : ascii) : option Z :=
  let n := N_of_ascii c in
  if (48 <=? n)%N && (n <=? 57)%N then Some (Z.of_N n - 48) else None.

(** The digits of an integer literal: decimal digits, a single underscore
    allowed between two digits.  [after_digit] tells whether the previous
    character was a digit. *)
Fixpoint int_digits (acc : Z) (after_digit : bool) (s : pystr) : option Z :=
  match s with
  | [] => if after_digit then Some acc else None
  | c :: r =>
      match digit_val c with
      | Some d => int_digits (10 * acc + d) true r
      | None =>
          if (N_of_ascii c =? 95)%N && after_digit
          then int_digits acc false r
          else None
      end
  end.

(** The blanks that [int(s)] and [float(s)] skip at both ends of [s]:
    TAB, LF, VT, FF, CR and the space, but not the separators FS, GS, RS
    and US that [str.strip] removes as well. *)
Definition is_c_space (c : ascii) : bool :=
  let n := N_of_ascii c in
  ((9 <=? n)%N && (n <=? 13)%N) || (n =? 32)%N.

Fixpoint c_lstrip (s : pystr) : pystr :=
  match s with
  | c :: r => if is_c_space c then c_lstrip r else s
  | [] => []
  end.

Definition c_strip (s : pystr) : pystr := rev (c_lstrip (rev (c_lstrip s))).

(** [int(s)] for a string [s]; [None] stands for [ValueError]. *)
Definition int_of_str (s : pystr) : option Z :=
  match c_strip s with
  | c :: r =>
      if (N_of_ascii c =? 43)%N then int_digits 0 false r
      else if (N_of_ascii c =? 45)%N then Z.opp <$> int_digits 0 false r
      else int_digits 0 false (c :: r)
  | [] => None
  end.

(** [str(n)] for an integer [n]. *)
Definition str_of_int (n : Z) : pystr :=
  lit (NilZero.string_of_int (Z.to_int n)).

(** The format [>w]: right-justify in [w] columns, never truncate. *)
Definition rjust (w : nat) (s : pystr) : pystr :=
  replicate (w - length s)%nat " "%char ++ s.

(** The format [>3d] *)
Definition fmt_3d (n : Z) : pystr := rjust 3 (str_of_int n).

(** Python's treatment of one bound of a slice [l[a:b]] on a sequence of
    length [len]: a negative bound counts from the end, and every bound is
    clamped to [0..len]. *)
Definition slice_bound (len i : Z) : Z :=
  if i <? 0 then Z.max 0 (i + len) else Z.min i len.

(** [l[start:stop]] *)
Definition pyslice {A} (l : list A) (start stop : Z) : list A :=
  let len := Z.of_nat (length l) in
  let a := slice_bound len start in
  let b := slice_bound len stop in
  take (Z.to_nat (b - a)) (drop (Z.to_nat a) l).

(** ** Exceptions and warnings *)

Inductive exn : Set :=
| IndexError
| ValueError
| TypeError
| AttributeError
| BadStructureError.

Inductive result (A : Type) : Type :=
| Ok (a : A)
| Err (e : exn).
Arguments Ok {A} a.
Arguments Err {A} e.

(** The two messages [read_structure_from_ctab] can pass to
    [warnings.warn], with the code each message prints. *)
Inductive warning : Set :=
| ChargeWarning (code : Z)
| BondTypeWarning (code : Z).

(** A computation that may raise and may warn: its outcome and the
    warnings issued up to the return or the raise. *)
Definition M (A : Type) : Type := result A * list warning.

Definition ret {A} (a : A) : M A := (Ok a, []).
Definition raise {A} (e : exn) : M A := (Err e, []).
Definition warn (w : warning) : M unit := (Ok tt, [w]).

Definition bind {A B} (m : M A) (f : A -> M B) : M B :=
  match m with
  | (Ok a, ws) => let '(r, ws') := f a in (r, ws ++ ws')
  | (Err e, ws) => (Err e, ws)
  end.

Notation "x <- m ;; k" := (bind m (fun x => k))
  (at level 100, m at next level, right associativity).

(** An optional value, raising [e] when it is absent. *)
Definition orRaise {A} (e : exn) (o : option A) : M A :=
  match o with Some a => ret a | None => raise e end.

(** [for i, x in enumerate(xs)] with a loop body that updates [st]. *)
Fixpoint for_enumerate {A St} (body : St -> nat -> A -> M St)
    (i : nat) (xs : list A) (st : St) : M St :=
  match xs with
  | [] => ret st
  | x :: r => st' <- body st i x ;; for_enumerate body (S i) r st'
  end.

(** [a[i] = v] on a sequence: [IndexError] out of range. *)
Definition store {A} (l : list A) (i : nat) (v : A) : M (list A) :=
  if decide (i < length l)%nat then ret (<[i := v]> l) else raise IndexError.

(** [a[i]] for a non-negative index. *)
Definition item {A} (l : list A) (i : nat) : M A := orRaise IndexError (l !! i).

(** [[f(x) for x in xs]] *)
Fixpoint for_each {A B} (f : A -> M B) (xs : list A) : M (list B) :=
  match xs with
  | [] => ret []
  | x :: r => y <- f x ;; ys <- for_each f r ;; ret (y :: ys)
  end.

(** [s * n] for a string [s] *)
Fixpoint str_times (s : pystr) (n : nat) : pystr :=
  match n with
  | O => []
  | S k => s ++ str_times s k
  end.

(** A dictionary display [{k1 : v1, k2 : v2, ...}], and likewise a
    comprehension over such pairs: the entries are inserted from left to
    right, so a later entry replaces an earlier one with the same key. *)
Definition dict_of_items {V} (items : list (Z * V)) : gmap Z V :=
  foldl (fun m kv => <[kv.1 := kv.2]> m) ∅ items.

(** ** Coordinates *)

(** What the codec needs of the coordinate scalar: [float(s)] followed by
    the store into the coordinate array ([None] for [ValueError]), the
    presentation type [.5f] of a stored coordinate, and the value a fresh
    [AtomArray] is filled with. *)
Class Float : Type := {
  F : Type;
  float_of_str : pystr -> option F;
  format_5f : F -> pystr;
  nan : F;
}.

(** The format [>10.5f] *)
Definition fmt_10_5f `{Float} (x : F) : pystr := rjust 10 (format_5f x).

(** ** The structure model used by the codec *)

(** Modelled from the spec: the members of [BondType] (module
    [biotite.structure.bonds] is not among the sources).  The codec names
    four members; an integer enumeration, each member is stored in the bond
    array as its value. *)
Inductive BondType : Set := ANY | SINGLE | DOUBLE | TRIPLE.

Definition BondType_value (b : BondType) : Z :=
  match b with ANY => 0 | SINGLE => 1 | DOUBLE => 2 | TRIPLE => 3 end.

(** Modelled from the spec: [BondList] (same module), the list of
    (atom-i, atom-j, bond-order) triples of section 3 together with the
    atom count it refers to; [as_array] returns the triples. *)
Record BondList : Type := {
  atom_count : Z;
  bond_rows : list (Z * Z * Z);
}.

Definition as_array (b : BondList) : list (Z * Z * Z) := bond_rows b.

(** The invariant of a bond list (section 3): a set of bonds between
    valid atoms.  Every atom index is one of [0 .. atom_count - 1], the two
    indices of a bond are in ascending order, and no two bonds join the
    same two atoms. *)
Definition BondList_valid (b : BondList) : Prop :=
  Forall (fun r : Z * Z * Z => 0 <= r.1.1 <= r.1.2 /\ r.1.2 < atom_count b)
         (bond_rows b)
  /\ NoDup (map fst (bond_rows b)).

(** Modelled from the spec: what the constructor [BondList(atom_count,
    bonds)] makes of an array of rows, so that the result is a set of
    bonds between valid atoms: the two atom indices of a row are put in
    ascending order, and of several rows with the same two atoms the first
    is kept, in its place. *)
Definition sorted_bond (row : Z * Z * Z) : Z * Z * Z :=
  let '(i, j, t) := row in (Z.min i j, Z.max i j, t).

Definition same_atoms (p q : Z * Z) : bool :=
  (p.1 =? q.1) && (p.2 =? q.2).

Fixpoint remove_redundant_bonds (seen : list (Z * Z)) (rows : list (Z * Z * Z))
    : list (Z * Z * Z) :=
  match rows with
  | [] => []
  | r :: rest =>
      if existsb (same_atoms r.1) seen
      then remove_redundant_bonds seen rest
      else r :: remove_redundant_bonds (r.1 :: seen) rest
  end.

(** Modelled from the spec: [AtomArray] (module [biotite.structure.atoms]
    is not among the sources): parallel arrays indexed by atom position,
    the optional [charge] annotation and the optional bond list. *)
Record AtomArray `{Float} : Type := {
  coord : list (F * F * F);
  element : list pystr;
  charge : option (list Z);
  bonds : option BondList;
}.

(** An [AtomArrayStack] holds one coordinate array per model. *)
Record AtomArrayStack `{Float} : Type := {
  stack_coord : list (list (F * F * F));
  stack_element : list pystr;
  stack_charge : option (list Z);
  stack_bonds : option BondList;
}.

(** What [write_structure_to_ctab] may be handed: the [isinstance] test
    tells the two apart. *)
Inductive structure `{Float} : Type :=
| Array (atoms : AtomArray)
| Stack (stack : AtomArrayStack).

Section Codec.
Context `{Float}.

Definition array_length (atoms : AtomArray) : nat := length (coord atoms).

(** [AtomArray(n)]: [n] atoms with default entries, no [charge]
    annotation and no bond list; a negative length is refused by the array
    allocation. *)
Definition AtomArray_new (n : Z) : M AtomArray :=
  if n <? 0 then raise ValueError
  else ret {| coord := replicate (Z.to_nat n) (nan, nan, nan);
              element := replicate (Z.to_nat n) [];
              charge := None;
              bonds := None |}.

(** [atoms.add_annotation("charge", int)] *)
Definition add_charge_annotation (atoms : AtomArray) : AtomArray :=
  {| coord := coord atoms;
     element := element atoms;
     charge := Some (replicate (array_length atoms) 0);
     bonds := bonds atoms |}.

Definition set_axis (k : nat) (v : F) (row : F * F * F) : F * F * F :=
  let '(x, y, z) := row in
  match k with
  | O => (v, y, z)
  | 1%nat => (x, v, z)
  | _ => (x, y, v)
  end.

(** [atoms.coord[i, k] = v] *)
Definition set_coord (atoms : AtomArray) (i k : nat) (v : F) : M AtomArray :=
  row <- item (coord atoms) i ;;
  c <- store (coord atoms) i (set_axis k v row) ;;
  ret {| coord := c; element := element atoms;
         charge := charge atoms; bonds := bonds atoms |}.

(** [atoms.element[i] = e]: the entries of the [element] annotation are
    strings of at most two characters, and the store keeps the first two
    characters of a longer one. *)
Definition set_element (atoms : AtomArray) (i : nat) (e : pystr) : M AtomArray :=
  l <- store (element atoms) i (take 2 e) ;;
  ret {| coord := coord atoms; element := l;
         charge := charge atoms; bonds := bonds atoms |}.

(** [atoms.charge[i] = q]; the annotation has been added before. *)
Definition set_charge (atoms : AtomArray) (i : nat) (q : Z) : M AtomArray :=
  match charge atoms with
  | Some qs =>
      l <- store qs i q ;;
      ret {| coord := coord atoms; element := element atoms;
             charge := Some l; bonds := bonds atoms |}
  | None => raise AttributeError
  end.

(** [atoms.bonds = b] *)
Definition set_bonds (atoms : AtomArray) (b : BondList) : AtomArray :=
  {| coord := coord atoms; element := element atoms;
     charge := charge atoms; bonds := Some b |}.

(** *** The four tables *)

Definition BOND_TYPE_MAPPING_items : list (Z * BondType) :=
  [ (1, SINGLE); (2, DOUBLE); (3, TRIPLE);
    (6, SINGLE); (7, DOUBLE); (8, ANY) ].

Definition CHARGE_MAPPING_items : list (Z * Z) :=
  [ (0, 0); (1, 3); (2, 2); (3, 1); (5, -1); (6, -2); (7, -3) ].

Definition BOND_TYPE_MAPPING : gmap Z BondType :=
  dict_of_items BOND_TYPE_MAPPING_items.

Definition CHARGE_MAPPING : gmap Z Z :=
  dict_of_items CHARGE_MAPPING_items.

(** [{val: key for key, val in BOND_TYPE_MAPPING.items()}]; a member of
    [BondType] and the integer stored in a bond array hash and compare
    alike, so the keys are the members' values. *)
Definition BOND_TYPE_MAPPING_REV : gmap Z Z :=
  dict_of_items
    (map (fun kv => (BondType_value kv.2, kv.1)) BOND_TYPE_MAPPING_items).

Definition CHARGE_MAPPING_REV : gmap Z Z :=
  dict_of_items (map (fun kv => (kv.2, kv.1)) CHARGE_MAPPING_items).

(** [d.get(k, default)] *)
Definition get {V} (d : gmap Z V) (k : Z) (default : V) : V :=
  match d !! k with Some v => v | None => default end.

(** A store into a [uint32] array. *)
Definition to_uint32 (v : Z) : Z := v mod 2 ^ 32.

(** *** Parsing *)

Definition _get_counts (counts_line : pystr) : M (Z * Z) :=
  let elements := split counts_line in
  e0 <- item elements 0 ;;
  n0 <- orRaise ValueError (int_of_str e0) ;;
  e1 <- item elements 1 ;;
  n1 <- orRaise ValueError (int_of_str e1) ;;
  ret (n0, n1).

(** The body of the loop over the atom lines. *)
Definition read_atom_line (atoms : AtomArray) (i : nat) (line : pystr)
    : M AtomArray :=
  x <- orRaise ValueError (float_of_str (pyslice line 0 10)) ;;
  atoms <- set_coord atoms i 0 x ;;
  y <- orRaise ValueError (float_of_str (pyslice line 10 20)) ;;
  atoms <- set_coord atoms i 1 y ;;
  z <- orRaise ValueError (float_of_str (pyslice line 20 30)) ;;
  atoms <- set_coord atoms i 2 z ;;
  atoms <- set_element atoms i (upper (strip (pyslice line 31 34))) ;;
  code <- orRaise ValueError (int_of_str (pyslice line 36 39)) ;;
  q <- match CHARGE_MAPPING !! code with
       | Some q => ret q
       | None =>
           code' <- orRaise ValueError (int_of_str (pyslice line 36 39)) ;;
           _ <- warn (ChargeWarning code') ;;
           ret 0
       end ;;
  set_charge atoms i q.

Definition set_row (k : nat) (v : Z) (row : Z * Z * Z) : Z * Z * Z :=
  let '(a, b, c) := row in
  match k with
  | O => (to_uint32 v, b, c)
  | 1%nat => (a, to_uint32 v, c)
  | _ => (a, b, to_uint32 v)
  end.

(** [bond_array[i, k] = v] *)
Definition set_bond (bond_array : list (Z * Z * Z)) (i k : nat) (v : Z)
    : M (list (Z * Z * Z)) :=
  row <- item bond_array i ;;
  store bond_array i (set_row k v row).

(** The body of the loop over the bond lines. *)
Definition read_bond_line (bond_array : list (Z * Z * Z)) (i : nat)
    (line : pystr) : M (list (Z * Z * Z)) :=
  code <- orRaise ValueError (int_of_str (pyslice line 6 9)) ;;
  let bond_type := get BOND_TYPE_MAPPING code ANY in
  _ <- match bond_type with
       | ANY =>
           code' <- orRaise ValueError (int_of_str (pyslice line 6 9)) ;;
           warn (BondTypeWarning code')
       | _ => ret tt
       end ;;
  a <- orRaise ValueError (int_of_str (pyslice line 0 3)) ;;
  bond_array <- set_bond bond_array i 0 (a - 1) ;;
  b <- orRaise ValueError (int_of_str (pyslice line 3 6)) ;;
  bond_array <- set_bond bond_array i 1 (b - 1) ;;
  set_bond bond_array i 2 (BondType_value bond_type).

(** Modelled from the spec: [BondList(atom_count, bonds)] for an array
    [bonds] of unsigned rows.  An empty array gives the empty bond list.
    Otherwise an atom index that is not below [atom_count] raises
    [IndexError], and the rows are normalised as described above. *)
Definition BondList_new (atom_count : Z) (bonds : list (Z * Z * Z))
    : M BondList :=
  match bonds with
  | [] => ret {| atom_count := atom_count; bond_rows := [] |}
  | _ =>
      if forallb (fun r : Z * Z * Z =>
                    (r.1.1 <? atom_count) && (r.1.2 <? atom_count)) bonds
      then ret {| atom_count := atom_count;
                  bond_rows := remove_redundant_bonds []
                                 (map sorted_bond bonds) |}
      else raise IndexError
  end.

(** [np.zeros((n, 3), dtype=np.uint32)] *)
Definition zeros3 (n : Z) : M (list (Z * Z * Z)) :=
  if n <? 0 then raise ValueError
  else ret (replicate (Z.to_nat n) (0, 0, 0)).

Definition read_structure_from_ctab (ctab_lines : list pystr) : M AtomArray :=
  counts_line <- item ctab_lines 0 ;;
  counts <- _get_counts counts_line ;;
  let n_atoms := counts.1 in
  let n_bonds := counts.2 in
  let atom_lines := pyslice ctab_lines 1 (1 + n_atoms) in
  let bond_lines := pyslice ctab_lines (1 + n_atoms) (1 + n_atoms + n_bonds) in
  atoms <- AtomArray_new n_atoms ;;
  let atoms := add_charge_annotation atoms in
  atoms <- for_enumerate read_atom_line 0 atom_lines atoms ;;
  bond_array <- zeros3 n_bonds ;;
  bond_array <- for_enumerate read_bond_line 0 bond_lines bond_array ;;
  bond_list <- BondList_new n_atoms bond_array ;;
  ret (set_bonds atoms bond_list).

(** *** Serializing *)

(** The three f-strings of [write_structure_to_ctab], as functions of the
    values they format. *)
Definition atom_line_text (row : F * F * F) (e : pystr) (code : Z) : pystr :=
  fmt_10_5f row.1.1 ++ fmt_10_5f row.1.2 ++ fmt_10_5f row.2
  ++ (lit " " ++ rjust 3 e)
  ++ (lit "  " ++ fmt_3d code)
  ++ str_times (fmt_3d 0) 10.

Definition bond_line_text (a b code : Z) : pystr :=
  (fmt_3d a ++ fmt_3d b ++ fmt_3d code) ++ str_times (fmt_3d 0) 4.

Definition counts_line_text (n_atoms n_bonds : Z) : pystr :=
  (fmt_3d n_atoms ++ fmt_3d n_bonds ++ lit "   ")
  ++ lit "  0  0  0  0  0  1 V2000".

(** One entry of the [atom_lines] comprehension. *)
Definition write_atom_line (atoms : AtomArray) (charge : list Z) (i : nat)
    : M pystr :=
  row <- item (coord atoms) i ;;
  e <- item (element atoms) i ;;
  q <- item charge i ;;
  ret (atom_line_text row e (get CHARGE_MAPPING_REV q 0)).

(** One entry of the [bond_lines] comprehension. *)
Definition write_bond_line (row : Z * Z * Z) : pystr :=
  let '(i, j, bond_type) := row in
  bond_line_text (i + 1) (j + 1) (get BOND_TYPE_MAPPING_REV bond_type 0).

Definition write_structure_to_ctab (atoms : structure) : M (list pystr) :=
  match atoms with
  | Stack _ => raise TypeError
  | Array atoms =>
      match bonds atoms with
      | None => raise BadStructureError
      | Some bond_list =>
          let charge :=
            match charge atoms with
            | Some q => q
            | None => replicate (array_length atoms) 0
            end in
          atom_lines <-
            for_each (write_atom_line atoms charge)
                     (seq 0 (array_length atoms)) ;;
          let bond_lines := map write_bond_line (as_array bond_list) in
          let counts_line :=
            counts_line_text (Z.of_nat (length atom_lines))
                             (Z.of_nat (length bond_lines)) in
          ret ([counts_line] ++ atom_lines ++ bond_lines ++ [lit "M  END"])
      end
  end.

(** The invariant of an [AtomArray] (section 3): every annotation array
    has the length of the coordinate array. *)
Definition wf_atoms (atoms : AtomArray) : Prop :=
  length (element atoms) = array_length atoms
  /\ match charge atoms with
     | Some q => length q = array_length atoms
     | None => True
     end.

End Codec.

(** ** A decimal coordinate type for closed examples

    [Fixed5] is an instance of [Float] with exact decimal values of five
    fractional digits, and one extra value for [nan].  It reads plain
    decimal literals ([-12.5], [3], [.25], [nan]) with at most five
    fractional digits and refuses every other text; on the literals used in
    the examples of this file (few digits, a fraction that is a multiple of
    a power of one half) it prints and reads what the binary coordinate
    array prints and reads. *)

(** The value of a run of decimal digits; the empty run counts as 0. *)
Fixpoint digits_value (acc : Z) (s : pystr) : option Z :=
  match s with
  | [] => Some acc
  | c :: r =>
      match digit_val c with
      | Some d => digits_value (10 * acc + d) r
      | None => None
      end
  end.

(** The text before the first full stop, and the text after it if there
    is one. *)
Fixpoint cut_at_point (s : pystr) : pystr * option pystr :=
  match s with
  | [] => ([], None)
  | c :: r =>
      if (N_of_ascii c =? 46)%N then ([], Some r)
      else let '(a, b) := cut_at_point r in (c :: a, b)
  end.

Definition fixed5_magnitude (s : pystr) : option Z :=
  let '(ip, fp) := cut_at_point s in
  let fp := match fp with Some f => f | None => [] end in
  if bool_decide (ip = [] /\ fp = []) then None
  else if bool_decide (5 < length fp)%nat then None
  else
    match digits_value 0 ip, digits_value 0 fp with
    | Some i, Some f =>
        Some (i * 100000 + f * 10 ^ Z.of_nat (5 - length fp))
    | _, _ => None
    end.

Definition fixed5_of_str (s : pystr) : option (option Z) :=
  match c_strip s with
  | [] => None
  | c :: r =>
      if bool_decide (c :: r = lit "nan") then Some None
      else if (N_of_ascii c =? 45)%N
      then (fun v => Some (- v)) <$> fixed5_magnitude r
      else if (N_of_ascii c =? 43)%N
      then Some <$> fixed5_magnitude r
      else Some <$> fixed5_magnitude (c :: r)
  end.

(** Five digits, zero-filled on the left. *)
Definition zfill5 (s : pystr) : pystr :=
  replicate (5 - length s)%nat "0"%char ++ s.

Definition fixed5_format (x : option Z) : pystr :=
  match x with
  | None => lit "nan"
  | Some v =>
      (if v <? 0 then lit "-" else [])
      ++ str_of_int (Z.abs v / 100000) ++ lit "."
      ++ zfill5 (str_of_int (Z.abs v mod 100000))
  end.

Definition Fixed5 : Float :=
  {| F := option Z;
     float_of_str := fixed5_of_str;
     format_5f := fixed5_format;
     nan := None |}.

(** ** Chains ([chains.py]) *)

(** The functions of [chains.py] take "an atom array (stack)": anything
    with a [chain_id] annotation, an [array_length] and slicing along the
    atom axis. *)
Class AtomSeq (T : Type) : Type := {
  chain_id : T -> list pystr;
  seq_length : T -> Z;
  atom_slice : T -> Z -> Z -> T;
}.

(** The annotation has one entry per atom, and slicing the array slices
    the annotation. *)
Class AtomSeqLaws (T : Type) `{AtomSeq T} : Prop := {
  seq_length_chain_id : forall a : T, seq_length a = Z.of_nat (length (chain_id a));
  chain_id_atom_slice : forall (a : T) (i j : Z),
      chain_id (atom_slice a i j) = pyslice (chain_id a) i j;
}.

(** [x != y] on two arrays of the same length, element by element. *)
Definition np_not_equal (xs ys : list pystr) : list bool :=
  zip_with (fun x y => negb (bool_decide (x = y))) xs ys.

(** [np.where(mask)[0]], the indices counted from [i]. *)
Fixpoint where_from (i : Z) (mask : list bool) : list Z :=
  match mask with
  | [] => []
  | b :: r => if b then i :: where_from (i + 1) r else where_from (i + 1) r
  end.

Definition np_where (mask : list bool) : list Z := where_from 0 mask.

Section ChainsDefs.
Context {T : Type} `{AtomSeq T}.

Definition get_chain_starts (array : T) : list Z :=
  let chain_ids := chain_id array in
  let len := Z.of_nat (length chain_ids) in
  let chain_changes :=
    map (fun i => i + 1)
        (np_where (np_not_equal (pyslice chain_ids 0 (-1))
                                (pyslice chain_ids 1 len))) in
  let chain_starts := [0] ++ chain_changes in
  chain_starts.

(** [array.chain_id[get_chain_starts(array)]] *)
Definition get_chains (array : T) : M (list pystr) :=
  for_each (fun i => item (chain_id array) (Z.to_nat i))
           (get_chain_starts array).

Definition get_chain_count (array : T) : Z :=
  Z.of_nat (length (get_chain_starts array)).

(** The generator, as the list of the values it yields. *)
Definition chain_iter (array : T) : M (list T) :=
  let starts := get_chain_starts array ++ [seq_length array] in
  for_each (fun i =>
              a <- item starts i ;;
              b <- item starts (i + 1) ;;
              ret (atom_slice array a b))
           (seq 0 (length starts - 1)).

End ChainsDefs.

(** A plain array for closed examples: one chain id per atom. *)
Definition IdArray : AtomSeq (list pystr) :=
  {| chain_id := fun a => a;
     seq_length := fun a => Z.of_nat (length a);
     atom_slice := fun a i j => pyslice a i j |}.

(** All entries of a list are the same. *)
Definition constant {A} (l : list A) : Prop :=
  forall x y, x ∈ l -> y ∈ l -> x = y.

(** The pairs of neighbours of a list of bounds. *)
Definition neighbours (bounds : list Z) : list (Z * Z) :=
  zip bounds (tail bounds).

(** ** Derived notions used in the statements *)

(** The charge a code stands for, the enumeration written out. *)
Definition charge_of_code (code : Z) : option Z :=
  match code with
  | 0 => Some 0 | 1 => Some 3 | 2 => Some 2 | 3 => Some 1
  | 5 => Some (-1) | 6 => Some (-2) | 7 => Some (-3)
  | _ => None
  end.

Definition bond_type_of_code (code : Z) : option BondType :=
  match code with
  | 1 => Some SINGLE | 2 => Some DOUBLE | 3 => Some TRIPLE
  | 6 => Some SINGLE | 7 => Some DOUBLE | 8 => Some ANY
  | _ => None
  end.

Definition code_of_charge (q : Z) : Z :=
  match q with
  | 0 => 0 | 3 => 1 | 2 => 2 | 1 => 3 | -1 => 5 | -2 => 6 | -3 => 7
  | _ => 0
  end.

Definition code_of_bond_value (t : Z) : Z :=
  match t with
  | 1 => 6 | 2 => 7 | 3 => 3 | 0 => 8
  | _ => 0
  end.

Section ReadNotions.

Context `{Float}.

(** The warning an atom line with charge code [code] gives rise to. *)
Definition charge_warnings (code : Z) : list warning :=
  match charge_of_code code with
  | Some _ => []
  | None => [ChargeWarning code]
  end.

(** The bond type a code is read as, and the warning that goes with it. *)
Definition bond_type_read (code : Z) : BondType :=
  default ANY (bond_type_of_code code).

Definition bond_warnings (code : Z) : list warning :=
  match bond_type_read code with
  | ANY => [BondTypeWarning code]
  | _ => []
  end.

(** [splice i new l]: [l] with the entries from position [i] on replaced
    by those of [new]. *)
Definition splice {A} (i : nat) (new l : list A) : list A :=
  take i l ++ new ++ drop (i + length new) l.

(** What an atom line is read as: three coordinates and a charge code. *)
Definition atom_line_reads (line : pystr) (d : F * F * F * Z) : Prop :=
  float_of_str (pyslice line 0 10) = Some d.1.1.1
  /\ float_of_str (pyslice line 10 20) = Some d.1.1.2
  /\ float_of_str (pyslice line 20 30) = Some d.1.2
  /\ int_of_str (pyslice line 36 39) = Some d.2.

Definition element_read (line : pystr) : pystr :=
  take 2 (upper (strip (pyslice line 31 34))).

Definition charge_read (code : Z) : Z := default 0 (charge_of_code code).

(** What a bond line is read as: two atom numbers and a type code. *)
Definition bond_line_reads (line : pystr) (d : Z * Z * Z) : Prop :=
  int_of_str (pyslice line 0 3) = Some d.1.1
  /\ int_of_str (pyslice line 3 6) = Some d.1.2
  /\ int_of_str (pyslice line 6 9) = Some d.2.

Definition bond_row_read (d : Z * Z * Z) : Z * Z * Z :=
  (to_uint32 (d.1.1 - 1), to_uint32 (d.1.2 - 1),
   to_uint32 (BondType_value (bond_type_read d.2))).

(** The rows of the bond array after the loop over the bond lines: what
    the lines present were read as, and rows of zeros for the rest. *)
Definition rows_read (m : Z) (bs : list (Z * Z * Z)) : list (Z * Z * Z) :=
  splice 0 (map bond_row_read bs) (replicate (Z.to_nat m) (0, 0, 0)).

(** Every atom index of the rows is below [n]. *)
Definition rows_in_range (n : Z) (rows : list (Z * Z * Z)) : Prop :=
  Forall (fun r : Z * Z * Z => r.1.1 < n /\ r.1.2 < n) rows.

(** The bond list made of rows that are in range. *)
Definition bonds_made (n : Z) (rows : list (Z * Z * Z)) : BondList :=
  {| atom_count := n;
     bond_rows := remove_redundant_bonds [] (map sorted_bond rows) |}.

(** The record [read_structure_from_ctab] builds from [n] declared atoms,
    [m] declared bonds and what the lines present were read as. *)
Definition atoms_read (n m : Z) (atom_lines : list pystr)
    (ds : list (F * F * F * Z)) (bs : list (Z * Z * Z)) : AtomArray :=
  {| coord := splice 0 (map fst ds) (replicate (Z.to_nat n) (nan, nan, nan));
     element := splice 0 (map element_read atom_lines)
                         (replicate (Z.to_nat n) []);
     charge := Some (splice 0 (map (fun d => charge_read d.2) ds)
                               (replicate (Z.to_nat n) 0));
     bonds := Some (bonds_made n (rows_read m bs)) |}.

Definition read_warnings (ds : list (F * F * F * Z)) (bs : list (Z * Z * Z))
    : list warning :=
  concat (map (fun d => charge_warnings d.2) ds)
  ++ concat (map (fun d => bond_warnings d.2) bs).

End ReadNotions.

Section WriteNotions.

Context `{Float}.

(** The atom lines of a record with the given columns. *)
Definition atom_texts (coords : list (F * F * F)) (elements : list pystr)
    (charges : list Z) : list pystr :=
  zip_with (fun re q => atom_line_text re.1 re.2 (code_of_charge q))
           (zip coords elements) charges.

Definition charges_written (atoms : AtomArray) : list Z :=
  match charge atoms with
  | Some q => q
  | None => replicate (array_length atoms) 0
  end.

(** The lines [write_structure_to_ctab] returns for a record with bond
    list [b]. *)
Definition lines_written (atoms : AtomArray) (b : BondList) : list pystr :=
  [counts_line_text (Z.of_nat (array_length atoms))
                    (Z.of_nat (length (bond_rows b)))]
  ++ atom_texts (coord atoms) (element atoms) (charges_written atoms)
  ++ map write_bond_line (bond_rows b)
  ++ [lit "M  END"].

End WriteNotions.

(** [fmt_3d k] fills exactly three columns and is read back as [k]. *)
Definition fmt_3d_exact (k : Z) : bool :=
  (length (fmt_3d k) =? 3)%nat
  && match int_of_str (fmt_3d k) with
     | Some v => v =? k
     | None => false
     end.

(** The counts line written for [n] atoms and [m] bonds is read back as
    [(n, m)]. *)
Definition counts_exact (n m : Z) : bool :=
  match _get_counts (counts_line_text n m) with
  | (Ok (a, b), []) => (a =? n) && (b =? m)
  | _ => false
  end.

Definition upto (n : nat) : list Z := map Z.of_nat (seq 0 n).

(** The invariant of what [write_structure_to_ctab] is handed. *)
Definition wf_structure `{Float} (s : structure) : Prop :=
  match s with
  | Array atoms => wf_atoms atoms
  | Stack _ => True
  end.

(** The counts line splits into at least two blank-separated tokens, of
    which the first two are the integers [n] and [m]. *)
Definition counts_parse (counts_line : pystr) (n m : Z) : Prop :=
  exists t0 t1,
    split counts_line !! 0%nat = Some t0
    /\ split counts_line !! 1%nat = Some t1
    /\ int_of_str t0 = Some n
    /\ int_of_str t1 = Some m.

Section RoundTripNotions.

Context `{Float}.

(** The text of coordinate [x] fits its ten columns and is read back as
    [x'], which is printed like [x]. *)
Definition coord_reread (x x' : F) : Prop :=
  (length (format_5f x) <= 10)%nat
  /\ float_of_str (fmt_10_5f x) = Some x'
  /\ format_5f x' = format_5f x.

Definition row_reread (r r' : F * F * F) : Prop :=
  coord_reread r.1.1 r'.1.1 /\ coord_reread r.1.2 r'.1.2
  /\ coord_reread r.2 r'.2.

(** An element symbol the reader returns as it was written: at most two
    characters, as the [element] annotation holds them, no blank at either
    end, no lower-case letter. *)
Definition element_stable (e : pystr) : Prop :=
  (length e <= 2)%nat /\ upper (strip (rjust 3 e)) = e.

(** A bond row whose atom numbers fit three columns and whose type is one
    of the four stored values. *)
Definition bond_row_canonical (row : Z * Z * Z) : Prop :=
  0 <= row.1.1 <= 998 /\ 0 <= row.1.2 <= 998 /\ 0 <= row.2 <= 3.

(** A record within the limits of the layout. *)
Definition canonical (atoms : AtomArray) (b : BondList) : Prop :=
  (array_length atoms <= 999)%nat
  /\ (length (bond_rows b) <= 99)%nat
  /\ Forall (fun r => exists r', row_reread r r') (coord atoms)
  /\ Forall element_stable (element atoms)
  /\ Forall bond_row_canonical (bond_rows b).

End RoundTripNotions.

(** The point with the given coordinates, in units of 10^-5. *)
Definition point (x y z : Z) : @F Fixed5 * @F Fixed5 * @F Fixed5 :=
  (Some x, Some y, Some z).

(** A ring of 100 carbon atoms: 100 atoms, 100 single bonds. *)
Definition ring100 : @AtomArray Fixed5 :=
  {| coord := replicate 100 (point 0 0 0);
     element := replicate 100 (lit "C");
     charge := Some (replicate 100 0);
     bonds := Some {| atom_count := 100;
                      bond_rows :=
                        map (fun i => (Z.of_nat i, Z.of_nat i + 1, 1))
                            (seq 0 99)
                        ++ [(0, 99, 1)] |} |}.

(** The counts line of section 8 of the design, followed by three atom
    lines and two bond lines in the serializer's layout. *)
Definition spec_lines : list pystr :=
  [ lit "  3  2  0  0  0  0  0  0  0  1 V2000";
    lit "   0.00000   0.00000   0.00000   C    0  0  0  0  0  0  0  0  0  0  0";
    lit "   1.50000   0.00000   0.00000   C    0  0  0  0  0  0  0  0  0  0  0";
    lit "   2.00000   1.25000   0.00000   O    5  0  0  0  0  0  0  0  0  0  0";
    lit "  1  2  6  0  0  0  0";
    lit "  2  3  8  0  0  0  0";
    lit "M  END" ].

(** Three atoms, two bonds, one charged atom. *)
Definition three_atoms : @AtomArray Fixed5 :=
  {| coord := [point 0 0 0; point 150000 0 0; point 200000 125000 0];
     element := [lit "C"; lit "C"; lit "O"];
     charge := Some [0; 0; -1];
     bonds := Some {| atom_count := 3;
                      bond_rows := [(0, 1, 1); (1, 2, 0)] |} |}.

(** The same atoms, without charge annotation and with a bond type and a
    charge the tables do not list. *)
Definition odd_atoms : @AtomArray Fixed5 :=
  {| coord := [point 0 0 0; point 150000 0 0];
     element := [lit "C"; lit "N"];
     charge := Some [0; 4];
     bonds := Some {| atom_count := 2; bond_rows := [(0, 1, 5)] |} |}.

(** Two atoms without charge annotation, joined by a single bond. *)
Definition plain_atoms : @AtomArray Fixed5 :=
  {| coord := [point 0 0 0; point 150000 0 0];
     element := [lit "C"; lit "O"];
     charge := None;
     bonds := Some {| atom_count := 2; bond_rows := [(0, 1, 1)] |} |}.

(** A connection table of one atom whose charge code, 4, is not one of
    the enumeration. *)
Definition code4_lines : list pystr :=
  [ lit "  1  0  0  0  0  0  0  0  0  1 V2000";
    lit "   0.00000   0.00000   0.00000   N    4  0  0  0  0  0  0  0  0  0  0";
    lit "M  END" ].

(** The record [code4_lines] is read as. *)
Definition code4_atoms : @AtomArray Fixed5 :=
  {| coord := [point 0 0 0];
     element := [lit "N"];
     charge := Some [0];
     bonds := Some {| atom_count := 1; bond_rows := [] |} |}.

(** The bonds of [ring100]. *)
Definition ring100_bonds : BondList :=
  {| atom_count := 100;
     bond_rows := map (fun i => (Z.of_nat i, Z.of_nat i + 1, 1)) (seq 0 99)
                  ++ [(0, 99, 1)] |}.

(** The bonds of [three_atoms]. *)
Definition three_atoms_bonds : BondList :=
  {| atom_count := 3; bond_rows := [(0, 1, 1); (1, 2, 0)] |}.

(** What a computation did, apart from the value it returned. *)
Definition outcome {A} (m : M A) : option exn * list warning :=
  (match m.1 with Ok _ => None | Err e => Some e end, m.2).

(** The four annotation arrays of an atom array over [Fixed5]. *)
Definition view (a : @AtomArray Fixed5)
  : list (option Z * option Z * option Z) * list pystr
    * option (list Z) * option BondList :=
  (coord a, element a, charge a, bonds a).

(** The atoms a reader returned, or the exception, and the warnings. *)
Definition observe (m : M (@AtomArray Fixed5)) :=
  (match m.1 with Ok a => inl (view a) | Err e => inr e end, m.2).

Definition is_digit (c : ascii) : bool :=
  match digit_val c with Some _ => true | None => false end.

(** The number a run of decimal digits stands for, after the digits
    already counted in [acc]. *)
Definition digits_num (acc : Z) (s : pystr) : Z :=
  foldl (fun a c => 10 * a + default 0 (digit_val c)) acc s.

(** [str(k)] is a run of one to three digits that stands for [k], and
    three digits for [k >= 100]. *)
Definition str_of_int_exact (k : Z) : bool :=
  let s := str_of_int k in
  forallb is_digit s
  && negb (length s =? 0)%nat
  && (length s <=? 3)%nat
  && (digits_num 0 s =? k)
  && ((k <? 100) || (length s =? 3)%nat).

(** A connection table whose first atom has an element of three
    characters, whose first bond gives its atoms in decreasing order, whose
    second bond joins the same two atoms again, and whose third bond has no
    line; and the record it is read as. *)
Definition swapped_lines : list pystr :=
  [ lit "  2  3  0  0  0  0  0  0  0  0999 V2000";
    lit "   0.00000   0.00000   0.00000 Uuo    0  0  0  0  0  0  0  0  0  0  0";
    lit "   1.50000   0.00000   0.00000   C    0  0  0  0  0  0  0  0  0  0  0";
    lit "  2  1  1  0  0  0  0";
    lit "  1  2  2  0  0  0  0" ].

Definition swapped_atoms : @AtomArray Fixed5 :=
  {| coord := [point 0 0 0; point 150000 0 0];
     element := [lit "UU"; lit "C"];
     charge := Some [0; 0];
     bonds := Some {| atom_count := 2;
                      bond_rows := [(0, 1, 1); (0, 0, 0)] |} |}.

(** * Properties *)

(** ** Slices *)

Lemma pyslice_nonneg {A} (l : list A) (a b : Z) :
  0 <= a -> 0 <= b ->
  pyslice l a b = take (Z.to_nat b - Z.to_nat a) (drop (Z.to_nat a) l).
Proof.
  intros Ha Hb. unfold pyslice, slice_bound.
  destruct (Z.ltb_spec a 0); [lia|]. destruct (Z.ltb_spec b 0); [lia|].
  destruct (decide (Z.of_nat (length l) <= a)) as [Hl|Hl].
  - rewrite (Z.min_r a) by lia.
    rewrite !drop_ge by lia. by rewrite !take_nil.
  - rewrite (Z.min_l a) by lia.
    destruct (decide (b <= Z.of_nat (length l))) as [Hb'|Hb'].
    + rewrite (Z.min_l b) by lia. f_equal. lia.
    + rewrite (Z.min_r b) by lia.
      rewrite !take_ge; [done | rewrite length_drop; lia | rewrite length_drop; lia].
Qed.

Lemma pyslice_all_but_last {A} (l : list A) :
  pyslice l 0 (-1) = take (length l - 1) l.
Proof.
  unfold pyslice, slice_bound. simpl.
  destruct l as [|x l]; [done|].
  rewrite Z.min_l by lia. simpl drop.
  f_equal. rewrite Z.sub_0_r. simpl length. lia.
Qed.

Lemma pyslice_app3 {A} (l : list A) (a b c : Z) :
  0 <= a <= b -> b <= c ->
  pyslice l a b ++ pyslice l b c = pyslice l a c.
Proof.
  intros Hab Hbc. rewrite !pyslice_nonneg by lia.
  replace (Z.to_nat c - Z.to_nat a)%nat
    with ((Z.to_nat b - Z.to_nat a) + (Z.to_nat c - Z.to_nat b))%nat by lia.
  rewrite <- take_take_drop. f_equal.
  rewrite drop_drop. do 2 f_equal. lia.
Qed.

Lemma pyslice_empty {A} (l : list A) (a : Z) : 0 <= a -> pyslice l a a = [].
Proof. intros. rewrite pyslice_nonneg by lia. by rewrite Nat.sub_diag. Qed.

Lemma pyslice_whole {A} (l : list A) : pyslice l 0 (Z.of_nat (length l)) = l.
Proof.
  rewrite pyslice_nonneg by lia. simpl. rewrite Nat2Z.id, Nat.sub_0_r.
  by rewrite take_ge.
Qed.

Lemma lookup_pyslice {A} (l : list A) (a b : Z) (k : nat) :
  0 <= a -> 0 <= b -> (Z.of_nat k < b - a) ->
  pyslice l a b !! k = l !! (Z.to_nat a + k)%nat.
Proof.
  intros. rewrite pyslice_nonneg by lia.
  rewrite lookup_take_lt by lia. by rewrite lookup_drop.
Qed.

(** ** The monad *)

Lemma bind_ret_l {A B} (a : A) (f : A -> M B) : bind (Ok a, []) f = f a.
Proof. unfold bind. by destruct (f a) as [r ws]. Qed.

Lemma bind_Ok {A B} (m : M A) (f : A -> M B) (a : A) :
  m = (Ok a, []) -> bind m f = f a.
Proof. intros ->. apply bind_ret_l. Qed.

Lemma bind_Ok_inv {A B} (m : M A) (f : A -> M B) (b : B) (ws : list warning) :
  bind m f = (Ok b, ws) ->
  exists a w1 w2, m = (Ok a, w1) /\ f a = (Ok b, w2) /\ ws = w1 ++ w2.
Proof.
  unfold bind. destruct m as [[a|e] w1]; [|done].
  destruct (f a) as [r w2] eqn:Hf. intros [= -> <-]. eauto 6.
Qed.

Lemma orRaise_Ok_inv {A} (e : exn) (o : option A) (a : A) (ws : list warning) :
  orRaise e o = (Ok a, ws) -> o = Some a /\ ws = [].
Proof. destruct o; unfold orRaise, ret, raise; intros [= ]; subst; auto. Qed.

Lemma for_each_pure {A B} (f : A -> M B) (g : A -> B) (xs : list A) :
  (forall x, x ∈ xs -> f x = (Ok (g x), [])) ->
  for_each f xs = (Ok (map g xs), []).
Proof.
  induction xs as [|x xs IH]; intros Hf; [done|].
  cbn [for_each map].
  rewrite (bind_Ok _ _ (g x)) by (apply Hf; left).
  rewrite (bind_Ok _ _ (map g xs)) by (apply IH; intros; apply Hf; by right).
  done.
Qed.

(** ** The tables *)

Ltac lookup_cases :=
  repeat (rewrite lookup_insert; case_decide; [subst; try done; try lia |]);
  try rewrite lookup_empty; try done.

Lemma Z_small_cases (P : Z -> Prop) (lo hi : Z) (x : Z) :
  (forall y, ~ (lo <= y <= hi) -> P y) ->
  (forall k : nat, (k <= Z.to_nat (hi - lo))%nat -> P (lo + Z.of_nat k)) ->
  P x.
Proof.
  intros Hout Hin. destruct (decide (lo <= x <= hi)) as [Hx|Hx]; [|auto].
  replace x with (lo + Z.of_nat (Z.to_nat (x - lo))) by lia.
  apply Hin. lia.
Qed.

Lemma CHARGE_MAPPING_lookup (code : Z) :
  CHARGE_MAPPING !! code = charge_of_code code.
Proof.
  unfold CHARGE_MAPPING, dict_of_items, CHARGE_MAPPING_items. cbn [foldl fst snd].
  lookup_cases.
  destruct code as [|p|p]; try done.
  do 3 (destruct p as [p|p|]; try done); lia.
Qed.

Lemma BOND_TYPE_MAPPING_lookup (code : Z) :
  BOND_TYPE_MAPPING !! code = bond_type_of_code code.
Proof.
  unfold BOND_TYPE_MAPPING, dict_of_items, BOND_TYPE_MAPPING_items.
  cbn [foldl fst snd].
  lookup_cases.
  destruct code as [|p|p]; try done.
  do 4 (destruct p as [p|p|]; try done); lia.
Qed.

Lemma CHARGE_MAPPING_REV_get (q : Z) :
  get CHARGE_MAPPING_REV q 0 = code_of_charge q.
Proof.
  unfold get, CHARGE_MAPPING_REV, dict_of_items, CHARGE_MAPPING_items.
  cbn [map foldl fst snd].
  lookup_cases.
  destruct q as [|p|p]; try done;
    do 2 (destruct p as [p|p|]; try done); lia.
Qed.

Lemma BOND_TYPE_MAPPING_REV_get (t : Z) :
  get BOND_TYPE_MAPPING_REV t 0 = code_of_bond_value t.
Proof.
  unfold get, BOND_TYPE_MAPPING_REV, dict_of_items, BOND_TYPE_MAPPING_items.
  cbn [map foldl fst snd BondType_value].
  lookup_cases.
  destruct t as [|p|p]; try done;
    do 2 (destruct p as [p|p|]; try done); lia.
Qed.

Section CodecLemmas.

Context `{Float}.

Lemma store_Ok {A} (l : list A) (i : nat) (v : A) :
  (i < length l)%nat -> store l i v = (Ok (<[i := v]> l), []).
Proof. intros Hi. unfold store. by rewrite decide_True. Qed.

Lemma store_Ok_inv {A} (l l' : list A) (i : nat) (v : A) ws :
  store l i v = (Ok l', ws) -> (i < length l)%nat /\ l' = <[i := v]> l /\ ws = [].
Proof.
  unfold store. case_decide; unfold ret, raise; intros [= ]; subst; auto.
Qed.

Lemma item_Ok {A} (l : list A) (i : nat) (x : A) :
  l !! i = Some x -> item l i = (Ok x, []).
Proof. intros Hx. unfold item. by rewrite Hx. Qed.

Lemma item_Ok_inv {A} (l : list A) (i : nat) (x : A) ws :
  item l i = (Ok x, ws) -> l !! i = Some x /\ ws = [].
Proof. apply orRaise_Ok_inv. Qed.

Lemma set_coord_Ok (atoms : AtomArray) (i k : nat) (v : F) (row : F * F * F) :
  coord atoms !! i = Some row ->
  set_coord atoms i k v
  = (Ok {| coord := <[i := set_axis k v row]> (coord atoms);
           element := element atoms;
           charge := charge atoms;
           bonds := bonds atoms |}, []).
Proof.
  intros Hrow. unfold set_coord.
  rewrite (bind_Ok _ _ row) by by apply item_Ok.
  rewrite (bind_Ok _ _ (<[i := set_axis k v row]> (coord atoms))); [done|].
  apply store_Ok. by eapply lookup_lt_Some.
Qed.

Lemma set_coord_Ok_inv (atoms atoms' : AtomArray) (i k : nat) (v : F) ws :
  set_coord atoms i k v = (Ok atoms', ws) ->
  exists row, coord atoms !! i = Some row
    /\ atoms' = {| coord := <[i := set_axis k v row]> (coord atoms);
                   element := element atoms;
                   charge := charge atoms;
                   bonds := bonds atoms |}
    /\ ws = [].
Proof.
  intros Hs. unfold set_coord in Hs.
  apply bind_Ok_inv in Hs as (row & w1 & w2 & Hrow & Hs & ->).
  apply item_Ok_inv in Hrow as [Hrow ->].
  apply bind_Ok_inv in Hs as (c & w1 & w3 & Hc & Hs & ->).
  apply store_Ok_inv in Hc as (_ & -> & ->).
  unfold ret in Hs. injection Hs as <- <-. eauto.
Qed.

Lemma read_atom_line_Ok (atoms : AtomArray) (i : nat) (line : pystr)
    (x y z : F) (code : Z) (qs : list Z) :
  (i < array_length atoms)%nat ->
  (i < length (element atoms))%nat ->
  charge atoms = Some qs ->
  (i < length qs)%nat ->
  float_of_str (pyslice line 0 10) = Some x ->
  float_of_str (pyslice line 10 20) = Some y ->
  float_of_str (pyslice line 20 30) = Some z ->
  int_of_str (pyslice line 36 39) = Some code ->
  read_atom_line atoms i line
  = (Ok {| coord := <[i := (x, y, z)]> (coord atoms);
           element := <[i := take 2 (upper (strip (pyslice line 31 34)))]>
                        (element atoms);
           charge := Some (<[i := default 0 (charge_of_code code)]> qs);
           bonds := bonds atoms |},
     charge_warnings code).
Proof.
  intros Hi He Hq Hiq Hx Hy Hz Hcode. unfold read_atom_line.
  destruct (lookup_lt_is_Some_2 (coord atoms) i Hi) as [[[x0 y0] z0] Hrow].
  rewrite Hx, Hy, Hz, Hcode. cbn [orRaise]. unfold ret. rewrite bind_ret_l.
  rewrite (set_coord_Ok _ _ _ _ _ Hrow), !bind_ret_l.
  erewrite set_coord_Ok by (cbn [coord]; apply list_lookup_insert_eq; exact Hi).
  rewrite !bind_ret_l.
  erewrite set_coord_Ok by (cbn [coord]; apply list_lookup_insert_eq;
                            rewrite length_insert; exact Hi).
  rewrite bind_ret_l. cbn [coord element charge bonds set_axis].
  rewrite !list_insert_insert_eq.
  unfold set_element. cbn [coord element charge bonds].
  rewrite (store_Ok _ _ _ He). unfold ret. rewrite !bind_ret_l.
  rewrite CHARGE_MAPPING_lookup. unfold charge_warnings.
  unfold set_charge. cbn [coord element charge bonds]. rewrite Hq.
  destruct (charge_of_code code) as [q|]; cbn [default orRaise];
    unfold ret, warn; rewrite ?bind_ret_l; unfold bind;
    rewrite (store_Ok _ _ _ Hiq); reflexivity.
Qed.

Lemma read_atom_line_Ok_inv (atoms atoms' : AtomArray) (i : nat)
    (line : pystr) (qs : list Z) (ws : list warning) :
  read_atom_line atoms i line = (Ok atoms', ws) ->
  charge atoms = Some qs ->
  exists x y z code,
    float_of_str (pyslice line 0 10) = Some x
    /\ float_of_str (pyslice line 10 20) = Some y
    /\ float_of_str (pyslice line 20 30) = Some z
    /\ int_of_str (pyslice line 36 39) = Some code
    /\ (i < array_length atoms)%nat
    /\ (i < length (element atoms))%nat
    /\ (i < length qs)%nat.
Proof.
  intros Hr Hq. unfold read_atom_line in Hr.
  apply bind_Ok_inv in Hr as (x & ? & ? & Hx & Hr & _).
  apply orRaise_Ok_inv in Hx as [Hx _].
  apply bind_Ok_inv in Hr as (a1 & ? & ? & H1 & Hr & _).
  apply set_coord_Ok_inv in H1 as (row1 & Hrow1 & -> & _).
  apply bind_Ok_inv in Hr as (y & ? & ? & Hy & Hr & _).
  apply orRaise_Ok_inv in Hy as [Hy _].
  apply bind_Ok_inv in Hr as (a2 & ? & ? & H2 & Hr & _).
  apply set_coord_Ok_inv in H2 as (row2 & Hrow2 & -> & _).
  apply bind_Ok_inv in Hr as (z & ? & ? & Hz & Hr & _).
  apply orRaise_Ok_inv in Hz as [Hz _].
  apply bind_Ok_inv in Hr as (a3 & ? & ? & H3 & Hr & _).
  apply set_coord_Ok_inv in H3 as (row3 & Hrow3 & -> & _).
  apply bind_Ok_inv in Hr as (a4 & ? & ? & H4 & Hr & _).
  unfold set_element in H4. cbn [coord element charge bonds] in H4.
  apply bind_Ok_inv in H4 as (l & ? & ? & Hl & H4 & _).
  apply store_Ok_inv in Hl as (He & -> & _).
  unfold ret in H4. injection H4 as <- _.
  apply bind_Ok_inv in Hr as (code & ? & ? & Hcode & Hr & _).
  apply orRaise_Ok_inv in Hcode as [Hcode _].
  apply bind_Ok_inv in Hr as (q & ? & ? & _ & Hr & _).
  unfold set_charge in Hr. cbn [coord element charge bonds] in Hr.
  rewrite Hq in Hr.
  apply bind_Ok_inv in Hr as (l & ? & ? & Hl & _ & _).
  apply store_Ok_inv in Hl as (Hiq & _ & _).
  exists x, y, z, code. repeat split; auto.
  by eapply lookup_lt_Some.
Qed.

(** *** Bond lines *)

Lemma set_bond_Ok (rows : list (Z * Z * Z)) (i k : nat) (v : Z) (row : Z * Z * Z) :
  rows !! i = Some row ->
  set_bond rows i k v = (Ok (<[i := set_row k v row]> rows), []).
Proof.
  intros Hrow. unfold set_bond. rewrite (item_Ok _ _ _ Hrow), bind_ret_l.
  apply store_Ok. by eapply lookup_lt_Some.
Qed.

Lemma set_bond_Ok_inv (rows rows' : list (Z * Z * Z)) (i k : nat) (v : Z) ws :
  set_bond rows i k v = (Ok rows', ws) ->
  exists row, rows !! i = Some row /\ rows' = <[i := set_row k v row]> rows
              /\ ws = [].
Proof.
  intros Hs. unfold set_bond in Hs.
  apply bind_Ok_inv in Hs as (row & w1 & w2 & Hrow & Hs & ->).
  apply item_Ok_inv in Hrow as [Hrow ->].
  apply store_Ok_inv in Hs as (_ & -> & ->). eauto.
Qed.

Lemma bond_stores (rows : list (Z * Z * Z)) (i : nat) (a b t : Z) :
  (i < length rows)%nat ->
  (bond_array <- set_bond rows i 0 (a - 1);;
   y <- (Ok b, []);;
   bond_array0 <- set_bond bond_array i 1 (y - 1);;
   set_bond bond_array0 i 2 t)
  = (Ok (<[i := (to_uint32 (a - 1), to_uint32 (b - 1), to_uint32 t)]> rows), []).
Proof.
  intros Hi.
  destruct (lookup_lt_is_Some_2 rows i Hi) as [[[a0 b0] c0] Hrow].
  rewrite (set_bond_Ok _ _ _ _ _ Hrow), !bind_ret_l.
  erewrite set_bond_Ok by (apply list_lookup_insert_eq; exact Hi).
  rewrite bind_ret_l.
  erewrite set_bond_Ok by (apply list_lookup_insert_eq;
                           rewrite length_insert; exact Hi).
  cbn [set_row]. by rewrite !list_insert_insert_eq.
Qed.

Lemma bind_warn {B} (w : warning) (f : unit -> M B) :
  bind (Ok tt, [w]) f = ((f tt).1, w :: (f tt).2).
Proof. unfold bind. by destruct (f tt). Qed.

Lemma read_bond_line_Ok (rows : list (Z * Z * Z)) (i : nat) (line : pystr)
    (a b code : Z) :
  (i < length rows)%nat ->
  int_of_str (pyslice line 6 9) = Some code ->
  int_of_str (pyslice line 0 3) = Some a ->
  int_of_str (pyslice line 3 6) = Some b ->
  read_bond_line rows i line
  = (Ok (<[i := (to_uint32 (a - 1), to_uint32 (b - 1),
                 to_uint32 (BondType_value (bond_type_read code)))]> rows),
     bond_warnings code).
Proof.
  intros Hi Hcode Ha Hb. unfold read_bond_line.
  rewrite Hcode, Ha, Hb. cbn [orRaise]. unfold ret. rewrite bind_ret_l.
  unfold get. rewrite BOND_TYPE_MAPPING_lookup.
  unfold bond_warnings, bond_type_read.
  destruct (bond_type_of_code code) as [[]|]; cbn [default];
    rewrite ?bind_ret_l; unfold warn; rewrite ?bind_warn; cbv beta;
    rewrite ?bind_ret_l; rewrite bond_stores by exact Hi; reflexivity.
Qed.

Lemma read_bond_line_Ok_inv (rows rows' : list (Z * Z * Z)) (i : nat)
    (line : pystr) (ws : list warning) :
  read_bond_line rows i line = (Ok rows', ws) ->
  exists a b code,
    int_of_str (pyslice line 6 9) = Some code
    /\ int_of_str (pyslice line 0 3) = Some a
    /\ int_of_str (pyslice line 3 6) = Some b
    /\ (i < length rows)%nat.
Proof.
  intros Hr. unfold read_bond_line in Hr.
  apply bind_Ok_inv in Hr as (code & ? & ? & Hcode & Hr & _).
  apply orRaise_Ok_inv in Hcode as [Hcode _].
  apply bind_Ok_inv in Hr as (? & ? & ? & _ & Hr & _).
  apply bind_Ok_inv in Hr as (a & ? & ? & Ha & Hr & _).
  apply orRaise_Ok_inv in Ha as [Ha _].
  apply bind_Ok_inv in Hr as (r1 & ? & ? & H1 & Hr & _).
  apply set_bond_Ok_inv in H1 as (row & Hrow & _ & _).
  apply bind_Ok_inv in Hr as (b & ? & ? & Hb & _ & _).
  apply orRaise_Ok_inv in Hb as [Hb _].
  exists a, b, code. repeat split; auto. by eapply lookup_lt_Some.
Qed.

(** *** The two loops *)

Lemma splice_nil {A} (i : nat) (l : list A) : splice i [] l = l.
Proof. unfold splice. cbn [app length]. rewrite Nat.add_0_r. apply take_drop. Qed.

Lemma splice_cons {A} (i : nat) (v : A) (new l : list A) :
  (i < length l)%nat ->
  splice (S i) new (<[i := v]> l) = splice i (v :: new) l.
Proof.
  intros Hi. unfold splice.
  rewrite (take_S_r _ _ v) by (by apply list_lookup_insert_eq).
  rewrite take_insert_ge by lia.
  rewrite drop_insert_lt by lia.
  rewrite <- app_assoc. cbn [app length].
  replace (i + S (length new))%nat with (S i + length new)%nat by lia.
  reflexivity.
Qed.

Lemma length_splice {A} (i : nat) (new l : list A) :
  (i + length new <= length l)%nat -> length (splice i new l) = length l.
Proof.
  intros Hi. unfold splice. rewrite !length_app, length_take, length_drop. lia.
Qed.

Lemma splice_all {A} (new l : list A) :
  length new = length l -> splice 0 new l = new.
Proof.
  intros Hl. unfold splice. rewrite take_0, drop_ge by (simpl; lia).
  by rewrite app_nil_r.
Qed.

Lemma bind_Ok_ws {A B} (m : M A) (f : A -> M B) (a : A) (r : result B) w1 w2 :
  m = (Ok a, w1) -> f a = (r, w2) -> bind m f = (r, w1 ++ w2).
Proof. intros -> Hf. unfold bind. by rewrite Hf. Qed.

Lemma atom_loop_Ok (lines : list pystr) (ds : list (F * F * F * Z)) :
  Forall2 atom_line_reads lines ds ->
  forall (i : nat) (atoms : AtomArray) (qs : list Z),
  (i + length lines <= array_length atoms)%nat ->
  length (element atoms) = array_length atoms ->
  charge atoms = Some qs ->
  length qs = array_length atoms ->
  for_enumerate read_atom_line i lines atoms
  = (Ok {| coord := splice i (map fst ds) (coord atoms);
           element := splice i (map element_read lines) (element atoms);
           charge := Some (splice i (map (fun d => charge_read d.2) ds) qs);
           bonds := bonds atoms |},
     concat (map (fun d => charge_warnings d.2) ds)).
Proof.
  induction 1 as [|line d lines ds Hd _ IH]; intros i atoms qs Hi He Hq Hql.
  - cbn [for_enumerate map concat]. rewrite !splice_nil.
    unfold ret. rewrite <- Hq. by destruct atoms.
  - cbn [length] in Hi. destruct Hd as (Hx & Hy & Hz & Hc).
    destruct d as [[[x y] z] code]. cbn [fst snd] in *.
    cbn [for_enumerate map concat].
    unfold array_length in *.
    eapply bind_Ok_ws.
    + apply (read_atom_line_Ok atoms i line x y z code qs);
        unfold array_length; auto; lia.
    + rewrite (IH (S i) _ (<[i := charge_read code]> qs));
        cbn [coord element charge bonds]; unfold array_length;
        cbn [coord element charge bonds];
        rewrite ?length_insert; auto; try lia.
      rewrite !splice_cons by lia. reflexivity.
Qed.

Lemma atom_loop_Ok_inv (lines : list pystr) :
  forall (i : nat) (atoms atoms' : AtomArray) (qs : list Z) ws,
  for_enumerate read_atom_line i lines atoms = (Ok atoms', ws) ->
  charge atoms = Some qs ->
  length qs = array_length atoms ->
  length (element atoms) = array_length atoms ->
  exists ds, Forall2 atom_line_reads lines ds
    /\ (lines = [] \/ (i + length lines <= array_length atoms)%nat).
Proof.
  induction lines as [|line lines IH]; intros i atoms atoms' qs ws Hr Hq Hql He.
  - exists []. split; [constructor | by left].
  - cbn [for_enumerate] in Hr.
    apply bind_Ok_inv in Hr as (a1 & w1 & w2 & H1 & Hr & ->).
    destruct (read_atom_line_Ok_inv _ _ _ _ _ _ H1 Hq)
      as (x & y & z & code & Hx & Hy & Hz & Hc & Hi & Hie & Hiq).
    rewrite (read_atom_line_Ok atoms i line x y z code qs) in H1 by auto.
    injection H1 as <- _.
    destruct (IH (S i) _ _ (<[i := default 0 (charge_of_code code)]> qs) _ Hr)
      as (ds & Hds & Hlen);
      cbn [coord element charge bonds]; unfold array_length in *;
      cbn [coord element charge bonds]; rewrite ?length_insert; auto.
    exists ((x, y, z, code) :: ds). split.
    + constructor; [by repeat split | exact Hds].
    + right. cbn [length]. destruct Hlen as [-> | Hlen].
      * simpl. lia.
      * cbn [coord] in Hlen. rewrite length_insert in Hlen. lia.
Qed.

Lemma bond_loop_Ok (lines : list pystr) (ds : list (Z * Z * Z)) :
  Forall2 bond_line_reads lines ds ->
  forall (i : nat) (rows : list (Z * Z * Z)),
  (i + length lines <= length rows)%nat ->
  for_enumerate read_bond_line i lines rows
  = (Ok (splice i (map bond_row_read ds) rows),
     concat (map (fun d => bond_warnings d.2) ds)).
Proof.
  induction 1 as [|line d lines ds Hd _ IH]; intros i rows Hi.
  - cbn [for_enumerate map concat]. by rewrite splice_nil.
  - cbn [length] in Hi. destruct Hd as (Ha & Hb & Hc).
    destruct d as [[a b] code]. cbn [fst snd] in *.
    cbn [for_enumerate map concat].
    eapply bind_Ok_ws.
    + apply (read_bond_line_Ok rows i line a b code); auto; lia.
    + rewrite IH by (rewrite length_insert; lia).
      rewrite splice_cons by lia. reflexivity.
Qed.

Lemma bond_loop_Ok_inv (lines : list pystr) :
  forall (i : nat) (rows rows' : list (Z * Z * Z)) ws,
  for_enumerate read_bond_line i lines rows = (Ok rows', ws) ->
  exists ds, Forall2 bond_line_reads lines ds
    /\ (lines = [] \/ (i + length lines <= length rows)%nat).
Proof.
  induction lines as [|line lines IH]; intros i rows rows' ws Hr.
  - exists []. split; [constructor | by left].
  - cbn [for_enumerate] in Hr.
    apply bind_Ok_inv in Hr as (r1 & w1 & w2 & H1 & Hr & ->).
    destruct (read_bond_line_Ok_inv _ _ _ _ _ H1)
      as (a & b & code & Hc & Ha & Hb & Hi).
    rewrite (read_bond_line_Ok rows i line a b code) in H1 by auto.
    injection H1 as <- _.
    destruct (IH (S i) _ _ _ Hr) as (ds & Hds & Hlen).
    exists ((a, b, code) :: ds). split.
    + constructor; [by repeat split | exact Hds].
    + right. cbn [length]. destruct Hlen as [-> | Hlen].
      * simpl. lia.
      * rewrite length_insert in Hlen. lia.
Qed.

(** *** The whole parse *)

Lemma get_counts_no_warning (line : pystr) : (_get_counts line).2 = [].
Proof.
  unfold _get_counts, item.
  destruct (split line !! 0%nat) as [e0|]; [|done]. cbn [orRaise].
  unfold ret. rewrite bind_ret_l.
  destruct (int_of_str e0) as [n0|]; [|done]. cbn [orRaise].
  unfold ret. rewrite bind_ret_l.
  destruct (split line !! 1%nat) as [e1|]; [|done]. cbn [orRaise].
  unfold ret. rewrite bind_ret_l.
  destruct (int_of_str e1) as [n1|]; done.
Qed.

Lemma length_pyslice_le {A} (l : list A) (a b : Z) :
  0 <= a -> 0 <= b -> Z.of_nat (length (pyslice l a b)) <= b - a \/ b < a.
Proof.
  intros Ha Hb. rewrite pyslice_nonneg by lia. rewrite length_take. lia.
Qed.

Lemma rows_in_range_forallb (n : Z) (rows : list (Z * Z * Z)) :
  forallb (fun r : Z * Z * Z => (r.1.1 <? n) && (r.1.2 <? n)) rows = true
  <-> rows_in_range n rows.
Proof.
  unfold rows_in_range. rewrite forallb_forall, Forall_forall.
  split; intros Hall r Hr.
  - apply list_elem_of_In, Hall in Hr.
    apply andb_true_iff in Hr as [?%Z.ltb_lt ?%Z.ltb_lt]. done.
  - apply list_elem_of_In, Hall in Hr as [? ?].
    apply andb_true_iff. split; by apply Z.ltb_lt.
Qed.

Lemma BondList_new_Ok (n : Z) (rows : list (Z * Z * Z)) :
  rows_in_range n rows -> BondList_new n rows = (Ok (bonds_made n rows), []).
Proof.
  intros Hr. unfold BondList_new. destruct rows as [|r rows]; [done|].
  apply rows_in_range_forallb in Hr. by rewrite Hr.
Qed.

Lemma BondList_new_Err (n : Z) (rows : list (Z * Z * Z)) :
  ~ rows_in_range n rows -> BondList_new n rows = (Err IndexError, []).
Proof.
  intros Hr. unfold BondList_new. destruct rows as [|r rows].
  - destruct Hr. constructor.
  - destruct (forallb _ (r :: rows)) eqn:Hf; [|done].
    by apply rows_in_range_forallb in Hf.
Qed.

Lemma BondList_new_Ok_inv (n : Z) (rows : list (Z * Z * Z)) (b : BondList) ws :
  BondList_new n rows = (Ok b, ws) ->
  rows_in_range n rows /\ b = bonds_made n rows /\ ws = [].
Proof.
  intros Hb.
  destruct (decide (rows_in_range n rows)) as [Hr|Hr].
  - rewrite (BondList_new_Ok n rows Hr) in Hb. by injection Hb as <- <-.
  - by rewrite (BondList_new_Err n rows Hr) in Hb.
Qed.

Lemma read_Ok (lines : list pystr) (counts_line : pystr) (n m : Z)
    (ds : list (F * F * F * Z)) (bs : list (Z * Z * Z)) :
  lines !! 0%nat = Some counts_line ->
  _get_counts counts_line = (Ok (n, m), []) ->
  0 <= n -> 0 <= m ->
  Forall2 atom_line_reads (pyslice lines 1 (1 + n)) ds ->
  Forall2 bond_line_reads (pyslice lines (1 + n) (1 + n + m)) bs ->
  rows_in_range n (rows_read m bs) ->
  read_structure_from_ctab lines
  = (Ok (atoms_read n m (pyslice lines 1 (1 + n)) ds bs), read_warnings ds bs).
Proof.
  intros H0 Hc Hn Hm Hds Hbs Hrange. unfold read_structure_from_ctab.
  rewrite (item_Ok _ _ _ H0), bind_ret_l, Hc, bind_ret_l. cbn [fst snd].
  unfold AtomArray_new. destruct (Z.ltb_spec n 0); [lia|].
  unfold ret. rewrite bind_ret_l.
  eapply bind_Ok_ws.
  - apply (atom_loop_Ok _ ds Hds 0 _ (replicate (Z.to_nat n) 0));
      unfold add_charge_annotation, array_length;
      cbn [coord element charge bonds]; rewrite ?length_replicate; auto.
    destruct (length_pyslice_le lines 1 (1 + n)); lia.
  - unfold zeros3. destruct (Z.ltb_spec m 0); [lia|].
    unfold ret. rewrite bind_ret_l.
    rewrite (bond_loop_Ok _ bs Hbs 0)
      by (rewrite length_replicate;
          destruct (length_pyslice_le lines (1 + n) (1 + n + m)); lia).
    fold (rows_read m bs). unfold bind at 1.
    rewrite (BondList_new_Ok n _ Hrange). unfold bind.
    rewrite !app_nil_r. reflexivity.
Qed.

Lemma read_Ok_inv (lines : list pystr) (atoms : AtomArray) (ws : list warning) :
  read_structure_from_ctab lines = (Ok atoms, ws) ->
  exists counts_line n m ds bs,
    lines !! 0%nat = Some counts_line
    /\ _get_counts counts_line = (Ok (n, m), [])
    /\ 0 <= n /\ 0 <= m
    /\ Forall2 atom_line_reads (pyslice lines 1 (1 + n)) ds
    /\ Forall2 bond_line_reads (pyslice lines (1 + n) (1 + n + m)) bs
    /\ rows_in_range n (rows_read m bs).
Proof.
  intros Hr. unfold read_structure_from_ctab in Hr.
  apply bind_Ok_inv in Hr as (cl & ? & ? & H0 & Hr & _).
  apply item_Ok_inv in H0 as [H0 _].
  apply bind_Ok_inv in Hr as ([n m] & w & ? & Hc & Hr & _).
  pose proof (get_counts_no_warning cl) as Hw. rewrite Hc in Hw.
  cbn [snd] in Hw. subst w. cbn [fst snd] in Hr.
  apply bind_Ok_inv in Hr as (a0 & ? & ? & Hnew & Hr & _).
  unfold AtomArray_new in Hnew.
  destruct (Z.ltb_spec n 0); [done|]. injection Hnew as <- _.
  apply bind_Ok_inv in Hr as (a1 & ? & ? & Hloop & Hr & _).
  apply bind_Ok_inv in Hr as (r0 & ? & ? & Hz & Hr & _).
  unfold zeros3 in Hz. destruct (Z.ltb_spec m 0); [done|].
  injection Hz as <- _.
  apply bind_Ok_inv in Hr as (r1 & ? & ? & Hbl & Hr & _).
  apply bind_Ok_inv in Hr as (b & ? & ? & Hnewb & _ & _).
  eapply atom_loop_Ok_inv in Hloop as (ds & Hds & _);
    [| unfold add_charge_annotation; cbn [charge]; reflexivity
     | unfold add_charge_annotation, array_length; cbn [coord];
       by rewrite !length_replicate
     | unfold add_charge_annotation, array_length; cbn [coord element];
       by rewrite !length_replicate ].
  pose proof Hbl as Hbl'.
  apply bond_loop_Ok_inv in Hbl as (bs & Hbs & _).
  rewrite (bond_loop_Ok _ bs Hbs 0) in Hbl'
    by (rewrite length_replicate;
        destruct (length_pyslice_le lines (1 + n) (1 + n + m)); lia).
  injection Hbl' as <- _.
  apply BondList_new_Ok_inv in Hnewb as (Hrange & _ & _).
  exists cl, n, m, ds, bs. auto 10.
Qed.

End CodecLemmas.

(** ** The lines the writer returns *)

Section WriteLemmas.

Context `{Float}.

Lemma length_charges_written (atoms : AtomArray) :
  wf_atoms atoms -> length (charges_written atoms) = array_length atoms.
Proof.
  intros [_ Hq]. unfold charges_written.
  destruct (charge atoms); [done | by rewrite length_replicate].
Qed.

Lemma length_atom_texts (cs : list (F * F * F)) (es : list pystr) (qs : list Z) :
  length es = length cs -> length qs = length cs ->
  length (atom_texts cs es qs) = length cs.
Proof.
  intros He Hq. unfold atom_texts. rewrite !length_zip_with. lia.
Qed.

Lemma lookup_atom_texts (cs : list (F * F * F)) (es : list pystr) (qs : list Z)
    (i : nat) row e q :
  cs !! i = Some row -> es !! i = Some e -> qs !! i = Some q ->
  atom_texts cs es qs !! i = Some (atom_line_text row e (code_of_charge q)).
Proof.
  intros Hc He Hq. unfold atom_texts.
  apply lookup_zip_with_Some. exists (row, e), q. split; [done|].
  split; [|done]. apply lookup_zip_with_Some. eauto.
Qed.

Lemma write_atom_lines (atoms : AtomArray) (qs : list Z) :
  length (element atoms) = array_length atoms ->
  length qs = array_length atoms ->
  for_each (write_atom_line atoms qs) (seq 0 (array_length atoms))
  = (Ok (atom_texts (coord atoms) (element atoms) qs), []).
Proof.
  intros He Hq. unfold array_length in *.
  set (g := fun i : nat =>
         match coord atoms !! i, element atoms !! i, qs !! i with
         | Some row, Some e, Some q => atom_line_text row e (code_of_charge q)
         | _, _, _ => []
         end).
  rewrite (for_each_pure _ g).
  - do 2 f_equal. apply list_eq. intros i.
    rewrite list_lookup_fmap.
    destruct (decide (i < length (coord atoms))%nat) as [Hi|Hi].
    + rewrite lookup_seq_lt by done. cbn [fmap option_fmap option_map plus].
      destruct (lookup_lt_is_Some_2 (coord atoms) i Hi) as [row Hrow].
      destruct (lookup_lt_is_Some_2 (element atoms) i) as [e Hel]; [lia|].
      destruct (lookup_lt_is_Some_2 qs i) as [q Hqi]; [lia|].
      rewrite (lookup_atom_texts _ _ _ _ _ _ _ Hrow Hel Hqi).
      unfold g. by rewrite Hrow, Hel, Hqi.
    + rewrite lookup_seq_ge by lia. symmetry. apply lookup_ge_None.
      rewrite length_atom_texts by done. lia.
  - intros i Hi%elem_of_seq. unfold write_atom_line, g.
    destruct (lookup_lt_is_Some_2 (coord atoms) i) as [row Hrow]; [lia|].
    destruct (lookup_lt_is_Some_2 (element atoms) i) as [e Hel]; [lia|].
    destruct (lookup_lt_is_Some_2 qs i) as [q Hqi]; [lia|].
    rewrite (item_Ok _ _ _ Hrow), bind_ret_l.
    rewrite (item_Ok _ _ _ Hel), bind_ret_l.
    rewrite (item_Ok _ _ _ Hqi), bind_ret_l.
    rewrite Hrow, Hel, Hqi. by rewrite CHARGE_MAPPING_REV_get.
Qed.

Lemma write_Ok (atoms : AtomArray) (b : BondList) :
  wf_atoms atoms -> bonds atoms = Some b ->
  write_structure_to_ctab (Array atoms) = (Ok (lines_written atoms b), []).
Proof.
  intros Hwf Hb. unfold write_structure_to_ctab. rewrite Hb.
  fold (charges_written atoms).
  rewrite write_atom_lines;
    [| apply Hwf | by apply length_charges_written].
  rewrite bind_ret_l. unfold ret, lines_written, as_array.
  rewrite length_atom_texts, length_map;
    [done | apply Hwf | by apply length_charges_written].
Qed.

End WriteLemmas.

(** ** Fixed-width fields *)

Lemma elem_of_upto (n : nat) (k : Z) : 0 <= k < Z.of_nat n -> In k (upto n).
Proof.
  intros Hk. unfold upto. apply in_map_iff. exists (Z.to_nat k).
  split; [lia|]. apply in_seq. lia.
Qed.

Lemma fmt_3d_exact_all : forallb fmt_3d_exact (upto 1000) = true.
Proof. vm_compute. reflexivity. Qed.

Lemma counts_exact_all :
  forallb (fun n => forallb (counts_exact n) (upto 100)) (upto 1000) = true.
Proof. vm_compute. reflexivity. Qed.

Lemma fmt_3d_spec (k : Z) :
  0 <= k <= 999 ->
  length (fmt_3d k) = 3%nat /\ int_of_str (fmt_3d k) = Some k.
Proof.
  intros Hk. pose proof fmt_3d_exact_all as Hall.
  rewrite forallb_forall in Hall.
  specialize (Hall k (elem_of_upto 1000 k ltac:(lia))).
  unfold fmt_3d_exact in Hall. apply andb_true_iff in Hall as [Hl Hv].
  apply Nat.eqb_eq in Hl. split; [done|].
  destruct (int_of_str (fmt_3d k)) as [v|]; [|done].
  apply Z.eqb_eq in Hv. by subst.
Qed.

Lemma get_counts_written (n m : Z) :
  0 <= n <= 999 -> 0 <= m <= 99 ->
  _get_counts (counts_line_text n m) = (Ok (n, m), []).
Proof.
  intros Hn Hm. pose proof counts_exact_all as Hall.
  rewrite forallb_forall in Hall.
  specialize (Hall n (elem_of_upto 1000 n ltac:(lia))).
  rewrite forallb_forall in Hall.
  specialize (Hall m (elem_of_upto 100 m ltac:(lia))).
  unfold counts_exact in Hall.
  destruct (_get_counts (counts_line_text n m)) as [[[a b]|e] [|w ws]];
    try done.
  apply andb_true_iff in Hall as [Ha Hb].
  apply Z.eqb_eq in Ha, Hb. by subst.
Qed.

Lemma length_rjust (w : nat) (s : pystr) :
  (length s <= w)%nat -> length (rjust w s) = w.
Proof.
  intros Hs. unfold rjust. rewrite length_app, length_replicate. lia.
Qed.

Lemma pyslice_middle {A} (pre mid post : list A) (a b : Z) :
  Z.of_nat (length pre) = a -> Z.of_nat (length mid) = b - a ->
  pyslice (pre ++ mid ++ post) a b = mid.
Proof.
  intros Ha Hb. rewrite pyslice_nonneg by lia.
  rewrite drop_app_length' by lia.
  rewrite take_app_length' by lia. done.
Qed.

(** The columns of an atom line whose fields have their nominal widths. *)
Lemma atom_line_columns (fx fy fz re fc pad : pystr) :
  length fx = 10%nat -> length fy = 10%nat -> length fz = 10%nat ->
  length re = 3%nat -> length fc = 3%nat ->
  let line := fx ++ fy ++ fz ++ (lit " " ++ re) ++ (lit "  " ++ fc) ++ pad in
  pyslice line 0 10 = fx /\ pyslice line 10 20 = fy
  /\ pyslice line 20 30 = fz /\ pyslice line 31 34 = re
  /\ pyslice line 36 39 = fc.
Proof.
  intros Hx Hy Hz Hr Hc line. subst line. cbn [lit list_ascii_of_string app].
  repeat split.
  - apply (pyslice_middle []); simpl; lia.
  - apply (pyslice_middle fx); lia.
  - rewrite (app_assoc fx fy). apply pyslice_middle;
      rewrite ?length_app; lia.
  - replace (fx ++ fy ++ fz ++ " "%char :: re ++ " "%char :: " "%char :: fc ++ pad)
      with ((fx ++ fy ++ fz ++ [" "%char]) ++ re
            ++ (" "%char :: " "%char :: fc ++ pad))
      by (by rewrite <- !app_assoc).
    apply pyslice_middle; rewrite ?length_app; simpl; lia.
  - replace (fx ++ fy ++ fz ++ " "%char :: re ++ " "%char :: " "%char :: fc ++ pad)
      with ((fx ++ fy ++ fz ++ " "%char :: re ++ [" "%char; " "%char]) ++ fc
            ++ pad)
      by (rewrite <- !app_assoc; cbn [app]; by rewrite <- !app_assoc).
    apply pyslice_middle; rewrite ?length_app; simpl;
      rewrite ?length_app; simpl; lia.
Qed.

(** The columns of a bond line. *)
Lemma bond_line_columns (fa fb fc pad : pystr) :
  length fa = 3%nat -> length fb = 3%nat -> length fc = 3%nat ->
  let line := (fa ++ fb ++ fc) ++ pad in
  pyslice line 0 3 = fa /\ pyslice line 3 6 = fb /\ pyslice line 6 9 = fc.
Proof.
  intros Ha Hb Hc line. subst line. rewrite <- !app_assoc. repeat split.
  - apply (pyslice_middle []); simpl; lia.
  - apply (pyslice_middle fa); lia.
  - rewrite (app_assoc fa fb). apply pyslice_middle;
      rewrite ?length_app; lia.
Qed.

(** ** Failures of the writer and of the reader *)

Lemma get_counts_parse (line : pystr) (n m : Z) :
  counts_parse line n m -> _get_counts line = (Ok (n, m), []).
Proof.
  intros (t0 & t1 & H0 & H1 & Hn & Hm). unfold _get_counts.
  rewrite (item_Ok _ _ _ H0), bind_ret_l, Hn. cbn [orRaise]. unfold ret.
  rewrite bind_ret_l, (item_Ok _ _ _ H1), bind_ret_l, Hm. cbn [orRaise].
  unfold ret. by rewrite bind_ret_l.
Qed.

Lemma get_counts_fails (line : pystr) :
  (forall n m, ~ counts_parse line n m) ->
  exists e, _get_counts line = (Err e, [])
            /\ (e = IndexError \/ e = ValueError).
Proof.
  intros Hno. unfold _get_counts, item.
  destruct (split line !! 0%nat) as [t0|] eqn:H0; cbn [orRaise];
    [|exists IndexError; auto].
  unfold ret. rewrite bind_ret_l.
  destruct (int_of_str t0) as [n|] eqn:Hn; cbn [orRaise];
    [|exists ValueError; auto].
  unfold ret. rewrite bind_ret_l.
  destruct (split line !! 1%nat) as [t1|] eqn:H1; cbn [orRaise];
    [|exists IndexError; auto].
  unfold ret. rewrite bind_ret_l.
  destruct (int_of_str t1) as [m|] eqn:Hm; cbn [orRaise];
    [|exists ValueError; auto].
  exfalso. apply (Hno n m). exists t0, t1. auto.
Qed.

Lemma pyslice_beyond {A} (l : list A) (a b : Z) :
  Z.of_nat (length l) <= a -> 0 <= b -> pyslice l a b = [].
Proof.
  intros Ha Hb. rewrite pyslice_nonneg by lia.
  rewrite drop_ge by lia. apply take_nil.
Qed.

Section CodecTheorems.

Context `{Float}.

(** C5.  [write_structure_to_ctab] raises exactly for a stack
    ([TypeError], the design's UnsupportedInputError) and for an array
    without bond list ([BadStructureError], the design's
    MissingBondGraphError); an array with a bond list, empty or not, is
    written, and nothing is warned about. *)
Theorem write_fails_iff (s : structure) (Hwf : wf_structure s) :
  match s with
  | Stack _ => write_structure_to_ctab s = (Err TypeError, [])
  | Array atoms =>
      match bonds atoms with
      | None => write_structure_to_ctab s = (Err BadStructureError, [])
      | Some b => write_structure_to_ctab s = (Ok (lines_written atoms b), [])
      end
  end
  /\ ((exists e ws, write_structure_to_ctab s = (Err e, ws))
      <-> match s with
          | Stack _ => True
          | Array atoms => bonds atoms = None
          end).
Proof.
  destruct s as [atoms | stack]; cbn [wf_structure] in Hwf.
  - destruct (bonds atoms) as [b|] eqn:Hb.
    + rewrite (write_Ok atoms b Hwf Hb). split; [done|].
      split; [intros (e & ws & [=]) | done].
    + assert (Hw : write_structure_to_ctab (Array atoms)
                   = (Err BadStructureError, []))
        by (unfold write_structure_to_ctab; by rewrite Hb).
      split; [done|]. split; [done | eauto].
  - split; [done|]. split; [done | intros _; by eexists _, _].
Qed.

(** C7.  Writing an array that has a bond list warns about nothing.  An
    atom without charge annotation, or with a formal charge outside
    -3..3, has the charge field ["  0"] in its line: the line is the three
    coordinates, the element, two blanks, that field and the ten zero
    fields.  A bond whose type is none of the four stored values 0..3 has
    the type field ["  0"] in its line, after the two atom numbers and
    before the four zero fields. *)
Theorem write_reverse_fallback (atoms : AtomArray) (b : BondList)
    (Hwf : wf_atoms atoms) (Hb : bonds atoms = Some b) :
  exists lines : list pystr,
    write_structure_to_ctab (Array atoms) = (Ok lines, [])
    /\ (forall (i : nat) row e,
          coord atoms !! i = Some row -> element atoms !! i = Some e ->
          (charge atoms = None
           \/ exists qs q, charge atoms = Some qs /\ qs !! i = Some q
                           /\ ~ (-3 <= q <= 3)) ->
          lines !! (1 + i)%nat
          = Some ((fmt_10_5f row.1.1 ++ fmt_10_5f row.1.2 ++ fmt_10_5f row.2
                   ++ (lit " " ++ rjust 3 e)
                   ++ (lit "  " ++ lit "  0")
                   ++ lit "  0  0  0  0  0  0  0  0  0  0") : pystr))
    /\ (forall (k : nat) i j t,
          bond_rows b !! k = Some (i, j, t) -> ~ (0 <= t <= 3) ->
          lines !! (1 + array_length atoms + k)%nat
          = Some (((fmt_3d (i + 1) ++ fmt_3d (j + 1) ++ lit "  0")
                   ++ lit "  0  0  0  0") : pystr)).
Proof.
  exists (lines_written atoms b). split; [by apply write_Ok|].
  pose proof (length_charges_written atoms Hwf) as Hlq.
  assert (Hlt : length (atom_texts (coord atoms) (element atoms)
                                   (charges_written atoms))
                = array_length atoms).
  { apply length_atom_texts; [apply Hwf | done]. }
  assert (Hzero : fmt_3d 0 = lit "  0") by (vm_compute; reflexivity).
  assert (Hten : str_times (lit "  0") 10
                 = lit "  0  0  0  0  0  0  0  0  0  0")
    by (vm_compute; reflexivity).
  assert (Hfour : str_times (lit "  0") 4 = lit "  0  0  0  0")
    by (vm_compute; reflexivity).
  split.
  - intros i row e Hrow He Hq. unfold lines_written.
    cbn [app]. change (1 + i)%nat with (S i). rewrite lookup_cons.
    rewrite lookup_app_l by (rewrite Hlt; by eapply lookup_lt_Some).
    assert (Hi : (i < array_length atoms)%nat) by (by eapply lookup_lt_Some).
    destruct (lookup_lt_is_Some_2 (charges_written atoms) i) as [q Hqi];
      [lia|].
    rewrite (lookup_atom_texts _ _ _ _ _ _ _ Hrow He Hqi).
    assert (Hcode : code_of_charge q = 0).
    { unfold charges_written in Hqi.
      destruct Hq as [Hq | (qs & q' & Hq & Hq' & Hout)]; rewrite Hq in Hqi.
      - apply lookup_replicate in Hqi as [-> _]. done.
      - assert (q' = q) as -> by congruence. clear -Hout.
        destruct q as [|p|p]; [lia | |];
          do 2 (try (destruct p as [p|p|]; try done)); lia. }
    unfold atom_line_text. by rewrite Hcode, Hzero, Hten.
  - intros k i j t Hk Hout. unfold lines_written.
    cbn [app]. change (1 + array_length atoms + k)%nat
      with (S (array_length atoms + k)). rewrite lookup_cons.
    rewrite lookup_app_r by lia. rewrite Hlt.
    replace (array_length atoms + k - array_length atoms)%nat with k by lia.
    rewrite lookup_app_l by (rewrite length_map; by eapply lookup_lt_Some).
    rewrite list_lookup_fmap, Hk. cbn [fmap option_fmap option_map write_bond_line].
    rewrite BOND_TYPE_MAPPING_REV_get.
    assert (Hcode : code_of_bond_value t = 0).
    { clear -Hout. destruct t as [|p|p]; [lia | | done].
      do 2 (try (destruct p as [p|p|]; try done)); lia. }
    unfold bond_line_text. by rewrite Hcode, Hzero, Hfour.
Qed.

Lemma remove_redundant_seen (seen : list (Z * Z)) (r : Z * Z * Z) (k : nat) :
  existsb (same_atoms r.1) seen = true ->
  remove_redundant_bonds seen (replicate k r) = [].
Proof.
  intros Hs. induction k as [|k IH]; [done|].
  cbn [replicate remove_redundant_bonds]. by rewrite Hs.
Qed.

Lemma bonds_made_zeros (n : Z) (k : nat) :
  bond_rows (bonds_made n (replicate k (0, 0, 0)))
  = match k with O => [] | S _ => [(0, 0, 0)] end.
Proof.
  unfold bonds_made. cbn [bond_rows]. destruct k as [|k]; [done|].
  cbn [replicate map sorted_bond remove_redundant_bonds existsb].
  f_equal. change (map sorted_bond (replicate k (0, 0, 0)))
    with (sorted_bond <$> replicate k (0, 0, 0)).
  rewrite fmap_replicate. by apply remove_redundant_seen.
Qed.

(** C3, as amended.  Reading fails with [IndexError] or [ValueError]
    (the design's MalformedRecordError) when there is no counts line or
    when it does not split into two tokens that are integers, and then
    nothing is returned.  Missing atom or bond lines are not looked for:
    a counts line that declares [n >= 1] atoms and [m] bonds and is
    followed by no line at all is read, without warning, as [n] atoms with
    the coordinates of a fresh array, the empty element and charge 0, and
    a bond list that is empty for [m = 0] and holds the one row of zeros
    otherwise. *)
Theorem read_fails_on_counts (lines : list pystr)
    (Hbad : forall counts_line n m,
        lines !! 0%nat = Some counts_line -> ~ counts_parse counts_line n m) :
  (exists e, read_structure_from_ctab lines = (Err e, [])
             /\ (e = IndexError \/ e = ValueError))
  /\ (forall counts_line n m,
        counts_parse counts_line n m -> 1 <= n -> 0 <= m ->
        read_structure_from_ctab [counts_line]
        = (Ok {| coord := replicate (Z.to_nat n) (nan, nan, nan);
                 element := replicate (Z.to_nat n) [];
                 charge := Some (replicate (Z.to_nat n) 0);
                 bonds := Some {| atom_count := n;
                                  bond_rows := if decide (m = 0) then []
                                               else [(0, 0, 0)] |} |}, [])).
Proof.
  split.
  - unfold read_structure_from_ctab, item.
    destruct (lines !! 0%nat) as [cl|] eqn:H0; cbn [orRaise];
      [|exists IndexError; auto].
    unfold ret. rewrite bind_ret_l.
    destruct (get_counts_fails cl) as (e & He & Hk);
      [intros n m; by apply Hbad|].
    exists e. rewrite He. auto.
  - intros cl n m Hc Hn Hm.
    assert (Ha : pyslice [cl] 1 (1 + n) = [])
      by (apply pyslice_beyond; simpl; lia).
    assert (Hbl : pyslice [cl] (1 + n) (1 + n + m) = [])
      by (apply pyslice_beyond; simpl; lia).
    rewrite (read_Ok [cl] cl n m [] []); auto.
    + rewrite Ha. unfold atoms_read, rows_read. cbn [map]. rewrite !splice_nil.
      do 3 f_equal. pose proof (bonds_made_zeros n (Z.to_nat m)) as Hz.
      unfold bonds_made in *. cbn [bond_rows] in Hz. rewrite Hz. f_equal.
      case_decide as Hm0.
      * subst m. done.
      * destruct (Z.to_nat m) eqn:Hz'; [lia | done].
    + by apply get_counts_parse.
    + lia.
    + rewrite Ha. constructor.
    + rewrite Hbl. constructor.
    + unfold rows_read. cbn [map]. rewrite splice_nil.
      apply Forall_replicate. cbn. lia.
Qed.

End CodecTheorems.

(** ** Charges *)

Lemma elem_of_concat {A} (x : A) (ls : list (list A)) :
  x ∈ concat ls <-> exists l, x ∈ l /\ l ∈ ls.
Proof.
  induction ls as [|l ls IH]; cbn [concat].
  - split; [by intros ?%elem_of_nil | by intros (l & _ & ?%elem_of_nil)].
  - rewrite elem_of_app, IH. split.
    + intros [Hx | (l' & Hx & Hl)]; [exists l | exists l'];
        rewrite elem_of_cons; auto.
    + intros (l' & Hx & [-> | Hl]%elem_of_cons); eauto.
Qed.

Section ChargeTheorem.

Context `{Float}.

Lemma charge_warning_elem (c : Z) (ds : list (F * F * F * Z))
    (bs : list (Z * Z * Z)) :
  ChargeWarning c ∈ read_warnings ds bs
  <-> (exists d, d ∈ ds /\ d.2 = c) /\ charge_of_code c = None.
Proof.
  unfold read_warnings. rewrite elem_of_app. split.
  - intros [Hin | Hin].
    + apply elem_of_concat in Hin as (w & Hc & Hw).
      apply list_elem_of_fmap in Hw as (d & -> & Hd).
      unfold charge_warnings in Hc.
      destruct (charge_of_code d.2) eqn:E; [by apply elem_of_nil in Hc|].
      apply list_elem_of_singleton in Hc. injection Hc as ->. eauto.
    + apply elem_of_concat in Hin as (w & Hc & Hw).
      apply list_elem_of_fmap in Hw as (d & -> & Hd).
      unfold bond_warnings in Hc.
      destruct (bond_type_read d.2); try by apply elem_of_nil in Hc.
      by apply list_elem_of_singleton in Hc.
  - intros [(d & Hd & <-) Hnone]. left.
    apply elem_of_concat. exists (charge_warnings d.2). split.
    + unfold charge_warnings. rewrite Hnone. by apply list_elem_of_singleton.
    + apply list_elem_of_fmap. eauto.
Qed.

(** C4.  Whenever [read_structure_from_ctab] returns, the charge of every
    atom line it read is the charge its code stands for in the
    enumeration 0,1,2,3,5,6,7 -> 0,+3,+2,+1,-1,-2,-3, and 0 for every
    other code (4 included); a warning naming the code is issued exactly
    for such other codes.  And it does return, whatever the charge codes
    are, once the counts and the fields of the lines present are readable
    and the atom indices of the bonds are below the number of atoms.  The
    charge a code stands for is the entry of [CHARGE_MAPPING], whose keys
    are 0, 1, 2, 3, 5, 6 and 7. *)
Theorem read_charge_mapping :
  (forall (lines : list pystr) (atoms : AtomArray) (ws : list warning),
     read_structure_from_ctab lines = (Ok atoms, ws) ->
     exists counts_line n m qs,
       lines !! 0%nat = Some counts_line
       /\ _get_counts counts_line = (Ok (n, m), [])
       /\ charge atoms = Some qs
       /\ forall (k : nat) line,
            pyslice lines 1 (1 + n) !! k = Some line ->
            exists code,
              int_of_str (pyslice line 36 39) = Some code
              /\ qs !! k = Some (default 0 (charge_of_code code))
              /\ (ChargeWarning code ∈ ws <-> charge_of_code code = None))
  /\ (forall (lines : list pystr) counts_line n m ds bs,
        lines !! 0%nat = Some counts_line ->
        _get_counts counts_line = (Ok (n, m), []) ->
        0 <= n -> 0 <= m ->
        Forall2 atom_line_reads (pyslice lines 1 (1 + n)) ds ->
        Forall2 bond_line_reads (pyslice lines (1 + n) (1 + n + m)) bs ->
        rows_in_range n (rows_read m bs) ->
        exists atoms,
          read_structure_from_ctab lines = (Ok atoms, read_warnings ds bs))
  /\ (forall code, charge_of_code code = CHARGE_MAPPING !! code)
  /\ (CHARGE_MAPPING !! 0 = Some 0 /\ CHARGE_MAPPING !! 1 = Some 3
      /\ CHARGE_MAPPING !! 2 = Some 2 /\ CHARGE_MAPPING !! 3 = Some 1
      /\ CHARGE_MAPPING !! 5 = Some (-1) /\ CHARGE_MAPPING !! 6 = Some (-2)
      /\ CHARGE_MAPPING !! 7 = Some (-3)
      /\ forall code, ~ (0 <= code <= 3 \/ 5 <= code <= 7) ->
                      CHARGE_MAPPING !! code = None).
Proof.
  split; [|split; [|split; [by intros code; rewrite CHARGE_MAPPING_lookup|]]].
  - intros lines atoms ws Hr.
    destruct (read_Ok_inv _ _ _ Hr)
      as (cl & n & m & ds & bs & H0 & Hc & Hn & Hm & Hds & Hbs & Hrg).
    rewrite (read_Ok lines cl n m ds bs H0 Hc Hn Hm Hds Hbs Hrg) in Hr.
    injection Hr as <- <-.
    exists cl, n, m. eexists. split; [done|]. split; [done|].
    split; [reflexivity|].
    intros k line Hk.
    destruct (Forall2_lookup_l _ _ _ _ _ Hds Hk) as (d & Hd & Hreads).
    destruct Hreads as (_ & _ & _ & Hcode).
    exists d.2. split; [done|]. split.
    + unfold splice. rewrite take_0. cbn [app].
      rewrite lookup_app_l
        by (rewrite length_map; by eapply lookup_lt_Some).
      rewrite list_lookup_fmap, Hd. reflexivity.
    + rewrite charge_warning_elem. split; [tauto|].
      intros Hnone. split; [|done]. exists d. split; [|done].
      by eapply list_elem_of_lookup_2.
  - intros lines cl n m ds bs H0 Hc Hn Hm Hds Hbs Hrg. eexists.
    by apply (read_Ok lines cl n m ds bs).
  - rewrite !CHARGE_MAPPING_lookup. repeat (split; [reflexivity|]).
    intros code Hout. rewrite CHARGE_MAPPING_lookup.
    destruct code as [|p|p]; [lia | | done].
    do 3 (try (destruct p as [p|p|]; try done)); lia.
Qed.

End ChargeTheorem.

(** ** Reading a line that was written *)

Section RoundTrip.

Context `{Float}.

Lemma code_of_charge_range (q : Z) : 0 <= code_of_charge q <= 7.
Proof.
  destruct q as [|p|p]; cbn; try lia;
    do 2 (try (destruct p as [p|p|]; cbn; try lia)).
Qed.

Lemma code_of_charge_stable (q : Z) :
  code_of_charge (charge_read (code_of_charge q)) = code_of_charge q.
Proof.
  destruct q as [|p|p]; try done;
    do 2 (try (destruct p as [p|p|]; try done)).
Qed.

Lemma fmt_10_5f_reread (x x' : F) :
  coord_reread x x' ->
  length (fmt_10_5f x) = 10%nat /\ fmt_10_5f x' = fmt_10_5f x.
Proof.
  intros (Hl & _ & Hf). unfold fmt_10_5f. rewrite Hf.
  split; [by apply length_rjust | done].
Qed.

Lemma atom_line_text_reads (r r' : F * F * F) (e : pystr) (q : Z) :
  row_reread r r' -> element_stable e ->
  atom_line_reads (atom_line_text r e (code_of_charge q))
                  (r', code_of_charge q)
  /\ element_read (atom_line_text r e (code_of_charge q)) = e
  /\ atom_line_text r' e (code_of_charge (charge_read (code_of_charge q)))
     = atom_line_text r e (code_of_charge q).
Proof.
  intros (Hx & Hy & Hz) [Hel Hes].
  destruct (fmt_10_5f_reread _ _ Hx) as [Hlx Hfx].
  destruct (fmt_10_5f_reread _ _ Hy) as [Hly Hfy].
  destruct (fmt_10_5f_reread _ _ Hz) as [Hlz Hfz].
  destruct (fmt_3d_spec (code_of_charge q)) as [Hlc Hc];
    [pose proof (code_of_charge_range q); lia|].
  destruct (atom_line_columns (fmt_10_5f r.1.1) (fmt_10_5f r.1.2)
              (fmt_10_5f r.2) (rjust 3 e) (fmt_3d (code_of_charge q))
              (str_times (fmt_3d 0) 10) Hlx Hly Hlz
              (length_rjust 3 e ltac:(lia)) Hlc)
    as (S1 & S2 & S3 & S4 & S5).
  split; [|split].
  - unfold atom_line_reads, atom_line_text. cbn [fst snd].
    rewrite S1, S2, S3, S5.
    destruct Hx as (_ & -> & _), Hy as (_ & -> & _), Hz as (_ & -> & _).
    done.
  - unfold element_read, atom_line_text. rewrite S4, Hes.
    by apply take_ge.
  - unfold atom_line_text. by rewrite Hfx, Hfy, Hfz, code_of_charge_stable.
Qed.

Lemma atom_texts_read (cs cs' : list (F * F * F)) :
  Forall2 row_reread cs cs' ->
  forall (es : list pystr) (qs : list Z),
  Forall element_stable es ->
  length es = length cs -> length qs = length cs ->
  let ds := zip_with (fun r' q => (r', code_of_charge q)) cs' qs in
  Forall2 atom_line_reads (atom_texts cs es qs) ds
  /\ map element_read (atom_texts cs es qs) = es
  /\ atom_texts (map fst ds) es (map (fun d => charge_read d.2) ds)
     = atom_texts cs es qs.
Proof.
  induction 1 as [|r r' cs cs' Hr _ IH]; intros es qs Hes Hle Hlq.
  - destruct es; [|done]. destruct qs; [|done]. cbn. auto.
  - destruct es as [|e es]; [done|]. destruct qs as [|q qs]; [done|].
    apply Forall_cons in Hes as [He Hes].
    destruct (IH es qs Hes) as (I1 & I2 & I3);
      [simpl in *; lia | simpl in *; lia |].
    destruct (atom_line_text_reads r r' e q Hr He) as (A1 & A2 & A3).
    cbn [zip_with atom_texts zip map fst snd] in *.
    unfold atom_texts in *. cbn [zip_with zip map fst snd].
    split; [constructor; assumption|].
    split; [by rewrite A2, I2|].
    by rewrite A3, I3.
Qed.

Lemma Forall_exists_Forall2 {A B} (R : A -> B -> Prop) (l : list A) :
  Forall (fun a => exists b, R a b) l -> exists k, Forall2 R l k.
Proof.
  induction 1 as [|a l [b Hb] _ [k Hk]]; [by exists [] |].
  exists (b :: k). by constructor.
Qed.

Lemma bond_line_text_reads (row : Z * Z * Z) :
  bond_row_canonical row ->
  bond_line_reads (write_bond_line row)
                  (row.1.1 + 1, row.1.2 + 1, code_of_bond_value row.2)
  /\ bond_row_read (row.1.1 + 1, row.1.2 + 1, code_of_bond_value row.2) = row
  /\ bond_warnings (code_of_bond_value row.2)
     = match row.2 with 0 => [BondTypeWarning 8] | _ => [] end.
Proof.
  destruct row as [[i j] t]. intros (Hi & Hj & Ht). cbn [fst snd] in *.
  unfold write_bond_line. rewrite BOND_TYPE_MAPPING_REV_get.
  assert (Hcode : 0 <= code_of_bond_value t <= 8).
  { destruct t as [|p|p]; cbn; try lia;
      do 2 (try (destruct p as [p|p|]; cbn; try lia)). }
  destruct (fmt_3d_spec (i + 1)) as [La Ra]; [lia|].
  destruct (fmt_3d_spec (j + 1)) as [Lb Rb]; [lia|].
  destruct (fmt_3d_spec (code_of_bond_value t)) as [Lc Rc]; [lia|].
  destruct (bond_line_columns _ _ _ (str_times (fmt_3d 0) 4) La Lb Lc)
    as (S1 & S2 & S3).
  split; [|split].
  - unfold bond_line_reads, bond_line_text. cbn [fst snd].
    by rewrite S1, S2, S3.
  - unfold bond_row_read, to_uint32. cbn [fst snd].
    replace (i + 1 - 1) with i by lia. replace (j + 1 - 1) with j by lia.
    rewrite !Z.mod_small by lia.
    assert (t = 0 \/ t = 1 \/ t = 2 \/ t = 3) as [-> | [-> | [-> | ->]]]
      by lia; reflexivity.
  - assert (t = 0 \/ t = 1 \/ t = 2 \/ t = 3) as [-> | [-> | [-> | ->]]]
      by lia; reflexivity.
Qed.

Lemma bond_lines_read (rows : list (Z * Z * Z)) :
  Forall bond_row_canonical rows ->
  let bs := map (fun row => (row.1.1 + 1, row.1.2 + 1,
                             code_of_bond_value row.2)) rows in
  Forall2 bond_line_reads (map write_bond_line rows) bs
  /\ map bond_row_read bs = rows.
Proof.
  induction 1 as [|row rows Hrow _ [IH1 IH2]]; cbn; [auto|].
  destruct (bond_line_text_reads row Hrow) as (B1 & B2 & _).
  split; [by constructor | by rewrite B2, IH2].
Qed.

End RoundTrip.

(** ** Writing, reading and writing again *)

Lemma map_fst_zip_with {A B C} (f : B -> C) (xs : list A) (ys : list B) :
  length ys = length xs ->
  map fst (zip_with (fun x y => (x, f y)) xs ys) = xs.
Proof.
  revert ys. induction xs as [|x xs IH]; intros [|y ys] Hl; try done.
  cbn. f_equal. apply IH. simpl in Hl. lia.
Qed.

Lemma map_snd_zip_with {A B C D} (f : B -> C) (g : C -> D)
    (xs : list A) (ys : list B) :
  length ys = length xs ->
  map (fun d => g d.2) (zip_with (fun x y => (x, f y)) xs ys)
  = map (fun y => g (f y)) ys.
Proof.
  revert ys. induction xs as [|x xs IH]; intros [|y ys] Hl; try done.
  cbn. f_equal. apply IH. simpl in Hl. lia.
Qed.

Lemma existsb_same_atoms (p : Z * Z) (seen : list (Z * Z)) :
  existsb (same_atoms p) seen = true <-> p ∈ seen.
Proof.
  rewrite existsb_exists. split.
  - intros (q & Hq & Hs). unfold same_atoms in Hs.
    apply andb_true_iff in Hs as [H1%Z.eqb_eq H2%Z.eqb_eq].
    apply list_elem_of_In in Hq. destruct p, q. cbn in *. by subst.
  - intros Hp. exists p. split; [by apply list_elem_of_In|].
    unfold same_atoms. by rewrite !Z.eqb_refl.
Qed.

Lemma remove_redundant_NoDup (rows : list (Z * Z * Z)) :
  forall seen : list (Z * Z),
  NoDup (map fst rows) ->
  (forall r, r ∈ rows -> r.1 ∉ seen) ->
  remove_redundant_bonds seen rows = rows.
Proof.
  induction rows as [|r rows IH]; intros seen Hnd Hseen; [done|].
  cbn [map] in Hnd. apply NoDup_cons in Hnd as [Hr Hnd].
  cbn [remove_redundant_bonds].
  destruct (existsb (same_atoms r.1) seen) eqn:He.
  - apply existsb_same_atoms in He. destruct (Hseen r); [left | done].
  - f_equal. apply IH; [done|]. intros r' Hr' Hin.
    apply elem_of_cons in Hin as [Heq | Hin].
    + apply Hr. rewrite <- Heq.
      change (map fst rows) with (fst <$> rows).
      apply list_elem_of_fmap. eauto.
    + apply (Hseen r'); [by right | done].
Qed.

Lemma sorted_bond_id (rows : list (Z * Z * Z)) :
  Forall (fun r : Z * Z * Z => r.1.1 <= r.1.2) rows ->
  map sorted_bond rows = rows.
Proof.
  induction 1 as [|[[i j] t] rows Hr _ IH]; [done|].
  cbn [map sorted_bond fst snd] in *. rewrite IH.
  by rewrite Z.min_l, Z.max_r by lia.
Qed.

(** [BondList] makes nothing else of the rows of a valid bond list. *)
Lemma bonds_made_valid (b : BondList) :
  BondList_valid b -> bonds_made (atom_count b) (bond_rows b) = b.
Proof.
  intros [Hrows Hnd]. unfold bonds_made. destruct b as [n rows].
  cbn [atom_count bond_rows] in *. f_equal.
  rewrite sorted_bond_id
    by (eapply Forall_impl; [exact Hrows | cbn; intros; lia]).
  apply remove_redundant_NoDup; [done|]. intros r _ Hin.
  by apply elem_of_nil in Hin.
Qed.

Lemma rows_in_range_valid (b : BondList) :
  BondList_valid b -> rows_in_range (atom_count b) (bond_rows b).
Proof.
  intros [Hrows _]. unfold rows_in_range.
  eapply Forall_impl; [exact Hrows | cbn; intros; lia].
Qed.

Section RoundTripTheorem.

Context `{Float}.

(** What reading the lines written for a canonical record returns. *)
Lemma read_written (atoms : AtomArray) (b : BondList)
    (cs' : list (F * F * F)) :
  wf_atoms atoms -> canonical atoms b ->
  atom_count b = Z.of_nat (array_length atoms) -> BondList_valid b ->
  Forall2 row_reread (coord atoms) cs' ->
  let qs := charges_written atoms in
  let ds := zip_with (fun r' q => (r', code_of_charge q)) cs' qs in
  let bs := map (fun row => (row.1.1 + 1, row.1.2 + 1,
                             code_of_bond_value row.2)) (bond_rows b) in
  read_structure_from_ctab (lines_written atoms b)
  = (Ok {| coord := cs';
           element := element atoms;
           charge := Some (map (fun q => charge_read (code_of_charge q)) qs);
           bonds := Some b |},
     read_warnings ds bs).
Proof.
  intros Hwf (Hn & Hm & _ & Hes & Hrows) Hcount Hval Hcs qs ds bs.
  pose proof (length_charges_written atoms Hwf) as Hlq. fold qs in Hlq.
  destruct Hwf as [Hle _]. unfold array_length in *.
  pose proof (Forall2_length _ _ _ Hcs) as Hlc.
  destruct (atom_texts_read _ _ Hcs (element atoms) qs Hes Hle Hlq)
    as (A1 & A2 & _). fold ds in A1.
  destruct (bond_lines_read _ Hrows) as (B1 & B2). fold bs in B1, B2.
  pose proof (length_atom_texts _ _ _ Hle Hlq) as Hlt.
  assert (Hlds : length ds = length (coord atoms)).
  { subst ds. rewrite length_zip_with. lia. }
  set (n := Z.of_nat (length (coord atoms))) in *.
  set (m := Z.of_nat (length (bond_rows b))).
  assert (Sa : pyslice (lines_written atoms b) 1 (1 + n)
               = atom_texts (coord atoms) (element atoms) qs).
  { unfold lines_written. fold qs.
    apply pyslice_middle; [done | rewrite Hlt; lia]. }
  assert (Sb : pyslice (lines_written atoms b) (1 + n) (1 + n + m)
               = map write_bond_line (bond_rows b)).
  { unfold lines_written. fold qs. rewrite app_assoc.
    apply pyslice_middle;
      [rewrite length_app, Hlt; simpl; lia | rewrite length_map; lia]. }
  assert (Hrr : rows_read m bs = bond_rows b).
  { unfold rows_read. rewrite B2. apply splice_all.
    rewrite length_replicate. lia. }
  rewrite (read_Ok _ (counts_line_text n m) n m ds bs);
    [| done | apply get_counts_written; lia | lia | lia
     | by rewrite Sa | by rewrite Sb
     | rewrite Hrr, <- Hcount; by apply rows_in_range_valid ].
  f_equal. f_equal. unfold atoms_read. rewrite Sa, A2, Hrr.
  rewrite !splice_all;
    rewrite ?length_map, ?length_replicate; try lia.
  subst ds. rewrite map_fst_zip_with, map_snd_zip_with by lia.
  rewrite <- Hcount, (bonds_made_valid b Hval).
  reflexivity.
Qed.

(** C1, as amended.  On the line lists the serializer itself produces
    for a record within the limits of the layout, parsing and serializing
    again gives back the very same lines.  The bond list of the record
    is a valid one for its atoms, as the constructor of [BondList] makes
    it. *)
Theorem write_read_write (atoms : AtomArray) (b : BondList)
    (Hwf : wf_atoms atoms) (Hb : bonds atoms = Some b)
    (Hcount : atom_count b = Z.of_nat (array_length atoms))
    (Hval : BondList_valid b)
    (Hcan : canonical atoms b) :
  exists lines atoms' ws,
    write_structure_to_ctab (Array atoms) = (Ok lines, [])
    /\ read_structure_from_ctab lines = (Ok atoms', ws)
    /\ write_structure_to_ctab (Array atoms') = (Ok lines, []).
Proof.
  destruct (Forall_exists_Forall2 _ _ (proj1 (proj2 (proj2 Hcan))))
    as [cs' Hcs].
  eexists _, _, _. split; [by apply write_Ok|].
  split; [by apply read_written|].
  pose proof (length_charges_written atoms Hwf) as Hlq.
  pose proof (Forall2_length _ _ _ Hcs) as Hlc.
  destruct Hcan as (_ & _ & _ & Hes & _).
  pose proof Hwf as [Hle _]. unfold array_length in *.
  erewrite write_Ok;
    [| split; cbn [coord element charge bonds]; unfold array_length;
       cbn [coord]; rewrite ?length_map; lia
     | reflexivity ].
  do 2 f_equal. unfold lines_written, array_length, charges_written at 1.
  cbn [coord element charge bonds bond_rows]. rewrite <- Hlc.
  do 2 f_equal.
  destruct (atom_texts_read _ _ Hcs (element atoms)
              (charges_written atoms) Hes Hle Hlq) as (_ & _ & A3).
  rewrite <- A3.
  by rewrite map_fst_zip_with, map_snd_zip_with by lia.
Qed.

End RoundTripTheorem.

(** ** Concrete connection tables *)

Lemma outcome_Err {A} (m : M A) e ws :
  outcome m = (Some e, ws) -> m = (Err e, ws).
Proof. destruct m as [[a|e'] ws']; unfold outcome; simpl; congruence. Qed.

Lemma outcome_Ok {A} (m : M A) ws :
  outcome m = (None, ws) -> exists a, m = (Ok a, ws).
Proof.
  destruct m as [[a|e'] ws']; unfold outcome; simpl; [|congruence].
  intros [= <-]. by exists a.
Qed.

Lemma observe_Ok m a ws : observe m = (inl (view a), ws) -> m = (Ok a, ws).
Proof.
  destruct m as [[a'|e'] ws']; unfold observe; simpl; [|congruence].
  destruct a', a. unfold view; simpl. congruence.
Qed.

(** C2.  A bond line with type code 8 is read as [ANY], as the table
    says, and yet a warning "cannot handle bond type 8" is issued. *)
Theorem bond_code_8_warns :
  BOND_TYPE_MAPPING !! 8 = Some ANY
  /\ (@read_structure_from_ctab Fixed5 spec_lines).2 = [BondTypeWarning 8]
  /\ read_bond_line [(0, 0, 0)] 0 (lit "  2  3  8  0  0  0  0")
     = (Ok [(1, 2, 0)], [BondTypeWarning 8]).
Proof.
  split; [vm_compute; reflexivity|]. split; [|vm_compute; reflexivity].
  change (snd (outcome (@read_structure_from_ctab Fixed5 spec_lines))
          = [BondTypeWarning 8]).
  vm_compute. reflexivity.
Qed.

(** C6.  A ring of 100 atoms is written with the counts "100100"; read
    back, this is one token, 100100 atoms and no bond are expected, and
    the first bond line fails to parse as an atom line. *)
Theorem ring100_not_read_back :
  @write_structure_to_ctab Fixed5 (Array ring100)
  = (Ok (lines_written ring100 ring100_bonds), [])
  /\ lines_written ring100 ring100_bonds !! 0%nat
     = Some (lit "100100     0  0  0  0  0  1 V2000")
  /\ _get_counts (lit "100100     0  0  0  0  0  1 V2000")
     = (Ok (100100, 0), [])
  /\ @read_structure_from_ctab Fixed5 (lines_written ring100 ring100_bonds)
     = (Err ValueError, []).
Proof.
  split; [vm_compute; reflexivity|]. split; [vm_compute; reflexivity|].
  split; [vm_compute; reflexivity|].
  apply outcome_Err. vm_compute. reflexivity.
Qed.

(** C1 fails: the lines of the design's own example are parsed, and what
    is serialized from the result differs from them in the counts line,
    also when blanks at the end of lines are disregarded. *)
Lemma spec_lines_not_reproduced :
  exists atoms ws out,
    @read_structure_from_ctab Fixed5 spec_lines = (Ok atoms, ws)
    /\ @write_structure_to_ctab Fixed5 (Array atoms) = (Ok out, [])
    /\ out <> spec_lines
    /\ map rstrip out <> map rstrip spec_lines
    /\ out !! 0%nat = Some (lit "  3  2     0  0  0  0  0  1 V2000").
Proof.
  exists three_atoms, [BondTypeWarning 8],
         (lines_written three_atoms three_atoms_bonds).
  split; [apply observe_Ok; vm_compute; reflexivity|].
  split; [vm_compute; reflexivity|].
  split; [|split].
  - intros Heq. apply (f_equal (fun l => length <$> l !! 0%nat)) in Heq.
    revert Heq. vm_compute. discriminate.
  - intros Heq. apply (f_equal (fun l => length <$> l !! 0%nat)) in Heq.
    revert Heq. vm_compute. discriminate.
  - vm_compute. reflexivity.
Qed.

(** C3 fails: a counts line that declares one atom, followed by nothing,
    is read without any error. *)
Lemma truncated_input_is_read :
  ~ (exists e ws,
       @read_structure_from_ctab Fixed5
         [lit "  1  0  0  0  0  0  0  0  0  1 V2000"] = (Err e, ws)).
Proof.
  intros (e & ws & Hr).
  apply (f_equal (fun m => (outcome m).1)) in Hr. revert Hr.
  vm_compute. discriminate.
Qed.

(** ** Closed instances *)

Lemma three_atoms_wf : @wf_atoms Fixed5 three_atoms.
Proof. split; reflexivity. Defined.

Lemma three_atoms_canonical :
  @canonical Fixed5 three_atoms
    {| atom_count := 3; bond_rows := [(0, 1, 1); (1, 2, 0)] |}.
Proof.
  split; [vm_compute; lia|]. split; [vm_compute; lia|].
  split; [|split].
  - repeat constructor;
      (match goal with |- exists r', @row_reread _ ?r r' => exists r end);
      repeat split; try (vm_compute; lia); vm_compute; reflexivity.
  - repeat constructor; try (vm_compute; lia); vm_compute; reflexivity.
  - repeat constructor; vm_compute; congruence.
Defined.

Lemma three_atoms_bonds_valid : BondList_valid three_atoms_bonds.
Proof.
  split.
  - repeat constructor; cbn; lia.
  - cbn. repeat constructor; rewrite ?elem_of_cons, ?elem_of_nil;
      intros; intuition congruence.
Defined.

Lemma write_read_write_witness :
  exists lines atoms' ws,
    @write_structure_to_ctab Fixed5 (Array three_atoms) = (Ok lines, [])
    /\ @read_structure_from_ctab Fixed5 lines = (Ok atoms', ws)
    /\ @write_structure_to_ctab Fixed5 (Array atoms') = (Ok lines, []).
Proof.
  apply (@write_read_write Fixed5 three_atoms three_atoms_bonds).
  - exact three_atoms_wf.
  - reflexivity.
  - reflexivity.
  - exact three_atoms_bonds_valid.
  - exact three_atoms_canonical.
Defined.

Lemma write_fails_iff_witness :
  @write_structure_to_ctab Fixed5 (Array three_atoms)
  = (Ok (lines_written three_atoms
           {| atom_count := 3; bond_rows := [(0, 1, 1); (1, 2, 0)] |}), []).
Proof.
  exact (proj1 (@write_fails_iff Fixed5 (Array three_atoms) three_atoms_wf)).
Defined.

Lemma odd_atoms_wf : @wf_atoms Fixed5 odd_atoms.
Proof. split; reflexivity. Defined.

Lemma plain_atoms_wf : @wf_atoms Fixed5 plain_atoms.
Proof. split; [reflexivity | exact I]. Defined.

Lemma write_reverse_fallback_witness :
  (exists lines : list pystr,
     @write_structure_to_ctab Fixed5 (Array plain_atoms) = (Ok lines, [])
     /\ lines !! 2%nat
        = Some (lit "   1.50000   0.00000   0.00000   O    0  0  0  0  0  0  0  0  0  0  0"))
  /\ (exists lines : list pystr,
        @write_structure_to_ctab Fixed5 (Array odd_atoms) = (Ok lines, [])
        /\ lines !! 2%nat
           = Some (lit "   1.50000   0.00000   0.00000   N    0  0  0  0  0  0  0  0  0  0  0")
        /\ lines !! 3%nat = Some (lit "  1  2  0  0  0  0  0")).
Proof.
  split.
  - destruct (@write_reverse_fallback Fixed5 plain_atoms
                {| atom_count := 2; bond_rows := [(0, 1, 1)] |}
                plain_atoms_wf eq_refl) as (lines & Hw & Ha & _).
    exists lines. split; [exact Hw|].
    etrans; [exact (Ha 1%nat (point 150000 0 0) (lit "O") eq_refl eq_refl
                       (or_introl eq_refl)) |].
    vm_compute. reflexivity.
  - destruct (@write_reverse_fallback Fixed5 odd_atoms
                {| atom_count := 2; bond_rows := [(0, 1, 5)] |}
                odd_atoms_wf eq_refl) as (lines & Hw & Ha & Hb).
    exists lines. split; [exact Hw|]. split.
    + etrans; [apply (Ha 1%nat (point 150000 0 0) (lit "N") eq_refl eq_refl);
               right; exists [0; 4], 4; repeat split; lia |].
      vm_compute. reflexivity.
    + etrans; [exact (Hb 0%nat 0 1 5 eq_refl ltac:(lia)) |].
      vm_compute. reflexivity.
Defined.

Lemma one_count_does_not_parse (cl : pystr) (n m : Z) :
  [lit "  3 V2000"; lit "M  END"] !! 0%nat = Some cl -> ~ counts_parse cl n m.
Proof.
  intros [= <-] (t0 & t1 & H0 & H1 & Hn & Hm).
  vm_compute in H1. injection H1 as <-. vm_compute in Hm. discriminate.
Defined.

Lemma read_fails_on_counts_witness :
  (exists e,
     @read_structure_from_ctab Fixed5 [lit "  3 V2000"; lit "M  END"]
     = (Err e, [])
     /\ (e = IndexError \/ e = ValueError))
  /\ @read_structure_from_ctab Fixed5 [lit "  2  2"]
     = (Ok {| coord := replicate (Z.to_nat 2) (nan, nan, nan);
              element := replicate (Z.to_nat 2) [];
              charge := Some (replicate (Z.to_nat 2) 0);
              bonds := Some {| atom_count := 2;
                               bond_rows := if decide (2 = 0) then []
                                            else [(0, 0, 0)] |} |}, []).
Proof.
  split.
  - exact (proj1 (@read_fails_on_counts Fixed5
                    [lit "  3 V2000"; lit "M  END"]
                    one_count_does_not_parse)).
  - apply (proj2 (@read_fails_on_counts Fixed5
                    [lit "  3 V2000"; lit "M  END"]
                    one_count_does_not_parse) (lit "  2  2") 2 2).
    + exists (lit "2"), (lit "2").
      repeat split; vm_compute; reflexivity.
    + lia.
    + lia.
Defined.

Lemma code4_lines_read :
  @read_structure_from_ctab Fixed5 code4_lines
  = (Ok code4_atoms, [ChargeWarning 4]).
Proof. apply observe_Ok. vm_compute. reflexivity. Qed.

Lemma read_charge_mapping_witness :
  (exists counts_line n m qs,
     code4_lines !! 0%nat = Some counts_line
     /\ _get_counts counts_line = (Ok (n, m), [])
     /\ charge code4_atoms = Some qs
     /\ forall (k : nat) line,
          pyslice code4_lines 1 (1 + n) !! k = Some line ->
          exists code,
            int_of_str (pyslice line 36 39) = Some code
            /\ qs !! k = Some (default 0 (charge_of_code code))
            /\ (ChargeWarning code ∈ [ChargeWarning 4]
                <-> charge_of_code code = None))
  /\ (exists atoms,
        @read_structure_from_ctab Fixed5 code4_lines
        = (Ok atoms, [ChargeWarning 4])).
Proof.
  split.
  - exact (proj1 (@read_charge_mapping Fixed5) code4_lines code4_atoms
             [ChargeWarning 4] code4_lines_read).
  - apply (proj1 (proj2 (@read_charge_mapping Fixed5)) code4_lines
             (lit "  1  0  0  0  0  0  0  0  0  1 V2000") 1 0
             [(Some 0, Some 0, Some 0, 4)] []).
    + reflexivity.
    + vm_compute. reflexivity.
    + lia.
    + lia.
    + constructor; [|constructor]. repeat split; vm_compute; reflexivity.
    + constructor.
    + constructor.
Defined.

(** ** Chains *)

Lemma elem_of_where_from (i : Z) (mask : list bool) (j : Z) :
  j ∈ where_from i mask <->
  exists k : nat, mask !! k = Some true /\ j = i + Z.of_nat k.
Proof.
  revert i. induction mask as [|b mask IH]; intros i; simpl.
  - split; [by intros ?%elem_of_nil | by intros (k & ? & _)].
  - destruct b.
    + rewrite elem_of_cons, IH. split.
      * intros [-> | (k & Hk & ->)]; [exists O | exists (S k)]; split; auto; lia.
      * intros ([|k] & Hk & ->); [left; lia | right; exists k; split; auto; lia].
    + rewrite IH. split.
      * intros (k & Hk & ->). exists (S k). split; auto; lia.
      * intros ([|k] & Hk & ->); [done|]. exists k. split; auto; lia.
Qed.


(** ** The loop of [chain_iter] *)

Lemma for_each_consecutive {A B} (f : A -> A -> B) (pre l : list A) :
  for_each (fun i => a <- item (pre ++ l) i ;;
                     b <- item (pre ++ l) (i + 1) ;;
                     ret (f a b))
           (seq (length pre) (length l - 1))
  = (Ok (zip_with f l (tail l)), []).
Proof.
  revert pre. induction l as [|x l IH]; intros pre; [done|].
  destruct l as [|y l]; [done|].
  replace (length (x :: y :: l) - 1)%nat with (S (length (y :: l) - 1)) by (simpl; lia).
  cbn [seq for_each].
  specialize (IH (pre ++ [x])).
  rewrite <- app_assoc in IH. cbn [app] in IH.
  rewrite length_app in IH. cbn [length] in IH.
  replace (length pre + 1)%nat with (S (length pre)) in IH by lia.
  cbn [length]. rewrite IH.
  unfold item.
  rewrite (lookup_app_r pre) by lia. rewrite Nat.sub_diag.
  rewrite (lookup_app_r pre) by lia.
  replace (length pre + 1 - length pre)%nat with 1%nat by lia.
  reflexivity.
Qed.

Lemma constant_snoc {A} (l : list A) (x y : A) :
  constant l -> x ∈ l -> x = y -> constant (l ++ [y]).
Proof.
  intros Hc Hx <- a b. rewrite !elem_of_app, !list_elem_of_singleton.
  intros [Ha | ->] [Hb | ->]; auto; symmetry; auto.
Qed.

Lemma pyslice_one {A} (l : list A) (i : Z) (x : A) :
  0 <= i -> l !! Z.to_nat i = Some x -> pyslice l i (i + 1) = [x].
Proof.
  intros Hi Hx. rewrite pyslice_nonneg by lia.
  replace (Z.to_nat (i + 1) - Z.to_nat i)%nat with 1%nat by lia.
  erewrite drop_S by done. reflexivity.
Qed.

Lemma length_neighbours (bounds : list Z) :
  length (neighbours bounds) = (length bounds - 1)%nat.
Proof.
  unfold neighbours. rewrite length_zip_with.
  destruct bounds as [|b bounds]; cbn [tail length]; lia.
Qed.

Section ChunkInvariant.

Context (ids : list pystr).
Let n : Z := Z.of_nat (length ids).

(** The invariant of the scan: [a] is the start of the chunk that is
    open at position [i], and all ids from [a] to [i] are equal. *)
Lemma chunk_scan (mask : list bool) (i a : Z) :
  0 <= a <= i ->
  i + Z.of_nat (length mask) + 1 = n ->
  (forall (k : nat) x y, mask !! k = Some false ->
     ids !! Z.to_nat (i + Z.of_nat k) = Some x ->
     ids !! Z.to_nat (i + Z.of_nat k + 1) = Some y -> x = y) ->
  constant (pyslice ids a (i + 1)) ->
  let bounds := a :: map (fun j => j + 1) (where_from i mask) ++ [n] in
  Forall (fun ab => 0 <= ab.1 <= ab.2 /\ ab.2 <= n
                    /\ constant (pyslice ids ab.1 ab.2)) (neighbours bounds)
  /\ concat (map (fun ab => pyslice ids ab.1 ab.2) (neighbours bounds))
     = pyslice ids a n.
Proof.
  revert i a. induction mask as [|b mask IH]; intros i a Ha Hlen Hmask Hconst.
  - simpl in *. replace (i + 1) with n in Hconst by lia.
    split; [constructor; [simpl; repeat split; auto; lia | constructor] |].
    by rewrite app_nil_r.
  - cbn [length] in Hlen.
    assert (Hnext : forall (k : nat) x y, mask !! k = Some false ->
              ids !! Z.to_nat (i + 1 + Z.of_nat k) = Some x ->
              ids !! Z.to_nat (i + 1 + Z.of_nat k + 1) = Some y -> x = y).
    { intros k x y Hk Hx Hy. apply (Hmask (S k) x y Hk).
      - rewrite <- Hx. f_equal. lia.
      - rewrite <- Hy. f_equal. lia. }
    assert (Hi1 : is_Some (ids !! Z.to_nat (i + 1))).
    { apply lookup_lt_is_Some. unfold n in Hlen. lia. }
    destruct Hi1 as [y Hy].
    assert (Hi0 : is_Some (ids !! Z.to_nat i)).
    { apply lookup_lt_is_Some. unfold n in Hlen. lia. }
    destruct Hi0 as [x Hx].
    destruct b; cbn [where_from map app].
    + destruct (IH (i + 1) (i + 1)) as [IH1 IH2]; [lia | lia | done | |].
      { rewrite (pyslice_one _ _ y) by (done || lia).
        intros ? ? ->%list_elem_of_singleton ->%list_elem_of_singleton. done. }
      unfold neighbours in *. cbn [tail zip zip_with map concat] in *.
      split.
      * constructor; [|exact IH1]. simpl. repeat split; auto; lia.
      * cbn [fst snd]. rewrite IH2. apply pyslice_app3; lia.
    + destruct (IH (i + 1) a) as [IH1 IH2]; [lia | lia | done | |].
      { rewrite <- (pyslice_app3 _ a (i + 1) (i + 1 + 1)) by lia.
        rewrite (pyslice_one _ (i + 1) y) by (done || lia).
        apply (constant_snoc _ x); [done | |].
        - rewrite <- (pyslice_app3 _ a i (i + 1)) by lia.
          rewrite (pyslice_one _ i x) by (done || lia).
          apply elem_of_app. right. by apply list_elem_of_singleton.
        - apply (Hmask O x y); [done | |].
          + rewrite <- Hx. f_equal. lia.
          + rewrite <- Hy. f_equal. lia. }
      split; [exact IH1 | exact IH2].
Qed.

End ChunkInvariant.

Lemma IdArray_laws : @AtomSeqLaws (list pystr) IdArray.
Proof. split; reflexivity. Defined.

Lemma not_equal_length (ids : list pystr) :
  length (np_not_equal (pyslice ids 0 (-1))
                       (pyslice ids 1 (Z.of_nat (length ids))))
  = (length ids - 1)%nat.
Proof.
  unfold np_not_equal. rewrite length_zip_with.
  rewrite pyslice_all_but_last, pyslice_nonneg by lia.
  rewrite !length_take, length_drop. lia.
Qed.

Lemma not_equal_false (ids : list pystr) (k : nat) (x y : pystr) :
  np_not_equal (pyslice ids 0 (-1)) (pyslice ids 1 (Z.of_nat (length ids))) !! k
    = Some false ->
  ids !! k = Some x -> ids !! S k = Some y -> x = y.
Proof.
  unfold np_not_equal. intros Hk Hx Hy.
  apply lookup_zip_with_Some in Hk as (x' & y' & Hb & Hx' & Hy').
  rewrite pyslice_all_but_last in Hx'.
  apply lookup_take_Some in Hx' as [Hx' _].
  rewrite pyslice_nonneg, lookup_take_Some, lookup_drop in Hy' by lia.
  destruct Hy' as [Hy' _]. change (Z.to_nat 1 + k)%nat with (S k) in Hy'.
  assert (x' = x) by congruence. assert (y' = y) by congruence. subst.
  symmetry in Hb. apply negb_false_iff, bool_decide_eq_true in Hb. done.
Qed.

Section ChainTheorems.

Context {T : Type} `{AtomSeqLaws T}.

Lemma chain_iter_neighbours (array : T) :
  chain_iter array
  = (Ok (map (fun ab => atom_slice array ab.1 ab.2)
             (neighbours (get_chain_starts array ++ [seq_length array]))), []).
Proof.
  unfold chain_iter.
  set (l := get_chain_starts array ++ [seq_length array]).
  pose proof (for_each_consecutive (atom_slice array) [] l) as Hfe.
  cbn [app length] in Hfe. rewrite Hfe. clear Hfe.
  do 2 f_equal. unfold neighbours. clearbody l.
  generalize (tail l). induction l as [|a l IH]; intros [|b t]; simpl; auto.
  by rewrite IH.
Qed.

Lemma chain_bounds_scan (array : T) :
  let bounds := get_chain_starts array ++ [seq_length array] in
  Forall (fun ab => 0 <= ab.1 <= ab.2 /\ ab.2 <= seq_length array
                    /\ constant (pyslice (chain_id array) ab.1 ab.2))
         (neighbours bounds)
  /\ concat (map (fun ab => pyslice (chain_id array) ab.1 ab.2)
                 (neighbours bounds))
     = chain_id array.
Proof.
  intros bounds. subst bounds. unfold get_chain_starts.
  rewrite seq_length_chain_id.
  set (ids := chain_id array).
  destruct (decide (ids = [])) as [-> | Hne].
  - simpl. split; [|done]. repeat constructor; simpl; try lia.
    intros x y Hx. by apply elem_of_nil in Hx.
  - assert (Hlen : (0 < length ids)%nat) by (destruct ids; [done | simpl; lia]).
    destruct (chunk_scan ids
                (np_not_equal (pyslice ids 0 (-1))
                              (pyslice ids 1 (Z.of_nat (length ids)))) 0 0)
      as [H1 H2].
    + lia.
    + rewrite not_equal_length. lia.
    + intros k x y Hk Hx Hy. apply (not_equal_false ids k x y Hk).
      * rewrite <- Hx. f_equal. lia.
      * rewrite <- Hy. f_equal. lia.
    + destruct ids as [|x ids]; [done|].
      rewrite (pyslice_one _ 0 x) by (done || lia).
      intros ? ? ->%list_elem_of_singleton ->%list_elem_of_singleton. done.
    + unfold np_where. cbn [app]. split; [exact H1|].
      rewrite H2. apply pyslice_whole.
Qed.

(** C9.  The arrays yielded by [chain_iter] are the slices
    [array[..., b_k : b_k+1]] between neighbouring entries of the chain
    starts followed by the array length; these bounds begin with 0, never
    decrease and end with the array length, so the slices are consecutive,
    do not overlap and cover the whole array (their chain ids concatenate
    to the array's, their lengths add up to the array length); there are
    [get_chain_count] of them; and the chain id is constant in each. *)
Theorem chain_iter_partition (array : T) :
  let bounds := get_chain_starts array ++ [seq_length array] in
  exists chunks : list T,
    chain_iter array = (Ok chunks, [])
    /\ chunks = map (fun ab => atom_slice array ab.1 ab.2) (neighbours bounds)
    /\ head bounds = Some 0
    /\ last bounds = Some (seq_length array)
    /\ Forall (fun ab => 0 <= ab.1 <= ab.2 /\ ab.2 <= seq_length array)
              (neighbours bounds)
    /\ concat (map chain_id chunks) = chain_id array
    /\ foldr Z.add 0 (map seq_length chunks) = seq_length array
    /\ Z.of_nat (length chunks) = get_chain_count array
    /\ Forall (fun chunk => constant (chain_id chunk)) chunks.
Proof.
  intros bounds. destruct (chain_bounds_scan array) as [Hall Hcat].
  fold bounds in Hall, Hcat.
  assert (Hids : map chain_id
                   (map (fun ab => atom_slice array ab.1 ab.2) (neighbours bounds))
                 = map (fun ab => pyslice (chain_id array) ab.1 ab.2)
                       (neighbours bounds)).
  { rewrite map_map. apply map_ext. intros ab. apply chain_id_atom_slice. }
  eexists. split; [apply chain_iter_neighbours|]. fold bounds.
  split; [done|]. split; [done|].
  split; [subst bounds; apply last_snoc|].
  split; [eapply Forall_impl; [exact Hall | simpl; intros ? (? & ? & ?); auto]|].
  split; [by rewrite Hids|].
  split.
  { rewrite seq_length_chain_id.
    assert (Hc : concat (map chain_id
                   (map (fun ab => atom_slice array ab.1 ab.2) (neighbours bounds)))
                 = chain_id array) by (by rewrite Hids).
    revert Hc.
    generalize (map (fun ab => atom_slice array ab.1 ab.2) (neighbours bounds)).
    intros cs <-. induction cs as [|c cs IH]; [done|].
    cbn [map foldr concat]. rewrite length_app, Nat2Z.inj_add, <- IH.
    by rewrite seq_length_chain_id. }
  split.
  { rewrite length_map, length_neighbours. unfold get_chain_count.
    subst bounds. rewrite length_app. simpl. lia. }
  apply Forall_map. eapply Forall_impl; [exact Hall|].
  intros ab (_ & _ & Hc). simpl. by rewrite chain_id_atom_slice.
Qed.

End ChainTheorems.

Lemma chain_iter_partition_witness :
  exists chunks,
    @chain_iter _ IdArray [lit "A"; lit "A"; lit "B"] = (Ok chunks, [])
    /\ Forall (fun chunk => constant chunk) chunks.
Proof.
  destruct (@chain_iter_partition _ IdArray IdArray_laws [lit "A"; lit "A"; lit "B"])
    as (chunks & H1 & _ & _ & _ & _ & _ & _ & _ & H9).
  exists chunks. split; [exact H1 | exact H9].
Defined.

(** C10.  [get_chain_starts] returns an index list whose first entry is 0,
    whatever the array; hence [get_chain_count] is at least 1, and an
    array without atoms is counted as one chain. *)
Theorem chain_count_at_least_one {T : Type} `{AtomSeq T} (array : T) :
  (exists rest, get_chain_starts array = 0 :: rest)
  /\ 1 <= get_chain_count array
  /\ (chain_id array = [] -> get_chain_count array = 1).
Proof.
  unfold get_chain_count, get_chain_starts. cbn [app].
  split; [eauto|]. split; [simpl; lia|].
  intros ->. reflexivity.
Qed.

Lemma chain_count_at_least_one_witness :
  @get_chain_count _ IdArray [] = 1.
Proof.
  apply (@chain_count_at_least_one _ IdArray []). reflexivity.
Defined.

(** ** The record a read returns *)

Section ReaderResults.

Context `{Float}.

(** A successful read, with everything that is known about it. *)
Lemma read_result (lines : list pystr) (atoms : AtomArray) (ws : list warning) :
  read_structure_from_ctab lines = (Ok atoms, ws) ->
  exists cl n m ds bs,
    lines !! 0%nat = Some cl
    /\ _get_counts cl = (Ok (n, m), [])
    /\ 0 <= n /\ 0 <= m
    /\ Forall2 atom_line_reads (pyslice lines 1 (1 + n)) ds
    /\ Forall2 bond_line_reads (pyslice lines (1 + n) (1 + n + m)) bs
    /\ rows_in_range n (rows_read m bs)
    /\ atoms = atoms_read n m (pyslice lines 1 (1 + n)) ds bs
    /\ ws = read_warnings ds bs.
Proof.
  intros Hr.
  destruct (read_Ok_inv _ _ _ Hr)
    as (cl & n & m & ds & bs & H0 & Hc & Hn & Hm & Hds & Hbs & Hrg).
  exists cl, n, m, ds, bs.
  rewrite (read_Ok lines cl n m ds bs) in Hr by done.
  injection Hr as <- <-. auto 10.
Qed.

Lemma length_pyslice_nat {A} (l : list A) (a n : Z) :
  0 <= a -> 0 <= n -> (length (pyslice l a (a + n)) <= Z.to_nat n)%nat.
Proof.
  intros Ha Hn. destruct (length_pyslice_le l a (a + n)); lia.
Qed.

Lemma Forall_remove_redundant (P : Z * Z * Z -> Prop)
    (rows : list (Z * Z * Z)) :
  forall seen, Forall P rows -> Forall P (remove_redundant_bonds seen rows).
Proof.
  induction rows as [|r rows IH]; intros seen Hall; [constructor|].
  apply Forall_cons in Hall as [Hr Hall]. cbn [remove_redundant_bonds].
  destruct (existsb _ seen); [by apply IH|]. constructor; [done | by apply IH].
Qed.

Lemma length_remove_redundant (rows : list (Z * Z * Z)) :
  forall seen,
  (length (remove_redundant_bonds seen rows) <= length rows)%nat.
Proof.
  induction rows as [|r rows IH]; intros seen; [done|].
  cbn [remove_redundant_bonds].
  destruct (existsb _ seen);
    [specialize (IH seen) | specialize (IH (r.1 :: seen))];
    cbn [length]; lia.
Qed.

Lemma remove_redundant_fresh (rows : list (Z * Z * Z)) :
  forall seen r,
  r ∈ remove_redundant_bonds seen rows -> r.1 ∉ seen.
Proof.
  induction rows as [|r0 rows IH]; intros seen r Hr.
  - by apply elem_of_nil in Hr.
  - cbn [remove_redundant_bonds] in Hr.
    destruct (existsb _ seen) eqn:He; [by apply IH in Hr|].
    apply elem_of_cons in Hr as [-> | Hr].
    + intros Hin. apply existsb_same_atoms in Hin. congruence.
    + apply IH in Hr. intros Hin. apply Hr. by right.
Qed.

Lemma NoDup_remove_redundant (rows : list (Z * Z * Z)) :
  forall seen, NoDup (map fst (remove_redundant_bonds seen rows)).
Proof.
  induction rows as [|r rows IH]; intros seen; [constructor|].
  cbn [remove_redundant_bonds]. destruct (existsb _ seen); [apply IH|].
  cbn [map]. constructor; [|apply IH].
  change (map fst (remove_redundant_bonds (r.1 :: seen) rows))
    with (fst <$> remove_redundant_bonds (r.1 :: seen) rows).
  intros (r' & Heq & Hr')%list_elem_of_fmap.
  apply remove_redundant_fresh in Hr'. apply Hr'. rewrite Heq. left.
Qed.

Lemma rows_read_nonneg (m : Z) (bs : list (Z * Z * Z)) :
  Forall (fun r : Z * Z * Z => 0 <= r.1.1 /\ 0 <= r.1.2) (rows_read m bs).
Proof.
  unfold rows_read, splice. rewrite take_0. cbn [app].
  apply Forall_app. split.
  - apply Forall_map, Forall_forall. intros d _. unfold bond_row_read.
    cbn [fst snd]. unfold to_uint32.
    split; apply Z.mod_pos_bound; lia.
  - apply Forall_drop, Forall_replicate. cbn. lia.
Qed.

(** The bond list of a record that was read is a valid one. *)
Lemma bonds_made_read_valid (n m : Z) (bs : list (Z * Z * Z)) :
  rows_in_range n (rows_read m bs) ->
  BondList_valid (bonds_made n (rows_read m bs)).
Proof.
  intros Hrg. unfold BondList_valid, bonds_made. cbn [atom_count bond_rows].
  split; [|apply NoDup_remove_redundant].
  apply Forall_remove_redundant, Forall_map.
  pose proof (rows_read_nonneg m bs) as Hnn.
  unfold rows_in_range in Hrg.
  rewrite Forall_forall in Hrg, Hnn. apply Forall_forall.
  intros [[i j] t] Hin. specialize (Hrg _ Hin). specialize (Hnn _ Hin).
  cbn [fst snd sorted_bond] in *. lia.
Qed.

Lemma length_rows_read (m : Z) (bs : list (Z * Z * Z)) :
  (length bs <= Z.to_nat m)%nat -> length (rows_read m bs) = Z.to_nat m.
Proof.
  intros Hl. unfold rows_read.
  rewrite length_splice by (rewrite length_map, length_replicate; simpl; lia).
  apply length_replicate.
Qed.

(** X1.  Whatever the number of lines present, a record that is read has
    [n] atoms for the [n] of the counts line, an element and a charge for
    each, and a valid bond list for [n] atoms: at most [m] bonds, the atom
    indices of each in ascending order and below [n], no two bonds between
    the same two atoms. *)
Theorem read_sizes (lines : list pystr) (atoms : AtomArray)
    (ws : list warning)
    (Hr : read_structure_from_ctab lines = (Ok atoms, ws)) :
  exists cl n m qs b,
    lines !! 0%nat = Some cl
    /\ _get_counts cl = (Ok (n, m), [])
    /\ Z.of_nat (array_length atoms) = n
    /\ length (element atoms) = array_length atoms
    /\ charge atoms = Some qs /\ length qs = array_length atoms
    /\ bonds atoms = Some b
    /\ atom_count b = n
    /\ Z.of_nat (length (bond_rows b)) <= m
    /\ BondList_valid b.
Proof.
  destruct (read_result _ _ _ Hr)
    as (cl & n & m & ds & bs & H0 & Hc & Hn & Hm & Hds & Hbs & Hrg & -> & _).
  pose proof (Forall2_length _ _ _ Hds) as Lds.
  pose proof (Forall2_length _ _ _ Hbs) as Lbs.
  pose proof (length_pyslice_nat lines 1 n ltac:(lia) Hn) as La.
  pose proof (length_pyslice_nat lines (1 + n) m ltac:(lia) Hm) as Lb.
  exists cl, n, m,
    (splice 0 (map (fun d => charge_read d.2) ds) (replicate (Z.to_nat n) 0)),
    (bonds_made n (rows_read m bs)).
  unfold atoms_read, array_length. cbn [coord element charge bonds].
  rewrite !length_splice
    by (rewrite length_map, length_replicate; simpl; lia).
  rewrite !length_replicate.
  split; [done|]. split; [done|]. split; [lia|]. split; [done|].
  split; [done|]. split; [done|]. split; [done|]. split; [done|].
  split; [|by apply bonds_made_read_valid].
  unfold bonds_made. cbn [bond_rows].
  pose proof (length_remove_redundant (map sorted_bond (rows_read m bs)) [])
    as Hle.
  rewrite length_map, length_rows_read in Hle by lia. lia.
Qed.

Lemma Forall_splice {A} (P : A -> Prop) (i : nat) (new l : list A) :
  Forall P new -> Forall P l -> Forall P (splice i new l).
Proof.
  intros Hn Hl. unfold splice. rewrite !Forall_app.
  split; [by apply Forall_take|]. split; [done | by apply Forall_drop].
Qed.

Lemma atoms_read_wf (n m : Z) (atom_lines : list pystr)
    (ds : list (F * F * F * Z)) (bs : list (Z * Z * Z)) :
  (length atom_lines <= Z.to_nat n)%nat -> length ds = length atom_lines ->
  wf_atoms (atoms_read n m atom_lines ds bs).
Proof.
  intros Hl Hd. unfold wf_atoms, atoms_read, array_length.
  cbn [coord element charge bonds].
  rewrite !length_splice
    by (rewrite length_map, length_replicate; simpl; lia).
  by rewrite !length_replicate.
Qed.

(** X2.  A record that was read can always be written: the writer raises
    nothing and warns about nothing on it, and returns one line per
    declared atom and bond, the counts line and the terminator. *)
Theorem read_then_write (lines : list pystr) (atoms : AtomArray)
    (ws : list warning)
    (Hr : read_structure_from_ctab lines = (Ok atoms, ws)) :
  exists b out,
    bonds atoms = Some b
    /\ write_structure_to_ctab (Array atoms) = (Ok out, [])
    /\ length out = (array_length atoms + length (bond_rows b) + 2)%nat
    /\ last out = Some (lit "M  END").
Proof.
  destruct (read_result _ _ _ Hr)
    as (cl & n & m & ds & bs & H0 & Hc & Hn & Hm & Hds & Hbs & Hrg & -> & _).
  pose proof (Forall2_length _ _ _ Hds) as Lds.
  pose proof (length_pyslice_nat lines 1 n ltac:(lia) Hn) as La.
  pose proof (atoms_read_wf n m _ ds bs La (eq_sym Lds)) as Hwf.
  eexists _, _. split; [reflexivity|].
  split; [apply write_Ok; [exact Hwf | reflexivity]|].
  unfold lines_written. split.
  - cbn [app length]. rewrite !length_app, length_map. cbn [length].
    unfold array_length. rewrite length_atom_texts;
      [lia | apply Hwf | by apply length_charges_written].
  - rewrite !app_assoc. apply last_snoc.
Qed.

Lemma upper_char_idemp (c : ascii) : upper_char (upper_char c) = upper_char c.
Proof. destruct c as [[] [] [] [] [] [] [] []]; reflexivity. Qed.

Lemma upper_idemp (s : pystr) : upper (upper s) = upper s.
Proof.
  unfold upper. rewrite map_map. apply map_ext, upper_char_idemp.
Qed.

Lemma length_lstrip (s : pystr) : (length (lstrip s) <= length s)%nat.
Proof.
  induction s as [|c s IH]; [done|]. cbn [lstrip].
  destruct (is_space c); simpl; lia.
Qed.

Lemma length_strip (s : pystr) : (length (strip s) <= length s)%nat.
Proof.
  unfold strip, rstrip. rewrite length_rev.
  etrans; [apply length_lstrip|]. rewrite length_rev. apply length_lstrip.
Qed.

Lemma upper_take (k : nat) (s : pystr) : upper (take k s) = take k (upper s).
Proof.
  revert k. induction s as [|c s IH]; intros [|k]; try done.
  unfold upper in *. cbn [take map]. by rewrite IH.
Qed.

Lemma element_read_normal (line : pystr) :
  upper (element_read line) = element_read line
  /\ (length (element_read line) <= 3)%nat.
Proof.
  unfold element_read. split.
  - by rewrite upper_take, upper_idemp.
  - rewrite length_take. lia.
Qed.

Lemma charge_read_range (code : Z) : -3 <= charge_read code <= 3.
Proof.
  unfold charge_read, charge_of_code.
  destruct code as [|p|p]; cbn; try lia;
    do 3 (try (destruct p as [p|p|]; cbn; try lia)).
Qed.

Lemma to_uint32_range (v : Z) : 0 <= to_uint32 v < 2 ^ 32.
Proof. unfold to_uint32. apply Z.mod_pos_bound. lia. Qed.

Lemma bond_row_read_range (d : Z * Z * Z) :
  let r := bond_row_read d in
  0 <= r.1.1 < 2 ^ 32 /\ 0 <= r.1.2 < 2 ^ 32 /\ 0 <= r.2 <= 3.
Proof.
  unfold bond_row_read. cbn [fst snd].
  split; [apply to_uint32_range|]. split; [apply to_uint32_range|].
  unfold to_uint32.
  destruct (bond_type_read d.2); cbn [BondType_value];
    rewrite Z.mod_small; lia.
Qed.

(** X3.  The values of a record that was read: every formal charge lies
    in -3..3, every element symbol has at most three characters and no
    lower-case letter, and every bond row holds two unsigned 32-bit atom
    indices and one of the four stored bond types 0..3. *)
Theorem read_ranges (lines : list pystr) (atoms : AtomArray)
    (ws : list warning)
    (Hr : read_structure_from_ctab lines = (Ok atoms, ws)) :
  exists qs b,
    charge atoms = Some qs /\ bonds atoms = Some b
    /\ Forall (fun q => -3 <= q <= 3) qs
    /\ Forall (fun e => upper e = e /\ (length e <= 3)%nat) (element atoms)
    /\ Forall (fun r => 0 <= r.1.1 < 2 ^ 32 /\ 0 <= r.1.2 < 2 ^ 32
                        /\ 0 <= r.2 <= 3) (bond_rows b).
Proof.
  destruct (read_result _ _ _ Hr)
    as (cl & n & m & ds & bs & H0 & Hc & Hn & Hm & Hds & Hbs & Hrg & -> & _).
  eexists _, _. split; [reflexivity|]. split; [reflexivity|].
  cbn [atoms_read element bond_rows]. split; [|split].
  - apply Forall_splice.
    + apply Forall_map, Forall_forall. intros d _. apply charge_read_range.
    + apply Forall_replicate. lia.
  - apply Forall_splice.
    + apply Forall_map, Forall_forall. intros l _. apply element_read_normal.
    + apply Forall_replicate. split; [done | simpl; lia].
  - unfold bonds_made. cbn [bond_rows].
    apply Forall_remove_redundant, Forall_map. unfold rows_read.
    apply Forall_splice.
    + apply Forall_map, Forall_forall. intros d _.
      pose proof (bond_row_read_range d) as Hd. cbv zeta in Hd.
      destruct (bond_row_read d) as [[i j] t].
      cbn [fst snd sorted_bond] in *. lia.
    + apply Forall_replicate. cbn. lia.
Qed.

End ReaderResults.

(** ** What the reader looks at *)

Lemma pyslice_app_l {A} (l k : list A) (a b : Z) :
  0 <= a -> 0 <= b <= Z.of_nat (length l) ->
  pyslice (l ++ k) a b = pyslice l a b.
Proof.
  intros Ha Hb. rewrite !pyslice_nonneg by lia.
  destruct (decide (Z.to_nat a <= length l)%nat) as [Hal|Hal].
  - rewrite drop_app_le by done. apply take_app_le.
    rewrite length_drop. lia.
  - replace (Z.to_nat b - Z.to_nat a)%nat with 0%nat by lia. done.
Qed.

Lemma pyslice_cons {A} (x : A) (l : list A) (a b : Z) :
  1 <= a -> 1 <= b -> pyslice (x :: l) a b = pyslice l (a - 1) (b - 1).
Proof.
  intros Ha Hb. rewrite !pyslice_nonneg by lia.
  replace (Z.to_nat a) with (S (Z.to_nat (a - 1))) by lia.
  replace (Z.to_nat b) with (S (Z.to_nat (b - 1))) by lia.
  reflexivity.
Qed.

Lemma pyslice_map {A B} (f : A -> B) (l : list A) (a b : Z) :
  pyslice (map f l) a b = map f (pyslice l a b).
Proof.
  unfold pyslice. rewrite length_map.
  change (map f) with (fmap (M := list) f).
  by rewrite fmap_take, fmap_drop.
Qed.

Lemma pyslice_take {A} (l : list A) (k : nat) (a b : Z) :
  0 <= a -> 0 <= b <= Z.of_nat k ->
  pyslice (take k l) a b = pyslice l a b.
Proof.
  intros Ha Hb. rewrite !pyslice_nonneg by lia.
  destruct (decide (Z.to_nat a <= k)%nat) as [Hak|Hak].
  - replace k with (Z.to_nat a + (k - Z.to_nat a))%nat at 1 by lia.
    rewrite <- take_drop_commute, take_take. f_equal. lia.
  - replace (Z.to_nat b - Z.to_nat a)%nat with 0%nat by lia. done.
Qed.

Lemma for_enumerate_map {A St} (body : St -> nat -> A -> M St) (g : A -> A)
    (xs : list A) :
  (forall st i x, body st i (g x) = body st i x) ->
  forall i st,
    for_enumerate body i (map g xs) st = for_enumerate body i xs st.
Proof.
  intros Hg. induction xs as [|x xs IH]; intros i st; [done|].
  cbn [map for_enumerate]. rewrite Hg.
  destruct (body st i x) as [[st'|e] w]; [|done].
  unfold bind. by rewrite IH.
Qed.

Section ReaderInput.

Context `{Float}.

Lemma read_atom_line_take (atoms : AtomArray) (i : nat) (line : pystr) :
  read_atom_line atoms i (take 39 line) = read_atom_line atoms i line.
Proof.
  unfold read_atom_line. by rewrite !pyslice_take by (simpl; lia).
Qed.

Lemma read_bond_line_take (rows : list (Z * Z * Z)) (i : nat) (line : pystr) :
  read_bond_line rows i (take 39 line) = read_bond_line rows i line.
Proof.
  unfold read_bond_line. by rewrite !pyslice_take by (simpl; lia).
Qed.

Lemma read_take_39 (cl : pystr) (lines : list pystr) :
  read_structure_from_ctab (cl :: map (take 39) lines)
  = read_structure_from_ctab (cl :: lines).
Proof.
  unfold read_structure_from_ctab, item. cbn [lookup list_lookup orRaise].
  unfold ret. rewrite !bind_ret_l.
  destruct (_get_counts cl) as [[[n m]|e] w]; [|reflexivity].
  cbn [bind fst snd].
  unfold AtomArray_new. destruct (Z.ltb_spec n 0) as [Hn|Hn]; [reflexivity|].
  unfold ret. rewrite !bind_ret_l.
  rewrite !(pyslice_cons cl _ 1 (1 + n)) by lia. rewrite pyslice_map.
  rewrite (for_enumerate_map read_atom_line (take 39))
    by (intros; apply read_atom_line_take).
  destruct (for_enumerate read_atom_line 0 _ _) as [[atoms|e] w'];
    [|reflexivity].
  cbn [bind]. unfold zeros3.
  destruct (Z.ltb_spec m 0) as [Hm|Hm]; [reflexivity|].
  unfold ret. rewrite !bind_ret_l.
  rewrite !(pyslice_cons cl _ (1 + n) (1 + n + m)) by lia.
  rewrite pyslice_map.
  rewrite (for_enumerate_map read_bond_line (take 39))
    by (intros; apply read_bond_line_take).
  reflexivity.
Qed.

(** X4.  Only the first 39 columns of an atom or bond line are read: two
    inputs with the same counts line whose further lines agree, one by
    one, in their first 39 columns give the same result, the same
    exception and the same warnings. *)
Theorem read_first_39_columns (cl : pystr) (lines lines' : list pystr)
    (Hcols : Forall2 (fun l l' => take 39 l = take 39 l') lines lines') :
  read_structure_from_ctab (cl :: lines)
  = read_structure_from_ctab (cl :: lines').
Proof.
  rewrite <- (read_take_39 cl lines), <- (read_take_39 cl lines').
  do 2 f_equal. induction Hcols as [|l l' ls ls' Hl _ IH]; [done|].
  cbn [map]. by rewrite Hl, IH.
Qed.

(** X5.  The lines after the bond block are never looked at, the
    terminator included: when the counts are [n] and [m] and at least
    [1 + n + m] lines are present, any lines may follow. *)
Theorem read_ignores_rest (lines more : list pystr) (cl : pystr) (n m : Z)
    (H0 : lines !! 0%nat = Some cl)
    (Hc : _get_counts cl = (Ok (n, m), []))
    (Hn : 0 <= n) (Hm : 0 <= m)
    (Hlen : 1 + n + m <= Z.of_nat (length lines)) :
  read_structure_from_ctab (lines ++ more) = read_structure_from_ctab lines.
Proof.
  unfold read_structure_from_ctab, item.
  rewrite lookup_app_l by (apply lookup_lt_Some in H0; lia).
  rewrite H0. cbn [orRaise]. unfold ret. rewrite !bind_ret_l, Hc.
  rewrite !bind_ret_l. cbn [fst snd].
  by rewrite !pyslice_app_l by lia.
Qed.

End ReaderInput.

(** ** The tables, and reading what was written *)

Lemma CHARGE_MAPPING_REV_lookup (q : Z) :
  CHARGE_MAPPING_REV !! q
  = if decide (-3 <= q <= 3) then Some (code_of_charge q) else None.
Proof.
  unfold CHARGE_MAPPING_REV, dict_of_items, CHARGE_MAPPING_items.
  cbn [map foldl fst snd].
  lookup_cases. case_decide; [lia | done].
Qed.

Lemma BOND_TYPE_MAPPING_REV_lookup (t : Z) :
  BOND_TYPE_MAPPING_REV !! t
  = if decide (0 <= t <= 3) then Some (code_of_bond_value t) else None.
Proof.
  unfold BOND_TYPE_MAPPING_REV, dict_of_items, BOND_TYPE_MAPPING_items.
  cbn [map foldl fst snd BondType_value].
  lookup_cases. case_decide; [lia | done].
Qed.

(** X6.  The two charge tables are inverse to each other: a code is
    mapped to a charge by [CHARGE_MAPPING] exactly when the charge is
    mapped back to that code by [CHARGE_MAPPING_REV]. *)
Theorem charge_tables_inverse (code q : Z) :
  CHARGE_MAPPING !! code = Some q <-> CHARGE_MAPPING_REV !! q = Some code.
Proof.
  rewrite CHARGE_MAPPING_lookup, CHARGE_MAPPING_REV_lookup. split.
  - intros Hc. unfold charge_of_code in Hc.
    destruct code as [|p|p]; try done;
      do 3 (try (destruct p as [p|p|]; try done));
      injection Hc as <-; reflexivity.
  - case_decide as Hq; [|done]. intros [= <-].
    destruct q as [|p|p]; try reflexivity;
      do 2 (try (destruct p as [p|p|]; try reflexivity)); lia.
Qed.

(** X7.  The reverse bond-type table gives, for each of the four bond
    types, a code that [BOND_TYPE_MAPPING] maps to that type; of two codes
    with the same type it keeps the one listed last, so that the codes 1
    and 2 are written as 6 and 7 and every other code as itself. *)
Theorem bond_type_tables (t : BondType) (code : Z) :
  BOND_TYPE_MAPPING !! get BOND_TYPE_MAPPING_REV (BondType_value t) 0 = Some t
  /\ (BOND_TYPE_MAPPING !! code = Some t ->
      get BOND_TYPE_MAPPING_REV (BondType_value t) 0
      = if decide (code = 1) then 6 else if decide (code = 2) then 7 else code).
Proof.
  rewrite BOND_TYPE_MAPPING_REV_get, !BOND_TYPE_MAPPING_lookup. split.
  - by destruct t.
  - intros Hc. unfold bond_type_of_code in Hc.
    destruct code as [|p|p]; try done;
      do 4 (try (destruct p as [p|p|]; try done));
      injection Hc as <-; reflexivity.
Qed.

Section ReadWritten.

Context `{Float}.

Lemma charge_read_code_of_charge (q : Z) :
  -3 <= q <= 3 -> charge_read (code_of_charge q) = q.
Proof.
  intros Hq. destruct q as [|p|p]; try reflexivity;
    do 2 (try (destruct p as [p|p|]; try reflexivity)); lia.
Qed.

Lemma charge_warnings_written (q : Z) : charge_warnings (code_of_charge q) = [].
Proof.
  destruct q as [|p|p]; try reflexivity;
    do 2 (try (destruct p as [p|p|]; try reflexivity)).
Qed.

Lemma bond_warnings_written (t : Z) :
  0 <= t <= 3 ->
  bond_warnings (code_of_bond_value t)
  = if decide (t = 0) then [BondTypeWarning 8] else [].
Proof.
  intros Ht. destruct t as [|p|p]; try reflexivity; try lia.
  do 2 (try (destruct p as [p|p|]; try reflexivity)); lia.
Qed.

(** X8.  Reading what was written for a record within the limits of the
    layout (at most 999 atoms and 99 bonds) gives the record back: the
    elements, the formal charges in -3..3 and the valid bond list exactly,
    the coordinates as their ten-column texts are read.  A warning is
    issued for every bond of type [ANY], and for nothing else. *)
Theorem read_write_round_trip (atoms : AtomArray) (b : BondList)
    (qs : list Z) (cs' : list (F * F * F))
    (Hwf : wf_atoms atoms)
    (Hb : bonds atoms = Some b)
    (Hcount : atom_count b = Z.of_nat (array_length atoms))
    (Hval : BondList_valid b)
    (Hq : charge atoms = Some qs)
    (Hqs : Forall (fun q => -3 <= q <= 3) qs)
    (Hcan : canonical atoms b)
    (Hcs : Forall2 row_reread (coord atoms) cs') :
  exists lines,
    write_structure_to_ctab (Array atoms) = (Ok lines, [])
    /\ read_structure_from_ctab lines
       = (Ok {| coord := cs'; element := element atoms;
                charge := charge atoms; bonds := bonds atoms |},
          concat (map (fun r : Z * Z * Z =>
                         if decide (r.2 = 0) then [BondTypeWarning 8] else [])
                      (bond_rows b))).
Proof.
  exists (lines_written atoms b). split; [by apply write_Ok|].
  rewrite (read_written atoms b cs' Hwf Hcan Hcount Hval Hcs).
  assert (Hcw : charges_written atoms = qs)
    by (unfold charges_written; by rewrite Hq).
  rewrite Hcw, Hq, Hb. f_equal.
  - do 3 f_equal. rewrite <- (map_id qs) at 2. apply map_ext_Forall.
    eapply Forall_impl; [exact Hqs|]. intros q. apply charge_read_code_of_charge.
  - unfold read_warnings.
    assert (Hcq : forall (cs : list (F * F * F)) (l : list Z),
               concat (map (fun d : F * F * F * Z => charge_warnings d.2)
                           (zip_with (fun r' q => (r', code_of_charge q)) cs l))
               = []).
    { induction cs as [|c cs IH]; intros [|q l]; try done.
      cbn [zip_with map concat snd]. by rewrite charge_warnings_written, IH. }
    rewrite Hcq. cbn [app]. rewrite map_map. f_equal.
    apply map_ext_Forall. destruct Hcan as (_ & _ & _ & _ & Hrows).
    eapply Forall_impl; [exact Hrows|]. intros r (_ & _ & Hr). cbn [snd].
    by apply bond_warnings_written.
Qed.

End ReadWritten.

(** ** The layout of the written lines *)

Lemma length_rjust_max (w : nat) (s : pystr) :
  length (rjust w s) = Nat.max w (length s).
Proof. unfold rjust. rewrite length_app, length_replicate. lia. Qed.

Lemma length_fmt_3d_ge (k : Z) : (3 <= length (fmt_3d k))%nat.
Proof. unfold fmt_3d. rewrite length_rjust_max. lia. Qed.

Lemma length_zero_fields (k : nat) :
  length (str_times (fmt_3d 0) k) = (3 * k)%nat.
Proof.
  induction k as [|k IH]; [done|]. cbn [str_times].
  rewrite length_app, IH. change (length (fmt_3d 0)) with 3%nat. lia.
Qed.

Section WriterLayout.

Context `{Float}.

Lemma length_atom_line_text (row : F * F * F) (e : pystr) (code : Z) :
  length (atom_line_text row e code)
  = (Nat.max 10 (length (format_5f row.1.1))
     + Nat.max 10 (length (format_5f row.1.2))
     + Nat.max 10 (length (format_5f row.2))
     + 1 + Nat.max 3 (length e) + 2 + length (fmt_3d code) + 30)%nat.
Proof.
  unfold atom_line_text, fmt_10_5f. rewrite !length_app, !length_rjust_max.
  rewrite length_zero_fields. simpl length. lia.
Qed.

Lemma length_bond_line_text (a b code : Z) :
  length (bond_line_text a b code)
  = (length (fmt_3d a) + length (fmt_3d b) + length (fmt_3d code) + 12)%nat.
Proof.
  unfold bond_line_text. rewrite !length_app, length_zero_fields. lia.
Qed.

Lemma code_of_bond_value_range (t : Z) : 0 <= code_of_bond_value t <= 8.
Proof.
  destruct t as [|p|p]; cbn; try lia;
    do 2 (try (destruct p as [p|p|]; cbn; try lia)).
Qed.

(** X9.  The writer pads and never truncates: every atom line it returns
    has at least 69 characters and every bond line at least 21.  For a
    record within the limits of the layout they have exactly 69 and 21,
    so that each field is in the columns the reader takes it from. *)
Theorem write_line_widths (atoms : AtomArray) (b : BondList)
    (Hwf : wf_atoms atoms) (Hb : bonds atoms = Some b) :
  exists lines,
    write_structure_to_ctab (Array atoms) = (Ok lines, [])
    /\ (forall (i : nat) (line : pystr),
          (i < array_length atoms)%nat -> lines !! S i = Some line ->
          (69 <= length line)%nat
          /\ (canonical atoms b -> length line = 69%nat))
    /\ (forall (k : nat) (line : pystr),
          (k < length (bond_rows b))%nat ->
          lines !! S (array_length atoms + k) = Some line ->
          (21 <= length line)%nat
          /\ (canonical atoms b -> length line = 21%nat)).
Proof.
  exists (lines_written atoms b). split; [by apply write_Ok|].
  pose proof (length_charges_written atoms Hwf) as Hlq.
  assert (Hlt : length (atom_texts (coord atoms) (element atoms)
                                   (charges_written atoms))
                = array_length atoms).
  { apply length_atom_texts; [apply Hwf | done]. }
  unfold lines_written. cbn [app]. split.
  - intros i line Hi. rewrite lookup_cons.
    rewrite lookup_app_l by lia.
    destruct (lookup_lt_is_Some_2 (coord atoms) i Hi) as [row Hrow].
    destruct (lookup_lt_is_Some_2 (element atoms) i) as [e He];
      [destruct Hwf; lia|].
    destruct (lookup_lt_is_Some_2 (charges_written atoms) i) as [q Hqi];
      [lia|].
    rewrite (lookup_atom_texts _ _ _ _ _ _ _ Hrow He Hqi). intros [= <-].
    rewrite length_atom_line_text.
    pose proof (length_fmt_3d_ge (code_of_charge q)). split; [lia|].
    intros (_ & _ & Hrows & Hes & _).
    rewrite Forall_lookup in Hrows. rewrite Forall_lookup in Hes.
    destruct (Hrows i row Hrow) as (r' & (Hx & _) & (Hy & _) & (Hz & _)).
    destruct (Hes i e He) as [Hel _].
    destruct (fmt_3d_spec (code_of_charge q)) as [Hlc _];
      [pose proof (code_of_charge_range q); lia|].
    lia.
  - intros k line Hk. rewrite lookup_cons.
    rewrite lookup_app_r by lia. rewrite Hlt.
    replace (array_length atoms + k - array_length atoms)%nat with k by lia.
    rewrite lookup_app_l by (by rewrite length_map).
    rewrite list_lookup_fmap.
    destruct (lookup_lt_is_Some_2 (bond_rows b) k Hk) as [[[i j] t] Hrow].
    rewrite Hrow. cbn [fmap option_fmap option_map write_bond_line].
    intros [= <-]. rewrite length_bond_line_text.
    pose proof (length_fmt_3d_ge (i + 1)).
    pose proof (length_fmt_3d_ge (j + 1)).
    pose proof (length_fmt_3d_ge (get BOND_TYPE_MAPPING_REV t 0)).
    split; [lia|].
    intros (_ & _ & _ & _ & Hrows). rewrite Forall_lookup in Hrows.
    destruct (Hrows k _ Hrow) as (Hi & Hj & Ht). cbn [fst snd] in *.
    rewrite BOND_TYPE_MAPPING_REV_get.
    destruct (fmt_3d_spec (i + 1)) as [-> _]; [lia|].
    destruct (fmt_3d_spec (j + 1)) as [-> _]; [lia|].
    destruct (fmt_3d_spec (code_of_bond_value t)) as [-> _];
      [pose proof (code_of_bond_value_range t); lia|].
    done.
Qed.

End WriterLayout.

(** ** The counts line *)

Lemma is_digit_not_space (c : ascii) : is_digit c = true -> is_space c = false.
Proof. destruct c as [[] [] [] [] [] [] [] []]; done. Qed.

Lemma is_digit_not_c_space (c : ascii) :
  is_digit c = true -> is_c_space c = false.
Proof. destruct c as [[] [] [] [] [] [] [] []]; done. Qed.

Lemma is_digit_not_sign (c : ascii) :
  is_digit c = true ->
  (N_of_ascii c =? 43)%N = false /\ (N_of_ascii c =? 45)%N = false.
Proof. destruct c as [[] [] [] [] [] [] [] []]; done. Qed.

Lemma split_from_blanks (k : nat) (s : pystr) :
  split_from [] (replicate k " "%char ++ s) = split_from [] s.
Proof. induction k as [|k IH]; [done|]. exact IH. Qed.

Lemma split_from_token (tok cur rest : pystr) :
  forallb is_digit tok = true ->
  split_from cur (tok ++ rest) = split_from (rev tok ++ cur) rest.
Proof.
  revert cur. induction tok as [|c tok IH]; intros cur Ht; [done|].
  cbn [forallb] in Ht. apply andb_true_iff in Ht as [Hc Ht].
  cbn [app split_from]. rewrite (is_digit_not_space c Hc), (IH _ Ht).
  cbn [rev]. by rewrite <- app_assoc.
Qed.

Lemma split_from_end (cur rest : pystr) :
  cur <> [] ->
  split_from cur (" "%char :: rest) = rev cur :: split_from [] rest.
Proof. intros Hc. cbn [split_from]. by destruct cur. Qed.

Lemma rev_nil_inv {A} (l : list A) : rev l = [] -> l = [].
Proof.
  intros Hl. apply (f_equal (@rev _)) in Hl. by rewrite rev_involutive in Hl.
Qed.

Lemma c_lstrip_digits (s : pystr) :
  forallb is_digit s = true -> c_lstrip s = s.
Proof.
  destruct s as [|c s]; [done|]. cbn [forallb c_lstrip].
  intros [Hc _]%andb_true_iff. by rewrite (is_digit_not_c_space c Hc).
Qed.

Lemma forallb_rev {A} (f : A -> bool) (l : list A) :
  forallb f (rev l) = forallb f l.
Proof.
  induction l as [|x l IH]; [done|]. cbn [rev forallb].
  rewrite forallb_app, IH. cbn [forallb]. rewrite andb_true_r.
  apply andb_comm.
Qed.

Lemma c_strip_digits (s : pystr) :
  forallb is_digit s = true -> c_strip s = s.
Proof.
  intros Hs. unfold c_strip. rewrite (c_lstrip_digits s Hs).
  rewrite c_lstrip_digits by (by rewrite forallb_rev). apply rev_involutive.
Qed.

Lemma int_digits_run (s rest : pystr) (acc : Z) (f : bool) :
  forallb is_digit s = true -> s <> [] ->
  int_digits acc f (s ++ rest) = int_digits (digits_num acc s) true rest.
Proof.
  revert acc f. induction s as [|c s IH]; intros acc f Hs Hne; [done|].
  cbn [forallb] in Hs. apply andb_true_iff in Hs as [Hc Hs].
  cbn [app int_digits]. unfold is_digit in Hc.
  destruct (digit_val c) as [d|] eqn:Hd; [|done].
  destruct s as [|c' s'].
  - cbn. by rewrite Hd.
  - rewrite (IH _ _ Hs) by done. unfold digits_num at 2. cbn [foldl].
    by rewrite Hd.
Qed.

Lemma digits_num_acc (s : pystr) (acc : Z) :
  digits_num acc s = acc * 10 ^ Z.of_nat (length s) + digits_num 0 s.
Proof.
  revert acc. induction s as [|c s IH]; intros acc.
  - cbn. lia.
  - unfold digits_num. cbn [foldl length].
    fold (digits_num (10 * acc + default 0 (digit_val c)) s).
    fold (digits_num (10 * 0 + default 0 (digit_val c)) s).
    rewrite (IH (10 * acc + _)), (IH (10 * 0 + _)).
    rewrite Nat2Z.inj_succ, Z.pow_succ_r by lia. lia.
Qed.

Lemma int_of_str_digits (s : pystr) :
  forallb is_digit s = true -> s <> [] ->
  int_of_str s = Some (digits_num 0 s).
Proof.
  intros Hs Hne. unfold int_of_str. rewrite (c_strip_digits s Hs).
  destruct s as [|c r]; [done|].
  pose proof Hs as Hs'. cbn [forallb] in Hs'.
  apply andb_true_iff in Hs' as [Hc _].
  destruct (is_digit_not_sign c Hc) as [-> ->].
  rewrite <- (app_nil_r (c :: r)), (int_digits_run _ [] 0 false Hs Hne).
  by rewrite app_nil_r.
Qed.

Lemma str_of_int_exact_all : forallb str_of_int_exact (upto 1000) = true.
Proof. vm_compute. reflexivity. Qed.

Lemma str_of_int_spec (k : Z) :
  0 <= k <= 999 ->
  let s := str_of_int k in
  forallb is_digit s = true /\ s <> [] /\ (length s <= 3)%nat
  /\ digits_num 0 s = k /\ (100 <= k -> length s = 3%nat).
Proof.
  intros Hk s. pose proof str_of_int_exact_all as Hall.
  rewrite forallb_forall in Hall.
  specialize (Hall k (elem_of_upto 1000 k ltac:(lia))).
  unfold str_of_int_exact in Hall. fold s in Hall.
  repeat (apply andb_true_iff in Hall as [Hall ?]).
  split; [done|]. split; [by destruct s|]. split; [by apply Nat.leb_le|].
  split; [by apply Z.eqb_eq|]. intros Hk'.
  match goal with
  | Hor : _ || _ = true |- _ => apply orb_true_iff in Hor as [Hlt|Hl]
  end; [apply Z.ltb_lt in Hlt; lia | by apply Nat.eqb_eq].
Qed.

Lemma get_counts_glued (n m : Z) :
  0 <= n <= 999 -> 100 <= m <= 999 ->
  _get_counts (counts_line_text n m) = (Ok (1000 * n + m, 0), []).
Proof.
  intros Hn Hm.
  destruct (str_of_int_spec n Hn) as (Dn & Nn & Ln & Vn & _).
  destruct (str_of_int_spec m ltac:(lia)) as (Dm & Nm & _ & Vm & Lm).
  specialize (Lm ltac:(lia)).
  set (tok := str_of_int n ++ str_of_int m).
  assert (Dt : forallb is_digit tok = true)
    by (unfold tok; rewrite forallb_app; by rewrite Dn, Dm).
  assert (Nt : tok <> []) by (unfold tok; by destruct (str_of_int n)).
  assert (Hrest : split_from [] (lit "    0  0  0  0  0  1 V2000")
                  = [lit "0"; lit "0"; lit "0"; lit "0"; lit "0"; lit "1";
                     lit "V2000"])
    by (vm_compute; reflexivity).
  assert (Hzero : int_of_str (lit "0") = Some 0) by (vm_compute; reflexivity).
  assert (Hsplit : split (counts_line_text n m)
                   = tok :: [lit "0"; lit "0"; lit "0"; lit "0"; lit "0";
                             lit "1"; lit "V2000"]).
  { unfold split, counts_line_text, fmt_3d, rjust.
    rewrite Lm, Nat.sub_diag. cbn [replicate app].
    rewrite <- !app_assoc, split_from_blanks.
    rewrite (app_assoc (str_of_int n)). fold tok.
    rewrite (split_from_token tok [] _ Dt), app_nil_r.
    change (lit "   " ++ lit "  0  0  0  0  0  1 V2000")
      with (" "%char :: lit "    0  0  0  0  0  1 V2000").
    rewrite split_from_end by (by intros ->%rev_nil_inv).
    by rewrite rev_involutive, Hrest. }
  unfold _get_counts. rewrite Hsplit. unfold item.
  rewrite lookup_cons. cbn [orRaise]. unfold ret. rewrite bind_ret_l.
  rewrite (int_of_str_digits tok Dt Nt). cbn [orRaise]. unfold ret.
  rewrite bind_ret_l. rewrite lookup_cons, lookup_cons. cbn [orRaise].
  unfold ret. rewrite bind_ret_l, Hzero. cbn [orRaise]. unfold ret.
  rewrite bind_ret_l.
  replace (digits_num 0 tok) with (1000 * n + m); [reflexivity|].
  unfold tok, digits_num. rewrite foldl_app.
  fold (digits_num 0 (str_of_int n)). rewrite Vn.
  fold (digits_num n (str_of_int m)).
  rewrite digits_num_acc, Vm, Lm. lia.
Qed.

(** X10.  The counts line the writer produces for [n] atoms and [m]
    bonds, both at most 999, is read back by [_get_counts] as [(n, m)]
    when [m] is at most 99.  From 100 bonds on the two fields touch, the
    line is split into other tokens, and the counts read are
    [1000 * n + m] atoms and no bond. *)
Theorem counts_written_read (n m : Z)
    (Hn : 0 <= n <= 999) (Hm : 0 <= m <= 999) :
  _get_counts (counts_line_text n m)
  = (Ok (if decide (m <= 99) then (n, m) else (1000 * n + m, 0)), []).
Proof.
  case_decide as Hm99; [apply get_counts_written; lia|].
  apply get_counts_glued; lia.
Qed.

(** ** Chain starts *)

Lemma not_equal_lookup (ids : list pystr) (k : nat) (b : bool) :
  np_not_equal (pyslice ids 0 (-1)) (pyslice ids 1 (Z.of_nat (length ids))) !! k
    = Some b
  <-> exists x y, ids !! k = Some x /\ ids !! S k = Some y
                  /\ b = negb (bool_decide (x = y)).
Proof.
  unfold np_not_equal. rewrite lookup_zip_with_Some.
  rewrite pyslice_all_but_last, pyslice_nonneg by lia.
  split.
  - intros (x & y & -> & Hx & Hy).
    apply lookup_take_Some in Hx as [Hx _].
    rewrite lookup_take_Some, lookup_drop in Hy. destruct Hy as [Hy _].
    change (Z.to_nat 1 + k)%nat with (S k) in Hy. eauto.
  - intros (x & y & Hx & Hy & ->). exists x, y. split; [done|].
    pose proof (lookup_lt_Some _ _ _ Hy) as Hlt.
    split.
    + apply lookup_take_Some. split; [done | lia].
    + rewrite lookup_take_Some, lookup_drop. split; [done | lia].
Qed.

Lemma where_from_ge (i : Z) (mask : list bool) (j : Z) :
  j ∈ where_from i mask -> i <= j < i + Z.of_nat (length mask).
Proof.
  intros (k & Hk & ->)%elem_of_where_from.
  apply lookup_lt_Some in Hk. lia.
Qed.

Lemma where_from_lt (mask : list bool) (i : Z) (p q : nat) (a b : Z) :
  (p < q)%nat ->
  where_from i mask !! p = Some a -> where_from i mask !! q = Some b ->
  a < b.
Proof.
  revert i p q. induction mask as [|c mask IH]; intros i p q Hpq; [done|].
  cbn [where_from]. destruct c; [|apply IH; done].
  destruct q as [|q]; [lia|]. destruct p as [|p].
  - intros Ha Hb. simpl in Ha, Hb. injection Ha as <-.
    apply list_elem_of_lookup_2, where_from_ge in Hb. lia.
  - intros Ha Hb. simpl in Ha, Hb. apply (IH (i + 1) p q); [lia | done..].
Qed.

Section ChainStarts.

Context {T : Type} `{AtomSeq T}.

Lemma chain_starts_lookup_S (array : T) (p : nat) (a : Z) :
  get_chain_starts array !! S p = Some a <->
  exists (j : nat) x y,
    a = Z.of_nat (S j)
    /\ where_from 0 (np_not_equal
                       (pyslice (chain_id array) 0 (-1))
                       (pyslice (chain_id array) 1
                                (Z.of_nat (length (chain_id array))))) !! p
       = Some (Z.of_nat j)
    /\ chain_id array !! j = Some x /\ chain_id array !! S j = Some y
    /\ x <> y.
Proof.
  unfold get_chain_starts, np_where. cbn [app]. rewrite lookup_cons.
  change (map (fun i => i + 1)) with (fmap (M := list) (fun i : Z => i + 1)).
  rewrite list_lookup_fmap. split.
  - intros Ha. destruct (where_from _ _ !! p) as [a'|] eqn:Hp; [|done].
    injection Ha as <-.
    pose proof (list_elem_of_lookup_2 _ _ _ Hp) as Hin.
    apply elem_of_where_from in Hin as (j & Hj & ->).
    apply not_equal_lookup in Hj as (x & y & Hx & Hy & Hb).
    exists j, x, y. split; [lia|]. split; [done|].
    split; [done|]. split; [done|].
    symmetry in Hb. apply negb_true_iff, bool_decide_eq_false in Hb. done.
  - intros (j & x & y & -> & Hp & _). rewrite Hp. cbn. f_equal. lia.
Qed.

Lemma chain_starts_elem (array : T) (k : Z) :
  k ∈ get_chain_starts array <->
  k = 0 \/ exists (j : nat) x y,
             k = Z.of_nat (S j)
             /\ chain_id array !! j = Some x
             /\ chain_id array !! S j = Some y /\ x <> y.
Proof.
  split.
  - intros [[|p] Hp]%list_elem_of_lookup_1.
    + left. unfold get_chain_starts in Hp. cbn in Hp. congruence.
    + right. apply chain_starts_lookup_S in Hp
        as (j & x & y & -> & _ & Hx & Hy & Hxy). eauto 10.
  - intros [-> | (j & x & y & -> & Hx & Hy & Hxy)].
    + unfold get_chain_starts. cbn [app]. left.
    + assert (Hm : np_not_equal
                     (pyslice (chain_id array) 0 (-1))
                     (pyslice (chain_id array) 1
                        (Z.of_nat (length (chain_id array)))) !! j
                   = Some true).
      { apply not_equal_lookup. exists x, y. split; [done|].
        split; [done|]. symmetry.
        by apply negb_true_iff, bool_decide_eq_false. }
      assert (Hin : Z.of_nat j ∈ where_from 0 (np_not_equal
                     (pyslice (chain_id array) 0 (-1))
                     (pyslice (chain_id array) 1
                        (Z.of_nat (length (chain_id array))))))
        by (apply elem_of_where_from; exists j; split; [done | lia]).
      apply list_elem_of_lookup_1 in Hin as [p Hp].
      apply (list_elem_of_lookup_2 _ (S p)).
      apply chain_starts_lookup_S. exists j, x, y. auto.
Qed.

Lemma chain_starts_lt (array : T) (p q : nat) (a b : Z) :
  (p < q)%nat ->
  get_chain_starts array !! p = Some a ->
  get_chain_starts array !! q = Some b -> a < b.
Proof.
  intros Hpq Hp Hq. destruct q as [|q]; [lia|].
  apply chain_starts_lookup_S in Hq as (j & _ & _ & -> & Hq & _).
  destruct p as [|p].
  - unfold get_chain_starts in Hp. cbn in Hp. injection Hp as <-. lia.
  - apply chain_starts_lookup_S in Hp as (i & _ & _ & -> & Hp & _).
    pose proof (where_from_lt _ 0 p q _ _ ltac:(lia) Hp Hq). lia.
Qed.

(** X11.  The chain starts are 0 and the positions whose chain id
    differs from the one of the atom before, and nothing else; they are
    listed in strictly increasing order. *)
Theorem chain_starts_spec (array : T) :
  (forall k : Z,
     k ∈ get_chain_starts array <->
     k = 0 \/ exists (j : nat) x y,
                k = Z.of_nat (S j)
                /\ chain_id array !! j = Some x
                /\ chain_id array !! S j = Some y /\ x <> y)
  /\ (forall (p q : nat) a b,
        (p < q)%nat ->
        get_chain_starts array !! p = Some a ->
        get_chain_starts array !! q = Some b -> a < b).
Proof.
  split; [apply chain_starts_elem | apply chain_starts_lt].
Qed.

End ChainStarts.

(** ** Chains and chunks *)

Lemma lookup_neighbours (bounds : list Z) (k : nat) (a b : Z) :
  neighbours bounds !! k = Some (a, b)
  <-> bounds !! k = Some a /\ bounds !! S k = Some b.
Proof.
  unfold neighbours. split.
  - intros (x & y & [= -> ->] & Hx & Hy)%lookup_zip_with_Some.
    by rewrite lookup_tail in Hy.
  - intros [Ha Hb]. apply lookup_zip_with_Some. exists a, b.
    rewrite lookup_tail. done.
Qed.

Lemma head_pyslice {A} (l : list A) (a b : Z) :
  0 <= a < b -> head (pyslice l a b) = l !! Z.to_nat a.
Proof.
  intros Hab. rewrite head_lookup, lookup_pyslice by lia.
  f_equal. lia.
Qed.

Lemma last_pyslice {A} (l : list A) (a b : Z) :
  0 <= a < b -> b <= Z.of_nat (length l) ->
  last (pyslice l a b) = l !! Z.to_nat (b - 1).
Proof.
  intros Hab Hb. rewrite last_lookup.
  assert (Hlen : length (pyslice l a b) = Z.to_nat (b - a)).
  { rewrite pyslice_nonneg by lia. rewrite length_take, length_drop. lia. }
  rewrite Hlen, lookup_pyslice by lia. f_equal. lia.
Qed.

Lemma constant_lookup {A} (l : list A) (i j : nat) (x y : A) :
  constant l -> l !! i = Some x -> l !! j = Some y -> x = y.
Proof.
  intros Hc Hi Hj. apply Hc; by eapply list_elem_of_lookup_2.
Qed.

Section ChainShapes.

Context {T : Type} `{AtomSeq T}.

(** The bounds of the chunks: the chain starts and the number of atoms. *)
Lemma chunk_bounds (array : T) (k : nat) (a b : Z) :
  let ids := chain_id array in
  let bounds := get_chain_starts array ++ [Z.of_nat (length ids)] in
  bounds !! k = Some a -> bounds !! S k = Some b ->
  0 <= a <= b /\ b <= Z.of_nat (length ids)
  /\ constant (pyslice ids a b)
  /\ (ids <> [] -> a < b).
Proof.
  intros ids bounds Ha Hb.
  destruct (@chain_bounds_scan _ IdArray IdArray_laws ids) as [Hall _].
  change (@get_chain_starts _ IdArray ids) with (get_chain_starts array)
    in Hall.
  change (@seq_length _ IdArray ids) with (Z.of_nat (length ids)) in Hall.
  change (@chain_id _ IdArray ids) with ids in Hall.
  fold bounds in Hall. rewrite Forall_lookup in Hall.
  destruct (Hall k (a, b)) as (H1 & H2 & H3);
    [by apply lookup_neighbours|]. cbn [fst snd] in *.
  split; [done|]. split; [done|]. split; [done|]. intros Hne.
  assert (Hlen : (0 < length ids)%nat) by (destruct ids; [done | simpl; lia]).
  subst bounds.
  assert (Hka : (k < length (get_chain_starts array))%nat).
  { apply lookup_lt_Some in Hb. rewrite length_app in Hb.
    cbn [length] in Hb. lia. }
  rewrite lookup_app_l in Ha by done.
  destruct (decide (S k < length (get_chain_starts array))%nat) as [Hkb|Hkb].
  - rewrite lookup_app_l in Hb by done.
    by apply (chain_starts_lt array k (S k)); [lia | |].
  - rewrite lookup_app_r in Hb by lia.
    replace (S k - length (get_chain_starts array))%nat with 0%nat in Hb
      by lia.
    injection Hb as <-.
    apply list_elem_of_lookup_2, chain_starts_elem in Ha
      as [-> | (j & x & y & -> & _ & Hy & _)]; [lia|].
    apply lookup_lt_Some in Hy. fold ids in Hy. lia.
Qed.

Lemma constant_one_chain (array : T) :
  constant (chain_id array) -> get_chain_starts array = [0].
Proof.
  intros Hc.
  destruct (get_chain_starts array) as [|a [|b rest]] eqn:Hs.
  - unfold get_chain_starts in Hs. done.
  - unfold get_chain_starts in Hs. cbn [app] in Hs. congruence.
  - exfalso.
    assert (Hb : get_chain_starts array !! 1%nat = Some b) by (by rewrite Hs).
    apply chain_starts_lookup_S in Hb as (j & x & y & _ & _ & Hx & Hy & Hxy).
    apply Hxy. by eapply constant_lookup.
Qed.

Lemma one_chain_constant (array : T) :
  get_chain_starts array = [0] -> constant (chain_id array).
Proof.
  intros Hs.
  destruct (chunk_bounds array 0 0 (Z.of_nat (length (chain_id array))))
    as (_ & _ & Hc & _); [by rewrite Hs.. |].
  by rewrite pyslice_whole in Hc.
Qed.

(** X12.  An array is counted as one chain exactly when all its atoms
    have the same chain id (as is the case, vacuously, for an array without
    atoms). *)
Theorem chain_count_one_iff (array : T) :
  get_chain_count array = 1 <-> constant (chain_id array).
Proof.
  unfold get_chain_count. split.
  - intros Hc. apply one_chain_constant.
    pose proof (chain_starts_elem array 0) as [_ H0].
    destruct (get_chain_starts array) as [|a [|b rest]] eqn:Hs;
      simpl in Hc; try lia.
    unfold get_chain_starts in Hs. cbn [app] in Hs. congruence.
  - intros Hc. by rewrite constant_one_chain.
Qed.

(** X13.  [get_chains] raises [IndexError] on an array without atoms.
    On any other array it returns one chain id per chain, the id of the
    atom each chain starts with, and two neighbouring ids in the result
    differ. *)
Theorem get_chains_spec (array : T) :
  (chain_id array = [] -> get_chains array = (Err IndexError, []))
  /\ (chain_id array <> [] ->
      exists ids,
        get_chains array = (Ok ids, [])
        /\ Z.of_nat (length ids) = get_chain_count array
        /\ (forall (k : nat) a,
              get_chain_starts array !! k = Some a ->
              ids !! k = chain_id array !! Z.to_nat a)
        /\ (forall (k : nat) x y,
              ids !! k = Some x -> ids !! S k = Some y -> x <> y)).
Proof.
  split.
  - intros Hnil. unfold get_chains, get_chain_starts. rewrite Hnil.
    reflexivity.
  - intros Hne.
    set (g := (fun i => default [] (chain_id array !! Z.to_nat i))
              : Z -> pystr).
    assert (Hg : forall a, a ∈ get_chain_starts array ->
                 chain_id array !! Z.to_nat a = Some (g a)).
    { intros a Ha. unfold g.
      destruct (chain_id array !! Z.to_nat a) as [x|] eqn:Hx; [done|].
      exfalso. apply lookup_ge_None in Hx.
      apply chain_starts_elem in Ha as [-> | (j & x & y & -> & _ & Hy & _)].
      - destruct (chain_id array); [done | simpl in Hx; lia].
      - apply lookup_lt_Some in Hy. lia. }
    exists (map g (get_chain_starts array)).
    split; [|split; [|split]].
    + unfold get_chains. apply for_each_pure. intros a Ha.
      unfold item. by rewrite (Hg a Ha).
    + unfold get_chain_count. by rewrite length_map.
    + intros k a Ha.
      change (map g) with (fmap (M := list) g).
      rewrite list_lookup_fmap, Ha. cbn.
      symmetry. apply Hg. by eapply list_elem_of_lookup_2.
    + intros k x y.
      change (map g) with (fmap (M := list) g).
      rewrite !list_lookup_fmap.
      destruct (get_chain_starts array !! k) as [a|] eqn:Ha; [|done].
      destruct (get_chain_starts array !! S k) as [b|] eqn:Hb; [|done].
      cbn. intros [= <-] [= <-].
      pose proof (Hg a (list_elem_of_lookup_2 _ _ _ Ha)) as Hxa.
      pose proof (Hg b (list_elem_of_lookup_2 _ _ _ Hb)) as Hyb.
      destruct (chunk_bounds array k a b) as (Hab & Hbl & Hc & Hlt).
      { rewrite lookup_app_l by (by eapply lookup_lt_Some). done. }
      { rewrite lookup_app_l by (by eapply lookup_lt_Some). done. }
      specialize (Hlt Hne).
      apply chain_starts_lookup_S in Hb
        as (j & x' & y' & -> & _ & Hx' & Hy' & Hxy).
      replace (Z.to_nat (Z.of_nat (S j))) with (S j) in Hyb by lia.
      assert (g a = x') as ->.
      { apply (constant_lookup _ 0 (j - Z.to_nat a) _ _ Hc).
        - rewrite lookup_pyslice by lia. rewrite <- Hxa. f_equal. lia.
        - rewrite lookup_pyslice by lia. rewrite <- Hx'. f_equal. lia. }
      congruence.
Qed.

End ChainShapes.

Section ChainChunks.

Context {T : Type} `{AtomSeqLaws T}.

(** X14.  Every array that [chain_iter] yields is a single chain:
    counting its chains gives 1. *)
Theorem chain_iter_single_chains (array : T) :
  exists chunks,
    chain_iter array = (Ok chunks, [])
    /\ Forall (fun chunk => get_chain_count chunk = 1) chunks.
Proof.
  eexists. split; [apply chain_iter_neighbours|].
  apply Forall_map, Forall_lookup. intros k [a b] Hk.
  apply lookup_neighbours in Hk as [Ha Hb]. rewrite seq_length_chain_id in *.
  destruct (chunk_bounds array k a b Ha Hb) as (_ & _ & Hc & _).
  cbn [fst snd]. unfold get_chain_count.
  rewrite constant_one_chain; [done|]. by rewrite chain_id_atom_slice.
Qed.

(** X15.  The chunks of an array with atoms are maximal runs: none is
    empty, and the last atom of a chunk and the first atom of the next
    chunk have different chain ids. *)
Theorem chain_iter_maximal (array : T) (Hne : chain_id array <> []) :
  exists chunks,
    chain_iter array = (Ok chunks, [])
    /\ Forall (fun chunk => chain_id chunk <> []) chunks
    /\ (forall (k : nat) c d x y,
          chunks !! k = Some c -> chunks !! S k = Some d ->
          last (chain_id c) = Some x -> head (chain_id d) = Some y ->
          x <> y).
Proof.
  eexists. split; [apply chain_iter_neighbours|].
  rewrite seq_length_chain_id.
  set (bounds := get_chain_starts array
                 ++ [Z.of_nat (length (chain_id array))]).
  split.
  - apply Forall_map, Forall_lookup. intros k [a b] Hk.
    apply lookup_neighbours in Hk as [Ha Hb].
    destruct (chunk_bounds array k a b Ha Hb) as (Hab & Hbl & _ & Hlt).
    specialize (Hlt Hne). cbn [fst snd]. rewrite chain_id_atom_slice.
    intros Hnil. apply (f_equal length) in Hnil.
    rewrite pyslice_nonneg, length_take, length_drop in Hnil by lia.
    simpl in Hnil. lia.
  - intros k c d x y.
    change (map (fun ab : Z * Z => atom_slice array ab.1 ab.2))
      with (fmap (M := list) (fun ab : Z * Z => atom_slice array ab.1 ab.2)).
    rewrite !list_lookup_fmap.
    destruct (neighbours bounds !! k) as [[a b]|] eqn:Hk; [|done].
    destruct (neighbours bounds !! S k) as [[b' e]|] eqn:Hk'; [|done].
    cbn. intros [= <-] [= <-]. rewrite !chain_id_atom_slice.
    apply lookup_neighbours in Hk as [Ha Hb].
    apply lookup_neighbours in Hk' as [Hb' He].
    assert (b' = b) as -> by congruence.
    destruct (chunk_bounds array k a b Ha Hb) as (Hab & Hbl & _ & Hlt).
    destruct (chunk_bounds array (S k) b e Hb' He) as (Hbe & Hel & _ & Hlt').
    specialize (Hlt Hne). specialize (Hlt' Hne).
    rewrite last_pyslice, head_pyslice by lia.
    assert (Hs : get_chain_starts array !! S k = Some b).
    { subst bounds. rewrite lookup_app_l in Hb; [done|].
      apply lookup_lt_Some in He. rewrite length_app in He.
      cbn [length] in He. lia. }
    apply chain_starts_lookup_S in Hs
      as (j & x' & y' & -> & _ & Hx' & Hy' & Hxy).
    replace (Z.to_nat (Z.of_nat (S j) - 1)) with j by lia.
    replace (Z.to_nat (Z.of_nat (S j))) with (S j) by lia.
    congruence.
Qed.

End ChainChunks.

(** ** When the reader succeeds, and how it fails *)

Lemma get_counts_Ok_inv (line : pystr) (n m : Z) (ws : list warning) :
  _get_counts line = (Ok (n, m), ws) -> counts_parse line n m.
Proof.
  intros Hc. unfold _get_counts in Hc.
  apply bind_Ok_inv in Hc as (t0 & ? & ? & H0 & Hc & _).
  apply item_Ok_inv in H0 as [H0 _].
  apply bind_Ok_inv in Hc as (n0 & ? & ? & Hn & Hc & _).
  apply orRaise_Ok_inv in Hn as [Hn _].
  apply bind_Ok_inv in Hc as (t1 & ? & ? & H1 & Hc & _).
  apply item_Ok_inv in H1 as [H1 _].
  apply bind_Ok_inv in Hc as (n1 & ? & ? & Hm & Hc & _).
  apply orRaise_Ok_inv in Hm as [Hm _].
  injection Hc as <- <-. exists t0, t1. auto.
Qed.

Lemma Forall2_Forall_exists {A B} (R : A -> B -> Prop) (l : list A)
    (k : list B) :
  Forall2 R l k -> Forall (fun a => exists b, R a b) l.
Proof. induction 1; constructor; eauto. Qed.

Section ReaderOutcome.

Context `{Float}.

Lemma rows_in_range_read (n m : Z) (bs : list (Z * Z * Z)) :
  (length bs <= Z.to_nat m)%nat ->
  rows_in_range n (rows_read m bs)
  <-> Forall (fun d : Z * Z * Z =>
                (d.1.1 - 1) mod 2 ^ 32 < n /\ (d.1.2 - 1) mod 2 ^ 32 < n) bs
      /\ (Z.of_nat (length bs) < m -> 0 < n).
Proof.
  intros Hl. unfold rows_in_range, rows_read, splice.
  rewrite take_0. cbn [app length]. rewrite Forall_app, Forall_map.
  rewrite length_map, drop_replicate. split.
  - intros [Hbs Hz]. split; [exact Hbs|]. intros Hlt.
    destruct (Z.to_nat m - (0 + length bs))%nat as [|k] eqn:Hk; [lia|].
    cbn [replicate] in Hz. apply Forall_cons in Hz as [[Hz _] _].
    exact Hz.
  - intros [Hbs Hz]. split; [exact Hbs|].
    apply Forall_forall. intros r [-> Hk]%elem_of_replicate.
    cbn [fst snd]. split; apply Hz; lia.
Qed.

(** X16.  A connection table is read without exception exactly when its
    first line gives two counts [n] and [m] that are not negative, every
    atom line and bond line that is present within the declared block has
    fields that parse (three coordinates and a charge code; two atom
    numbers and a type code), and the bond list can be made: the atom
    numbers of the bond lines, less one and taken modulo [2^32], are below
    [n], and [n] is not 0 if a declared bond has no line.  Nothing else is
    required: neither as many lines as declared, nor a terminator, nor
    codes the tables list. *)
Theorem read_succeeds_iff (lines : list pystr) :
  (exists atoms ws, read_structure_from_ctab lines = (Ok atoms, ws))
  <-> exists cl n m ds bs,
        lines !! 0%nat = Some cl
        /\ counts_parse cl n m /\ 0 <= n /\ 0 <= m
        /\ Forall2 atom_line_reads (pyslice lines 1 (1 + n)) ds
        /\ Forall2 bond_line_reads (pyslice lines (1 + n) (1 + n + m)) bs
        /\ Forall (fun d : Z * Z * Z =>
                     (d.1.1 - 1) mod 2 ^ 32 < n
                     /\ (d.1.2 - 1) mod 2 ^ 32 < n) bs
        /\ (Z.of_nat (length bs) < m -> 0 < n).
Proof.
  split.
  - intros (atoms & ws & Hr).
    destruct (read_Ok_inv _ _ _ Hr)
      as (cl & n & m & ds & bs & H0 & Hc & Hn & Hm & Hds & Hbs & Hrg).
    exists cl, n, m, ds, bs. split; [done|].
    split; [by eapply get_counts_Ok_inv|]. split; [done|]. split; [done|].
    split; [done|]. split; [done|].
    apply rows_in_range_read; [|done].
    apply Forall2_length in Hbs. rewrite <- Hbs.
    apply (length_pyslice_nat lines (1 + n) m); lia.
  - intros (cl & n & m & ds & bs & H0 & Hc & Hn & Hm & Hds & Hbs & Hi & Hz).
    eexists _, _. apply (read_Ok lines cl n m ds bs); auto.
    + by apply get_counts_parse.
    + apply rows_in_range_read; [|done].
      apply Forall2_length in Hbs. rewrite <- Hbs.
      apply (length_pyslice_nat lines (1 + n) m); lia.
Qed.

(** The state of the atom loop at index [i]. *)
Lemma read_atom_line_Err (atoms : AtomArray) (i : nat) (line : pystr)
    (qs : list Z) (e : exn) (ws : list warning) :
  (i < array_length atoms)%nat ->
  (i < length (element atoms))%nat ->
  charge atoms = Some qs ->
  (i < length qs)%nat ->
  read_atom_line atoms i line = (Err e, ws) -> e = ValueError.
Proof.
  intros Hi He Hq Hiq Hr.
  destruct (lookup_lt_is_Some_2 (coord atoms) i Hi) as [[[x0 y0] z0] Hrow].
  destruct (float_of_str (pyslice line 0 10)) as [x|] eqn:Hx.
  2: { unfold read_atom_line in Hr. rewrite Hx in Hr.
       by injection Hr as <- _. }
  destruct (float_of_str (pyslice line 10 20)) as [y|] eqn:Hy.
  2: { unfold read_atom_line in Hr. rewrite Hx, Hy in Hr.
       cbn [orRaise] in Hr. unfold ret in Hr. rewrite bind_ret_l in Hr.
       rewrite (set_coord_Ok _ _ _ _ _ Hrow), bind_ret_l in Hr.
       by injection Hr as <- _. }
  destruct (float_of_str (pyslice line 20 30)) as [z|] eqn:Hz.
  2: { unfold read_atom_line in Hr. rewrite Hx, Hy, Hz in Hr.
       cbn [orRaise] in Hr. unfold ret in Hr. rewrite bind_ret_l in Hr.
       rewrite (set_coord_Ok _ _ _ _ _ Hrow), !bind_ret_l in Hr.
       erewrite set_coord_Ok in Hr
         by (cbn [coord]; apply list_lookup_insert_eq; exact Hi).
       rewrite bind_ret_l in Hr. by injection Hr as <- _. }
  destruct (int_of_str (pyslice line 36 39)) as [code|] eqn:Hcode.
  2: { unfold read_atom_line in Hr. rewrite Hx, Hy, Hz, Hcode in Hr.
       cbn [orRaise] in Hr. unfold ret in Hr. rewrite bind_ret_l in Hr.
       rewrite (set_coord_Ok _ _ _ _ _ Hrow), !bind_ret_l in Hr.
       erewrite set_coord_Ok in Hr
         by (cbn [coord]; apply list_lookup_insert_eq; exact Hi).
       rewrite !bind_ret_l in Hr.
       erewrite set_coord_Ok in Hr
         by (cbn [coord]; apply list_lookup_insert_eq;
             rewrite length_insert; exact Hi).
       rewrite bind_ret_l in Hr. unfold set_element in Hr.
       cbn [coord element charge bonds] in Hr.
       rewrite (store_Ok _ _ _ He) in Hr. unfold ret in Hr.
       rewrite !bind_ret_l in Hr. by injection Hr as <- _. }
  rewrite (read_atom_line_Ok atoms i line x y z code qs) in Hr by done.
  done.
Qed.

Lemma atom_loop_Err (lines : list pystr) :
  forall (i : nat) (atoms : AtomArray) (qs : list Z) e ws,
  charge atoms = Some qs ->
  length qs = array_length atoms ->
  length (element atoms) = array_length atoms ->
  (i + length lines <= array_length atoms)%nat ->
  for_enumerate read_atom_line i lines atoms = (Err e, ws) -> e = ValueError.
Proof.
  induction lines as [|line lines IH]; intros i atoms qs e ws Hq Hql He Hlen Hr;
    [done|].
  cbn [for_enumerate length] in Hr, Hlen.
  destruct (read_atom_line atoms i line) as [[a1|e1] w1] eqn:H1.
  - destruct (read_atom_line_Ok_inv _ _ _ _ _ _ H1 Hq)
      as (x & y & z & code & Hx & Hy & Hz & Hc & Hi & Hie & Hiq).
    rewrite (read_atom_line_Ok atoms i line x y z code qs) in H1 by auto.
    injection H1 as <- _. unfold bind in Hr.
    destruct (for_enumerate _ _ _ _) as [r w2] eqn:Hloop.
    injection Hr as -> _.
    eapply (IH (S i) _ (<[i := default 0 (charge_of_code code)]> qs));
      [| | | | exact Hloop];
      cbn [coord element charge bonds]; unfold array_length in *;
      cbn [coord element charge bonds]; rewrite ?length_insert; auto; lia.
  - injection Hr as <- _.
    eapply (read_atom_line_Err atoms i line qs); [lia | lia | done | lia | done].
Qed.

Lemma read_bond_line_Err (rows : list (Z * Z * Z)) (i : nat) (line : pystr)
    (e : exn) (ws : list warning) :
  (i < length rows)%nat ->
  read_bond_line rows i line = (Err e, ws) -> e = ValueError.
Proof.
  intros Hi Hr.
  destruct (lookup_lt_is_Some_2 rows i Hi) as [[[a0 b0] c0] Hrow].
  destruct (int_of_str (pyslice line 6 9)) as [code|] eqn:Hcode.
  2: { unfold read_bond_line in Hr. rewrite Hcode in Hr.
       by injection Hr as <- _. }
  destruct (int_of_str (pyslice line 0 3)) as [a|] eqn:Ha.
  2: { unfold read_bond_line in Hr. rewrite Hcode, Ha in Hr.
       cbn [orRaise] in Hr. unfold ret in Hr. rewrite bind_ret_l in Hr.
       destruct (get BOND_TYPE_MAPPING code ANY);
         unfold warn in Hr; rewrite ?bind_ret_l, ?bind_warn in Hr;
         cbn in Hr; by injection Hr as <- _. }
  destruct (int_of_str (pyslice line 3 6)) as [b|] eqn:Hb.
  2: { unfold read_bond_line in Hr. rewrite Hcode, Ha, Hb in Hr.
       cbn [orRaise] in Hr. unfold ret in Hr. rewrite bind_ret_l in Hr.
       destruct (get BOND_TYPE_MAPPING code ANY);
         unfold warn in Hr; rewrite ?bind_ret_l, ?bind_warn in Hr;
         cbv beta in Hr; rewrite ?bind_ret_l in Hr;
         rewrite (set_bond_Ok _ _ _ _ _ Hrow), bind_ret_l in Hr;
         cbn in Hr; by injection Hr as <- _. }
  rewrite (read_bond_line_Ok rows i line a b code) in Hr by done. done.
Qed.

Lemma bond_loop_Err (lines : list pystr) :
  forall (i : nat) (rows : list (Z * Z * Z)) e ws,
  (i + length lines <= length rows)%nat ->
  for_enumerate read_bond_line i lines rows = (Err e, ws) -> e = ValueError.
Proof.
  induction lines as [|line lines IH]; intros i rows e ws Hlen Hr; [done|].
  cbn [for_enumerate length] in Hr, Hlen.
  destruct (read_bond_line rows i line) as [[r1|e1] w1] eqn:H1.
  - destruct (read_bond_line_Ok_inv _ _ _ _ _ H1)
      as (a & b & code & Hc & Ha & Hb & Hi).
    rewrite (read_bond_line_Ok rows i line a b code) in H1 by auto.
    injection H1 as <- _. unfold bind in Hr.
    destruct (for_enumerate _ _ _ _) as [r w2] eqn:Hloop.
    injection Hr as -> _.
    eapply (IH (S i)); [|exact Hloop]. rewrite length_insert. lia.
  - injection Hr as <- _. eapply (read_bond_line_Err rows i line); [lia|done].
Qed.

(** X17.  The only exceptions of the reader are [IndexError] and
    [ValueError], and [IndexError] has two sources only: the counts line
    (no first line, or fewer than two counts in it), and the making of the
    bond list after every line has been read, when an atom index of a
    bond is not below the number of atoms.  The loops over the lines never
    raise it: a line that is missing or too short raises nothing or
    [ValueError]. *)
Theorem read_raises (lines : list pystr) (e : exn) (ws : list warning)
    (Hr : read_structure_from_ctab lines = (Err e, ws)) :
  (e = IndexError \/ e = ValueError)
  /\ (e = IndexError ->
      (forall cl n m, lines !! 0%nat = Some cl -> ~ counts_parse cl n m)
      \/ exists cl n m ds bs,
           lines !! 0%nat = Some cl
           /\ counts_parse cl n m /\ 0 <= n /\ 0 <= m
           /\ Forall2 atom_line_reads (pyslice lines 1 (1 + n)) ds
           /\ Forall2 bond_line_reads (pyslice lines (1 + n) (1 + n + m)) bs
           /\ ~ rows_in_range n (rows_read m bs)).
Proof.
  destruct (lines !! 0%nat) as [cl|] eqn:H0.
  2: { unfold read_structure_from_ctab, item in Hr. rewrite H0 in Hr.
       injection Hr as <- _. split; [by left|]. intros _. left. done. }
  destruct (_get_counts cl) as [[[n m]|e0] w0] eqn:Hc.
  2: { unfold read_structure_from_ctab in Hr.
       rewrite (item_Ok _ _ _ H0), bind_ret_l, Hc in Hr.
       injection Hr as <- _.
       assert (Hno : forall n m, ~ counts_parse cl n m).
       { intros n m Hp. apply get_counts_parse in Hp. congruence. }
       destruct (get_counts_fails cl Hno) as (e' & He' & Hk).
       split; [congruence|]. intros _. left. intros cl' n m [= <-].
       apply Hno. }
  pose proof (get_counts_no_warning cl) as Hw. rewrite Hc in Hw.
  cbn [snd] in Hw. subst w0.
  pose proof (get_counts_Ok_inv _ _ _ _ Hc) as Hp.
  unfold read_structure_from_ctab in Hr.
  rewrite (item_Ok _ _ _ H0), bind_ret_l, Hc, bind_ret_l in Hr.
  cbn [fst snd] in Hr. unfold AtomArray_new in Hr.
  destruct (Z.ltb_spec n 0) as [Hn|Hn].
  { injection Hr as <- _. split; [by right | done]. }
  unfold ret in Hr. rewrite bind_ret_l in Hr.
  pose proof (length_pyslice_nat lines 1 n ltac:(lia) Hn) as La.
  destruct (for_enumerate read_atom_line 0 _ _) as [[atoms|e1] w1] eqn:Hl.
  2: { cbn in Hr. injection Hr as <- _.
       assert (e1 = ValueError) as ->.
       { eapply (atom_loop_Err _ 0 _ (replicate (Z.to_nat n) 0));
           [| | | |exact Hl];
           unfold add_charge_annotation, array_length;
           cbn [coord element charge bonds]; rewrite ?length_replicate; auto;
           simpl; lia. }
       split; [by right | done]. }
  unfold bind at 1 in Hr. unfold zeros3 in Hr.
  destruct (Z.ltb_spec m 0) as [Hm|Hm].
  { cbn in Hr. injection Hr as <- _. split; [by right | done]. }
  unfold ret in Hr. rewrite bind_ret_l in Hr.
  pose proof (length_pyslice_nat lines (1 + n) m ltac:(lia) Hm) as Lb.
  destruct (for_enumerate read_bond_line 0 _ _) as [[rows|e2] w2] eqn:Hb.
  2: { cbn in Hr. injection Hr as <- _.
       assert (e2 = ValueError) as ->.
       { eapply (bond_loop_Err _ 0); [|exact Hb].
         rewrite length_replicate. simpl. lia. }
       split; [by right | done]. }
  eapply atom_loop_Ok_inv in Hl as (ds & Hds & _);
    [| unfold add_charge_annotation; cbn [charge]; reflexivity
     | unfold add_charge_annotation, array_length; cbn [coord];
       by rewrite !length_replicate
     | unfold add_charge_annotation, array_length; cbn [coord element];
       by rewrite !length_replicate ].
  pose proof Hb as Hb'.
  apply bond_loop_Ok_inv in Hb as (bs & Hbs & _).
  rewrite (bond_loop_Ok _ bs Hbs 0) in Hb'
    by (rewrite length_replicate; simpl; lia).
  injection Hb' as <- _. fold (rows_read m bs) in Hr.
  unfold bind at 1 in Hr. cbn beta iota in Hr.
  destruct (decide (rows_in_range n (rows_read m bs))) as [Hrg|Hrg].
  { rewrite (BondList_new_Ok n _ Hrg) in Hr. cbn in Hr. done. }
  rewrite (BondList_new_Err n _ Hrg) in Hr. cbn in Hr.
  injection Hr as <- _. split; [by left|]. intros _. right.
  exists cl, n, m, ds, bs. auto 10.
Qed.

End ReaderOutcome.

(** ** The fields of a record that was read *)

Lemma lookup_splice_new {A} (new l : list A) (k : nat) :
  (k < length new)%nat -> splice 0 new l !! k = new !! k.
Proof.
  intros Hk. unfold splice. rewrite take_0. cbn [app].
  by rewrite lookup_app_l.
Qed.

Lemma lookup_splice_old {A} (new l : list A) (k : nat) :
  (length new <= k)%nat -> splice 0 new l !! k = l !! k.
Proof.
  intros Hk. unfold splice. rewrite take_0. cbn [app].
  rewrite lookup_app_r by done. rewrite lookup_drop. f_equal. lia.
Qed.

Lemma get_BOND_TYPE_MAPPING (code : Z) :
  get BOND_TYPE_MAPPING code ANY = bond_type_read code.
Proof. unfold get, bond_type_read. by rewrite BOND_TYPE_MAPPING_lookup. Qed.

Lemma remove_redundant_covers (rows : list (Z * Z * Z)) :
  forall (seen : list (Z * Z)) (r : Z * Z * Z),
    r ∈ rows ->
    existsb (same_atoms r.1) seen = true
    \/ exists t, (r.1.1, r.1.2, t) ∈ remove_redundant_bonds seen rows.
Proof.
  induction rows as [|a rows IH]; intros seen r Hr.
  { by apply elem_of_nil in Hr. }
  cbn [remove_redundant_bonds].
  destruct (existsb (same_atoms a.1) seen) eqn:Ha.
  - apply elem_of_cons in Hr as [->|Hr]; [by left|]. by apply IH.
  - assert (Hhead : exists t,
               (a.1.1, a.1.2, t)
               ∈ a :: remove_redundant_bonds (a.1 :: seen) rows).
    { exists a.2. destruct a as [[i j] t]. cbn [fst snd]. by left. }
    apply elem_of_cons in Hr as [->|Hr]; [by right|].
    destruct (IH (a.1 :: seen) r Hr) as [Hs|[t Ht]].
    + cbn [existsb] in Hs. apply orb_true_iff in Hs as [Hs|Hs]; [|by left].
      unfold same_atoms in Hs. apply andb_true_iff in Hs as [H1 H2].
      apply Z.eqb_eq in H1, H2. rewrite H1, H2. by right.
    + right. exists t. by right.
Qed.

Lemma filter_pair_none (l : list (Z * Z * Z)) (p : Z * Z) :
  p ∉ map fst l -> filter (fun r : Z * Z * Z => r.1 = p) l = [].
Proof.
  induction l as [|a l IH]; intros Hp; [done|].
  cbn [map] in Hp. apply not_elem_of_cons in Hp as [Hne Hp].
  rewrite filter_cons. destruct (decide (a.1 = p)) as [<-|_]; [done|].
  by apply IH.
Qed.

Lemma one_row_of_pair (l : list (Z * Z * Z)) (p : Z * Z) (t : Z) :
  NoDup (map fst l) -> (p, t) ∈ l ->
  filter (fun r : Z * Z * Z => r.1 = p) l = [(p, t)].
Proof.
  induction l as [|a l IH]; intros Hnd Hin.
  { by apply elem_of_nil in Hin. }
  cbn [map] in Hnd. apply NoDup_cons in Hnd as [Hna Hnd].
  assert (Hfst : forall r : Z * Z * Z, r ∈ l -> r.1 ∈ map fst l).
  { intros r Hr. by apply (list_elem_of_fmap_2 fst). }
  rewrite filter_cons. destruct (decide (a.1 = p)) as [Hap|Hap].
  - apply elem_of_cons in Hin as [<-|Hin].
    + f_equal. apply filter_pair_none. exact Hna.
    + apply Hfst in Hin. cbn [fst] in Hin. by rewrite Hap in Hna.
  - apply elem_of_cons in Hin as [<-|Hin]; [done|]. by apply IH.
Qed.

Section ReaderFields.

Context `{Float}.

(** X18.  Atom [k] of a record that was read comes from line [1 + k] of
    the input: its coordinates are what columns 0-10, 10-20 and 20-30 of
    that line are read as, and its element is columns 31-34 without the
    blanks around and in upper case, of which the element annotation
    keeps the first two characters. *)
Theorem read_atom_fields (lines : list pystr) (atoms : AtomArray)
    (ws : list warning)
    (Hr : read_structure_from_ctab lines = (Ok atoms, ws)) :
  exists cl n m,
    lines !! 0%nat = Some cl
    /\ _get_counts cl = (Ok (n, m), [])
    /\ forall (k : nat) (line : pystr),
         Z.of_nat k < n -> lines !! S k = Some line ->
         exists x y z,
           float_of_str (pyslice line 0 10) = Some x
           /\ float_of_str (pyslice line 10 20) = Some y
           /\ float_of_str (pyslice line 20 30) = Some z
           /\ coord atoms !! k = Some (x, y, z)
           /\ element atoms !! k
              = Some (take 2 (upper (strip (pyslice line 31 34)))).
Proof.
  destruct (read_result _ _ _ Hr)
    as (cl & n & m & ds & bs & H0 & Hc & Hn & Hm & Hds & Hbs & Hrg & -> & _).
  exists cl, n, m. split; [done|]. split; [done|].
  intros k line Hk Hline.
  assert (Hs : pyslice lines 1 (1 + n) !! k = Some line).
  { rewrite lookup_pyslice by lia. exact Hline. }
  destruct (Forall2_lookup_l _ _ _ _ _ Hds Hs)
    as ([[[x y] z] code] & Hd & (Hx & Hy & Hz & _)).
  cbn [fst snd] in *. exists x, y, z.
  split; [done|]. split; [done|]. split; [done|].
  pose proof (lookup_lt_Some _ _ _ Hs) as Hlt.
  pose proof (Forall2_length _ _ _ Hds) as Lds.
  unfold atoms_read. cbn [coord element]. split.
  - rewrite lookup_splice_new by (rewrite length_map; lia).
    change (map fst ds) with (fst <$> ds).
    by rewrite list_lookup_fmap, Hd.
  - rewrite lookup_splice_new by (rewrite length_map; lia).
    change (map element_read (pyslice lines 1 (1 + n)))
      with (element_read <$> pyslice lines 1 (1 + n)).
    by rewrite list_lookup_fmap, Hs.
Qed.

(** X19.  The bonds of a record that was read.  The reader fills an array
    [rows] of one row for each declared bond: row [k] comes from line
    [1 + n + k], with the two atom numbers of columns 0-3 and 3-6, each
    less one and stored as an unsigned 32-bit integer, and the bond type
    the table gives for the code of columns 6-9, [ANY] for a code it does
    not list; a row whose line is missing stays three zeros.  The bond
    list is made of this array: every atom index is below the number of
    atoms, the two atoms of each row are put in increasing order, and of
    the rows that join the same two atoms the first alone is kept. *)
Theorem read_bond_fields (lines : list pystr) (atoms : AtomArray)
    (ws : list warning)
    (Hr : read_structure_from_ctab lines = (Ok atoms, ws)) :
  exists cl n m b (rows : list (Z * Z * Z)),
    lines !! 0%nat = Some cl
    /\ _get_counts cl = (Ok (n, m), [])
    /\ bonds atoms = Some b
    /\ length rows = Z.to_nat m
    /\ (forall (k : nat) (line : pystr),
          Z.of_nat k < m ->
          lines !! (Z.to_nat (1 + n) + k)%nat = Some line ->
          exists i j code,
            int_of_str (pyslice line 0 3) = Some i
            /\ int_of_str (pyslice line 3 6) = Some j
            /\ int_of_str (pyslice line 6 9) = Some code
            /\ rows !! k
               = Some ((i - 1) mod 2 ^ 32, (j - 1) mod 2 ^ 32,
                       BondType_value (get BOND_TYPE_MAPPING code ANY)))
    /\ (forall k : nat,
          Z.of_nat k < m ->
          lines !! (Z.to_nat (1 + n) + k)%nat = None ->
          rows !! k = Some (0, 0, 0))
    /\ Forall (fun r : Z * Z * Z => r.1.1 < n /\ r.1.2 < n) rows
    /\ atom_count b = n
    /\ bond_rows b = remove_redundant_bonds [] (map sorted_bond rows).
Proof.
  destruct (read_result _ _ _ Hr)
    as (cl & n & m & ds & bs & H0 & Hc & Hn & Hm & Hds & Hbs & Hrg & -> & _).
  exists cl, n, m, (bonds_made n (rows_read m bs)), (rows_read m bs).
  pose proof (Forall2_length _ _ _ Hbs) as Lbs.
  pose proof (length_pyslice_nat lines (1 + n) m ltac:(lia) Hm) as Lb.
  split; [done|]. split; [done|]. split; [reflexivity|].
  split; [apply length_rows_read; lia|].
  split; [|split; [|split; [exact Hrg|split; reflexivity]]].
  - intros k line Hk Hline.
    assert (Hs : pyslice lines (1 + n) (1 + n + m) !! k = Some line).
    { rewrite lookup_pyslice by lia. exact Hline. }
    destruct (Forall2_lookup_l _ _ _ _ _ Hbs Hs)
      as ([[i j] code] & Hd & (Hi & Hj & Hcode)).
    cbn [fst snd] in *. exists i, j, code.
    split; [done|]. split; [done|]. split; [done|].
    pose proof (lookup_lt_Some _ _ _ Hs) as Hlt.
    unfold rows_read.
    rewrite lookup_splice_new by (rewrite length_map; lia).
    change (map bond_row_read bs) with (bond_row_read <$> bs).
    rewrite list_lookup_fmap, Hd. cbn. unfold bond_row_read, to_uint32.
    cbn [fst snd]. rewrite get_BOND_TYPE_MAPPING. do 2 f_equal.
    destruct (bond_type_read code); reflexivity.
  - intros k Hk Hnone.
    assert (Hs : pyslice lines (1 + n) (1 + n + m) !! k = None).
    { rewrite lookup_pyslice by lia. exact Hnone. }
    apply lookup_ge_None in Hs. unfold rows_read.
    rewrite lookup_splice_old by (rewrite length_map; lia).
    by rewrite lookup_replicate_2 by lia.
Qed.

(** X20.  A truncated input is filled up silently: an atom for which no
    line is present (the input ends before line [1 + k]) has the
    coordinates a fresh array is filled with, the empty element and
    charge 0.  A bond without line is read as three zeros, a bond of
    atom 0 with itself, and the bond list keeps one bond for each pair of
    atoms: however many bond lines are missing, the record has one bond of
    atom 0 with itself for them, and when no bond line is present at all
    its bond list is that bond alone, with type 0. *)
Theorem read_defaults (lines : list pystr) (atoms : AtomArray)
    (ws : list warning)
    (Hr : read_structure_from_ctab lines = (Ok atoms, ws)) :
  exists cl n m qs b,
    lines !! 0%nat = Some cl
    /\ _get_counts cl = (Ok (n, m), [])
    /\ charge atoms = Some qs /\ bonds atoms = Some b
    /\ (forall k : nat,
          Z.of_nat k < n -> lines !! S k = None ->
          coord atoms !! k = Some (nan, nan, nan)
          /\ element atoms !! k = Some []
          /\ qs !! k = Some 0)
    /\ (forall k : nat,
          Z.of_nat k < m -> lines !! (Z.to_nat (1 + n) + k)%nat = None ->
          exists t,
            filter (fun r : Z * Z * Z => r.1 = (0, 0)) (bond_rows b)
            = [(0, 0, t)])
    /\ (1 <= m -> lines !! Z.to_nat (1 + n) = None ->
        bond_rows b = [(0, 0, 0)]).
Proof.
  destruct (read_result _ _ _ Hr)
    as (cl & n & m & ds & bs & H0 & Hc & Hn & Hm & Hds & Hbs & Hrg & -> & _).
  eexists cl, n, m, _, _. split; [done|]. split; [done|].
  split; [reflexivity|]. split; [reflexivity|].
  pose proof (Forall2_length _ _ _ Hds) as Lds.
  pose proof (Forall2_length _ _ _ Hbs) as Lbs.
  split; [|split].
  - intros k Hk Hnone.
    assert (Hs : pyslice lines 1 (1 + n) !! k = None).
    { rewrite lookup_pyslice by lia. exact Hnone. }
    apply lookup_ge_None in Hs.
    cbn [atoms_read coord element].
    rewrite !lookup_splice_old by (rewrite length_map; lia).
    rewrite !lookup_replicate_2 by lia. done.
  - intros k Hk Hnone.
    assert (Hs : pyslice lines (1 + n) (1 + n + m) !! k = None).
    { rewrite lookup_pyslice by lia. exact Hnone. }
    apply lookup_ge_None in Hs.
    assert (Hz : (0, 0, 0) ∈ map sorted_bond (rows_read m bs)).
    { change (0, 0, 0) with (sorted_bond (0, 0, 0)).
      apply (list_elem_of_fmap_2 sorted_bond).
      apply (list_elem_of_lookup_2 _ k). unfold rows_read.
      rewrite lookup_splice_old by (rewrite length_map; lia).
      by rewrite lookup_replicate_2 by lia. }
    destruct (remove_redundant_covers _ [] _ Hz) as [Hs'|[t Ht]]; [done|].
    cbn [fst snd] in Ht. exists t.
    apply one_row_of_pair; [|exact Ht].
    apply NoDup_remove_redundant.
  - intros Hm1 Hnone.
    assert (Hs : pyslice lines (1 + n) (1 + n + m) !! 0%nat = None).
    { rewrite lookup_pyslice by lia. by rewrite Nat.add_0_r. }
    apply lookup_ge_None in Hs.
    destruct bs as [|d bs]; [|simpl in Lbs; lia].
    cbn [atoms_read bonds]. unfold rows_read. cbn [map].
    rewrite splice_nil, bonds_made_zeros.
    destruct (Z.to_nat m) eqn:Hz; [lia | done].
Qed.

End ReaderFields.

Lemma swapped_lines_read :
  @read_structure_from_ctab Fixed5 swapped_lines = (Ok swapped_atoms, []).
Proof. apply observe_Ok. vm_compute. reflexivity. Qed.

Lemma read_atom_fields_witness :
  exists cl n m,
    swapped_lines !! 0%nat = Some cl
    /\ _get_counts cl = (Ok (n, m), [])
    /\ forall (k : nat) (line : pystr),
         Z.of_nat k < n -> swapped_lines !! S k = Some line ->
         exists x y z,
           @float_of_str Fixed5 (pyslice line 0 10) = Some x
           /\ @float_of_str Fixed5 (pyslice line 10 20) = Some y
           /\ @float_of_str Fixed5 (pyslice line 20 30) = Some z
           /\ coord swapped_atoms !! k = Some (x, y, z)
           /\ element swapped_atoms !! k
              = Some (take 2 (upper (strip (pyslice line 31 34)))).
Proof.
  apply (@read_atom_fields Fixed5 swapped_lines swapped_atoms []).
  apply observe_Ok. vm_compute. reflexivity.
Defined.

Lemma read_bond_fields_witness :
  exists cl n m b (rows : list (Z * Z * Z)),
    swapped_lines !! 0%nat = Some cl
    /\ _get_counts cl = (Ok (n, m), [])
    /\ bonds swapped_atoms = Some b
    /\ length rows = Z.to_nat m
    /\ (forall (k : nat) (line : pystr),
          Z.of_nat k < m ->
          swapped_lines !! (Z.to_nat (1 + n) + k)%nat = Some line ->
          exists i j code,
            int_of_str (pyslice line 0 3) = Some i
            /\ int_of_str (pyslice line 3 6) = Some j
            /\ int_of_str (pyslice line 6 9) = Some code
            /\ rows !! k
               = Some ((i - 1) mod 2 ^ 32, (j - 1) mod 2 ^ 32,
                       BondType_value (get BOND_TYPE_MAPPING code ANY)))
    /\ (forall k : nat,
          Z.of_nat k < m ->
          swapped_lines !! (Z.to_nat (1 + n) + k)%nat = None ->
          rows !! k = Some (0, 0, 0))
    /\ Forall (fun r : Z * Z * Z => r.1.1 < n /\ r.1.2 < n) rows
    /\ atom_count b = n
    /\ bond_rows b = remove_redundant_bonds [] (map sorted_bond rows).
Proof.
  apply (@read_bond_fields Fixed5 swapped_lines swapped_atoms []).
  apply observe_Ok. vm_compute. reflexivity.
Defined.

Lemma read_defaults_witness :
  exists cl n m qs b,
    [lit "  2  2"] !! 0%nat = Some cl
    /\ _get_counts cl = (Ok (n, m), [])
    /\ charge (@atoms_read Fixed5 2 2 [] [] []) = Some qs
    /\ bonds (@atoms_read Fixed5 2 2 [] [] []) = Some b
    /\ (forall k : nat,
          Z.of_nat k < n -> [lit "  2  2"] !! S k = None ->
          coord (@atoms_read Fixed5 2 2 [] [] []) !! k
          = Some (@nan Fixed5, @nan Fixed5, @nan Fixed5)
          /\ element (@atoms_read Fixed5 2 2 [] [] []) !! k = Some []
          /\ qs !! k = Some 0)
    /\ (forall k : nat,
          Z.of_nat k < m ->
          [lit "  2  2"] !! (Z.to_nat (1 + n) + k)%nat = None ->
          exists t,
            filter (fun r : Z * Z * Z => r.1 = (0, 0)) (bond_rows b)
            = [(0, 0, t)])
    /\ (1 <= m -> [lit "  2  2"] !! Z.to_nat (1 + n) = None ->
        bond_rows b = [(0, 0, 0)]).
Proof.
  apply (@read_defaults Fixed5 [lit "  2  2"] _ []).
  apply observe_Ok. vm_compute. reflexivity.
Defined.

(** ** The codes the writer uses *)

Lemma fmt_3d_digit (code : Z) :
  0 <= code <= 9 ->
  fmt_3d code = (lit "  " ++ [ascii_of_N (Z.to_N (48 + code))] : pystr).
Proof.
  intros Hc.
  assert (code = 0 \/ code = 1 \/ code = 2 \/ code = 3 \/ code = 4
          \/ code = 5 \/ code = 6 \/ code = 7 \/ code = 8 \/ code = 9)
    as Hcases by lia.
  repeat (destruct Hcases as [->|Hcases]; [vm_compute; reflexivity|]).
  subst code. vm_compute. reflexivity.
Qed.

Section WriterCodes.

Context `{Float}.

(** X21.  For a value of the enumerations the writer puts into the line
    a code that the reader's table maps back to it.  The line of an atom
    with a formal charge [q] in -3..3 is the three coordinates, the
    element, two blanks, the field of two blanks and the digit of a code
    that [CHARGE_MAPPING] maps to [q], and the ten zero fields.  The line
    of a bond with one of the four stored types is the two atom numbers,
    the field of two blanks and the digit of a code that
    [BOND_TYPE_MAPPING] maps to that type, and the four zero fields. *)
Theorem write_codes (atoms : AtomArray) (b : BondList)
    (Hwf : wf_atoms atoms) (Hb : bonds atoms = Some b) :
  exists lines : list pystr,
    write_structure_to_ctab (Array atoms) = (Ok lines, [])
    /\ (forall (i : nat) row e qs q,
          coord atoms !! i = Some row -> element atoms !! i = Some e ->
          charge atoms = Some qs -> qs !! i = Some q -> -3 <= q <= 3 ->
          exists code,
            CHARGE_MAPPING !! code = Some q
            /\ 0 <= code <= 7
            /\ lines !! S i
               = Some ((fmt_10_5f row.1.1 ++ fmt_10_5f row.1.2
                        ++ fmt_10_5f row.2
                        ++ (lit " " ++ rjust 3 e)
                        ++ (lit "  "
                            ++ lit "  " ++ [ascii_of_N (Z.to_N (48 + code))])
                        ++ lit "  0  0  0  0  0  0  0  0  0  0") : pystr))
    /\ (forall (k : nat) i j t,
          bond_rows b !! k = Some (i, j, t) -> 0 <= t <= 3 ->
          exists code ty,
            BOND_TYPE_MAPPING !! code = Some ty
            /\ BondType_value ty = t
            /\ 0 <= code <= 8
            /\ lines !! S (array_length atoms + k)
               = Some (((fmt_3d (i + 1) ++ fmt_3d (j + 1)
                         ++ lit "  " ++ [ascii_of_N (Z.to_N (48 + code))])
                        ++ lit "  0  0  0  0") : pystr)).
Proof.
  exists (lines_written atoms b). split; [by apply write_Ok|].
  pose proof (length_charges_written atoms Hwf) as Hlq.
  assert (Hlt : length (atom_texts (coord atoms) (element atoms)
                                   (charges_written atoms))
                = array_length atoms).
  { apply length_atom_texts; [apply Hwf | done]. }
  assert (Hzero : fmt_3d 0 = lit "  0") by (vm_compute; reflexivity).
  assert (Hten : str_times (lit "  0") 10
                 = lit "  0  0  0  0  0  0  0  0  0  0")
    by (vm_compute; reflexivity).
  assert (Hfour : str_times (lit "  0") 4 = lit "  0  0  0  0")
    by (vm_compute; reflexivity).
  unfold lines_written. cbn [app]. split.
  - intros i row e qs q Hrow He Hq Hqi Hrange.
    assert (Hcode : 0 <= code_of_charge q <= 7).
    { clear -Hrange. destruct q as [|p|p]; [done | |];
        do 2 (try (destruct p as [p|p|]; try done)); lia. }
    exists (code_of_charge q). split; [|split; [exact Hcode|]].
    + rewrite CHARGE_MAPPING_lookup. clear -Hrange.
      destruct q as [|p|p]; try reflexivity;
        do 2 (try (destruct p as [p|p|]; try reflexivity)); lia.
    + rewrite lookup_cons.
      rewrite lookup_app_l by (rewrite Hlt; by eapply lookup_lt_Some).
      assert (Hqw : charges_written atoms !! i = Some q).
      { unfold charges_written. by rewrite Hq. }
      rewrite (lookup_atom_texts _ _ _ _ _ _ _ Hrow He Hqw).
      unfold atom_line_text.
      by rewrite (fmt_3d_digit (code_of_charge q)), Hzero, Hten by lia.
  - intros k i j t Hk Ht.
    assert (Hcode : 0 <= code_of_bond_value t <= 8).
    { clear -Ht. destruct t as [|p|p]; [done | | lia].
      do 2 (try (destruct p as [p|p|]; try done)); lia. }
    exists (code_of_bond_value t).
    exists (match t with 1 => SINGLE | 2 => DOUBLE | 3 => TRIPLE | _ => ANY end).
    split; [|split; [|split; [exact Hcode|]]].
    + rewrite BOND_TYPE_MAPPING_lookup. clear -Ht.
      destruct t as [|p|p]; try reflexivity; try lia.
      do 2 (try (destruct p as [p|p|]; try reflexivity)); lia.
    + clear -Ht. destruct t as [|p|p]; try reflexivity; try lia.
      do 2 (try (destruct p as [p|p|]; try reflexivity)); lia.
    + rewrite lookup_cons, lookup_app_r by lia. rewrite Hlt.
      replace (array_length atoms + k - array_length atoms)%nat with k
        by lia.
      rewrite lookup_app_l by (rewrite length_map; by eapply lookup_lt_Some).
      rewrite list_lookup_fmap, Hk.
      cbn [fmap option_fmap option_map write_bond_line].
      rewrite BOND_TYPE_MAPPING_REV_get. unfold bond_line_text.
      by rewrite (fmt_3d_digit (code_of_bond_value t)), Hzero, Hfour by lia.
Qed.

(** X22.  A record with 100 to 999 bonds (and at most 999 atoms) is never
    read back from the lines written for it: if the read returns at all,
    it returns a record of a thousand times the atoms plus the number of
    bonds, with an empty bond list. *)
Theorem read_written_many_bonds (atoms : AtomArray) (b : BondList)
    (Hwf : wf_atoms atoms) (Hb : bonds atoms = Some b)
    (Hn : (array_length atoms <= 999)%nat)
    (Hm : (100 <= length (bond_rows b) <= 999)%nat) :
  exists lines,
    write_structure_to_ctab (Array atoms) = (Ok lines, [])
    /\ forall atoms' ws,
         read_structure_from_ctab lines = (Ok atoms', ws) ->
         Z.of_nat (array_length atoms')
         = 1000 * Z.of_nat (array_length atoms)
           + Z.of_nat (length (bond_rows b))
         /\ exists b', bonds atoms' = Some b' /\ bond_rows b' = [].
Proof.
  exists (lines_written atoms b). split; [by apply write_Ok|].
  intros atoms' ws Hr.
  destruct (read_result _ _ _ Hr)
    as (cl & n & m & ds & bs & H0 & Hc & Hn' & Hm' & Hds & Hbs & _ & -> & _).
  unfold lines_written in H0. cbn in H0. injection H0 as <-.
  rewrite get_counts_glued in Hc by lia. injection Hc as <- <-.
  pose proof (Forall2_length _ _ _ Hds) as Lds.
  pose proof (length_pyslice_nat (lines_written atoms b) 1
                (1000 * Z.of_nat (array_length atoms)
                 + Z.of_nat (length (bond_rows b)))
                ltac:(lia) ltac:(lia)) as La.
  unfold atoms_read, array_length at 1. cbn [coord bonds]. split.
  - rewrite length_splice
      by (rewrite length_map, length_replicate; simpl; lia).
    rewrite length_replicate. lia.
  - eexists. split; [reflexivity|]. cbn [bond_rows].
    rewrite Z.add_0_r, pyslice_empty in Hbs by lia.
    apply Forall2_length in Hbs.
    destruct bs; [reflexivity | done].
Qed.

End WriterCodes.

Lemma write_codes_witness :
  exists lines : list pystr,
    @write_structure_to_ctab Fixed5 (Array three_atoms) = (Ok lines, [])
    /\ (forall (i : nat) row e qs q,
          coord three_atoms !! i = Some row ->
          element three_atoms !! i = Some e ->
          charge three_atoms = Some qs -> qs !! i = Some q -> -3 <= q <= 3 ->
          exists code,
            CHARGE_MAPPING !! code = Some q
            /\ 0 <= code <= 7
            /\ lines !! S i
               = Some ((@fmt_10_5f Fixed5 row.1.1 ++ @fmt_10_5f Fixed5 row.1.2
                        ++ @fmt_10_5f Fixed5 row.2
                        ++ (lit " " ++ rjust 3 e)
                        ++ (lit "  "
                            ++ lit "  " ++ [ascii_of_N (Z.to_N (48 + code))])
                        ++ lit "  0  0  0  0  0  0  0  0  0  0") : pystr))
    /\ (forall (k : nat) i j t,
          bond_rows three_atoms_bonds !! k = Some (i, j, t) -> 0 <= t <= 3 ->
          exists code ty,
            BOND_TYPE_MAPPING !! code = Some ty
            /\ BondType_value ty = t
            /\ 0 <= code <= 8
            /\ lines !! S (array_length three_atoms + k)
               = Some (((fmt_3d (i + 1) ++ fmt_3d (j + 1)
                         ++ lit "  " ++ [ascii_of_N (Z.to_N (48 + code))])
                        ++ lit "  0  0  0  0") : pystr)).
Proof.
  exact (@write_codes Fixed5 three_atoms three_atoms_bonds
           three_atoms_wf eq_refl).
Defined.

Lemma read_written_many_bonds_witness :
  exists lines,
    @write_structure_to_ctab Fixed5 (Array ring100) = (Ok lines, [])
    /\ forall atoms' ws,
         @read_structure_from_ctab Fixed5 lines = (Ok atoms', ws) ->
         Z.of_nat (array_length atoms')
         = 1000 * Z.of_nat (array_length ring100)
           + Z.of_nat (length (bond_rows ring100_bonds))
         /\ exists b', bonds atoms' = Some b' /\ bond_rows b' = [].
Proof.
  apply (@read_written_many_bonds Fixed5 ring100 ring100_bonds).
  - split; reflexivity.
  - reflexivity.
  - vm_compute. lia.
  - vm_compute. lia.
Defined.

(** ** Closed instances of the further properties *)

Lemma spec_lines_read :
  @read_structure_from_ctab Fixed5 spec_lines
  = (Ok three_atoms, [BondTypeWarning 8]).
Proof. apply observe_Ok. vm_compute. reflexivity. Qed.

Lemma read_sizes_witness :
  exists cl n m qs b,
    swapped_lines !! 0%nat = Some cl
    /\ _get_counts cl = (Ok (n, m), [])
    /\ Z.of_nat (array_length swapped_atoms) = n
    /\ length (element swapped_atoms) = array_length swapped_atoms
    /\ charge swapped_atoms = Some qs
    /\ length qs = array_length swapped_atoms
    /\ bonds swapped_atoms = Some b
    /\ atom_count b = n
    /\ Z.of_nat (length (bond_rows b)) <= m
    /\ BondList_valid b.
Proof.
  apply (@read_sizes Fixed5 swapped_lines swapped_atoms []).
  apply observe_Ok. vm_compute. reflexivity.
Defined.

Lemma read_then_write_witness :
  exists b out,
    bonds three_atoms = Some b
    /\ @write_structure_to_ctab Fixed5 (Array three_atoms) = (Ok out, [])
    /\ length out = (array_length three_atoms + length (bond_rows b) + 2)%nat
    /\ last out = Some (lit "M  END").
Proof.
  exact (@read_then_write Fixed5 spec_lines three_atoms _ spec_lines_read).
Defined.

Lemma read_ranges_witness :
  exists qs b,
    charge three_atoms = Some qs /\ bonds three_atoms = Some b
    /\ Forall (fun q => -3 <= q <= 3) qs
    /\ Forall (fun e => upper e = e /\ (length e <= 3)%nat)
              (element three_atoms)
    /\ Forall (fun r => 0 <= r.1.1 < 2 ^ 32 /\ 0 <= r.1.2 < 2 ^ 32
                        /\ 0 <= r.2 <= 3) (bond_rows b).
Proof.
  exact (@read_ranges Fixed5 spec_lines three_atoms _ spec_lines_read).
Defined.

Lemma read_first_39_columns_witness :
  @read_structure_from_ctab Fixed5
    [ lit "  1  0  0  0  0  0  0  0  0  1 V2000";
      lit "   1.50000   0.00000   0.00000   C    0  0  0  0  0  0  0  0  0  0  0" ]
  = @read_structure_from_ctab Fixed5
    [ lit "  1  0  0  0  0  0  0  0  0  1 V2000";
      lit "   1.50000   0.00000   0.00000   C    0 and a remark" ].
Proof.
  apply (@read_first_39_columns Fixed5).
  constructor; [reflexivity | constructor].
Defined.

Lemma read_ignores_rest_witness :
  @read_structure_from_ctab Fixed5
    ([ lit "  1  0  0  0  0  0  0  0  0  1 V2000";
       lit "   1.50000   0.00000   0.00000   C    0  0  0  0  0  0  0  0  0  0  0" ]
     ++ [ lit "M  END"; lit "$$$$" ])
  = @read_structure_from_ctab Fixed5
    [ lit "  1  0  0  0  0  0  0  0  0  1 V2000";
      lit "   1.50000   0.00000   0.00000   C    0  0  0  0  0  0  0  0  0  0  0" ].
Proof.
  apply (@read_ignores_rest Fixed5 _ _
           (lit "  1  0  0  0  0  0  0  0  0  1 V2000") 1 0).
  - reflexivity.
  - vm_compute. reflexivity.
  - lia.
  - lia.
  - simpl. lia.
Defined.

Lemma three_atoms_reread :
  Forall2 (@row_reread Fixed5) (coord three_atoms) (coord three_atoms).
Proof.
  repeat constructor; try (vm_compute; lia); vm_compute; reflexivity.
Defined.

Lemma read_write_round_trip_witness :
  exists lines,
    @write_structure_to_ctab Fixed5 (Array three_atoms) = (Ok lines, [])
    /\ @read_structure_from_ctab Fixed5 lines
       = (Ok {| coord := coord three_atoms; element := element three_atoms;
                charge := charge three_atoms; bonds := bonds three_atoms |},
          concat (map (fun r : Z * Z * Z =>
                         if decide (r.2 = 0) then [BondTypeWarning 8] else [])
                      (bond_rows three_atoms_bonds))).
Proof.
  apply (@read_write_round_trip Fixed5 three_atoms three_atoms_bonds
           [0; 0; -1] (coord three_atoms)).
  - exact three_atoms_wf.
  - reflexivity.
  - reflexivity.
  - exact three_atoms_bonds_valid.
  - reflexivity.
  - repeat constructor; lia.
  - exact three_atoms_canonical.
  - exact three_atoms_reread.
Defined.

Lemma write_line_widths_witness :
  exists lines,
    @write_structure_to_ctab Fixed5 (Array three_atoms) = (Ok lines, [])
    /\ (forall (i : nat) (line : pystr),
          (i < array_length three_atoms)%nat -> lines !! S i = Some line ->
          (69 <= length line)%nat
          /\ (canonical three_atoms three_atoms_bonds ->
              length line = 69%nat))
    /\ (forall (k : nat) (line : pystr),
          (k < length (bond_rows three_atoms_bonds))%nat ->
          lines !! S (array_length three_atoms + k) = Some line ->
          (21 <= length line)%nat
          /\ (canonical three_atoms three_atoms_bonds ->
              length line = 21%nat)).
Proof.
  exact (@write_line_widths Fixed5 three_atoms three_atoms_bonds
           three_atoms_wf eq_refl).
Defined.

Lemma counts_written_read_witness :
  _get_counts (counts_line_text 100 100) = (Ok (100100, 0), []).
Proof.
  exact (counts_written_read 100 100 ltac:(lia) ltac:(lia)).
Defined.

Lemma chain_iter_single_chains_witness :
  exists chunks,
    @chain_iter _ IdArray [lit "A"; lit "A"; lit "B"] = (Ok chunks, [])
    /\ Forall (fun chunk => @get_chain_count _ IdArray chunk = 1) chunks.
Proof.
  exact (@chain_iter_single_chains _ IdArray IdArray_laws
           [lit "A"; lit "A"; lit "B"]).
Defined.

Lemma chain_iter_maximal_witness :
  exists chunks : list (list pystr),
    @chain_iter _ IdArray [lit "A"; lit "A"; lit "B"] = (Ok chunks, [])
    /\ Forall (fun chunk => chunk <> []) chunks
    /\ (forall (k : nat) c d x y,
          chunks !! k = Some c -> chunks !! S k = Some d ->
          last c = Some x -> head d = Some y -> x <> y).
Proof.
  apply (@chain_iter_maximal _ IdArray IdArray_laws
           [lit "A"; lit "A"; lit "B"]).
  discriminate.
Defined.

Lemma read_raises_witness :
  (IndexError = IndexError \/ IndexError = ValueError)
  /\ (IndexError = IndexError ->
      (forall cl n m, [lit "  0  1"] !! 0%nat = Some cl ->
                      ~ counts_parse cl n m)
      \/ exists cl n m (ds : list (@F Fixed5 * @F Fixed5 * @F Fixed5 * Z)) bs,
           [lit "  0  1"] !! 0%nat = Some cl
           /\ counts_parse cl n m /\ 0 <= n /\ 0 <= m
           /\ Forall2 atom_line_reads (pyslice [lit "  0  1"] 1 (1 + n)) ds
           /\ Forall2 bond_line_reads
                (pyslice [lit "  0  1"] (1 + n) (1 + n + m)) bs
           /\ ~ rows_in_range n (rows_read m bs)).
Proof.
  apply (@read_raises Fixed5 [lit "  0  1"] IndexError []).
  apply outcome_Err. vm_compute. reflexivity.
Defined.
